(** * gather_data.py: the ingestion pipeline of web_image_processor

    A shallow embedding of [src/gather_data.py] (class [ImageProcessor]) and the
    verification of its control and deduplication logic.

    - Python [bytes] are [list byte]; Python [str] is a list of Unicode code
      points ([pystr]).
    - [self] is the record [ImageProcessor]; every method is a computation in a
      state-and-exception monad over it.
    - The outside world (HTTP, the Firefox session, PIL, DuckDB, the clock) is an
      [oracle]: the answer of the n-th external call.  Every external call is
      also appended to a trace of [event]s, so that "is not invoked" and
      "sleeps for" are statements about the trace. *)

From Stdlib Require Import List ZArith NArith Bool Lia.
From Stdlib Require Import Strings.String Strings.Ascii Strings.Byte.
From Stdlib Require Import Floats.SpecFloat.
Import ListNotations.

(** ** Configuration ([CONFIG]) *)

Module Config.
Definition MAX_RETRIES : nat := 3.
Definition RETRY_DELAY : Z := 5.
(** [SIMILARITY_THRESHOLD] is 0.7, kept as the fraction 7/10. *)
Definition SIMILARITY_THRESHOLD_NUM : Z := 7.
Definition SIMILARITY_THRESHOLD_DEN : Z := 10.
Definition TIME_THRESHOLD : Z := 1.
Definition IMAGES_TO_PROCESS : nat := 50.
Definition REFRESH_INTERVAL : Z := 1.
Definition FETCH_BUFFER : Z := 100.
Definition PROCESS_THRESHOLD : Z := 100.
Definition PAUSE_DURATION : Z := 120.
Definition MAX_DRIVER_RETRIES : nat := 3.
End Config.

(** ** Python strings and bytes *)

Definition pystr := list N.

Definition code_of_byte (b : byte) : N := Byte.to_N b.

Definition bytes_of_string (s : string) : list byte := list_byte_of_string s.

Definition lit (s : string) : pystr := map code_of_byte (bytes_of_string s).

Fixpoint pystr_eqb (a b : pystr) : bool :=
  match a, b with
  | [], [] => true
  | x :: a', y :: b' => N.eqb x y && pystr_eqb a' b'
  | _, _ => false
  end.

Fixpoint tags_eqb (a b : list pystr) : bool :=
  match a, b with
  | [], [] => true
  | x :: a', y :: b' => pystr_eqb x y && tags_eqb a' b'
  | _, _ => false
  end.

(** ** The comment codec: [decode_user_comment] *)

Module Codec.

(** [bytes.startswith] *)
Fixpoint startswith (value affix : list byte) : bool :=
  match affix, value with
  | [], _ => true
  | p :: affix', v :: value' => Byte.eqb p v && startswith value' affix'
  | _ :: _, [] => false
  end.

(** *** [bytes.decode('utf-16-be')], strict: [None] is [UnicodeDecodeError] *)

Fixpoint utf16_units (b : list byte) : option (list N) :=
  match b with
  | [] => Some []
  | [_] => None
  | hi :: lo :: rest =>
      match utf16_units rest with
      | Some us => Some (N.lor (N.shiftl (code_of_byte hi) 8) (code_of_byte lo) :: us)
      | None => None
      end
  end.

Definition is_high_surrogate (w : N) : bool := (0xD800 <=? w)%N && (w <=? 0xDBFF)%N.
Definition is_low_surrogate (w : N) : bool := (0xDC00 <=? w)%N && (w <=? 0xDFFF)%N.

Fixpoint utf16_combine (us : list N) : option pystr :=
  match us with
  | [] => Some []
  | w :: rest =>
      if is_high_surrogate w then
        match rest with
        | lo :: rest' =>
            if is_low_surrogate lo then
              match utf16_combine rest' with
              | Some s => Some ((0x10000 + N.shiftl (w - 0xD800) 10 + (lo - 0xDC00))%N :: s)
              | None => None
              end
            else None
        | [] => None
        end
      else if is_low_surrogate w then None
      else
        match utf16_combine rest with
        | Some s => Some (w :: s)
        | None => None
        end
  end.

Definition decode_utf16_be (b : list byte) : option pystr :=
  match utf16_units b with
  | Some us => utf16_combine us
  | None => None
  end.

(** *** [bytes.decode('utf-8')], strict *)

Definition is_cont (c : N) : bool := N.eqb (N.land c 0xC0) 0x80.
Definition cont_bits (c : N) : N := N.land c 0x3F.

Fixpoint decode_utf8 (b : list byte) : option pystr :=
  match b with
  | [] => Some []
  | b0 :: r0 =>
      let c0 := code_of_byte b0 in
      if (c0 <? 0x80)%N then
        match decode_utf8 r0 with Some s => Some (c0 :: s) | None => None end
      else if N.eqb (N.land c0 0xE0) 0xC0 then
        match r0 with
        | b1 :: r1 =>
            let c1 := code_of_byte b1 in
            let cp := N.lor (N.shiftl (N.land c0 0x1F) 6) (cont_bits c1) in
            if is_cont c1 && (0x80 <=? cp)%N then
              match decode_utf8 r1 with Some s => Some (cp :: s) | None => None end
            else None
        | _ => None
        end
      else if N.eqb (N.land c0 0xF0) 0xE0 then
        match r0 with
        | b1 :: b2 :: r2 =>
            let c1 := code_of_byte b1 in
            let c2 := code_of_byte b2 in
            let cp := N.lor (N.shiftl (N.land c0 0x0F) 12)
                        (N.lor (N.shiftl (cont_bits c1) 6) (cont_bits c2)) in
            if is_cont c1 && is_cont c2 && (0x800 <=? cp)%N
               && negb ((0xD800 <=? cp)%N && (cp <=? 0xDFFF)%N) then
              match decode_utf8 r2 with Some s => Some (cp :: s) | None => None end
            else None
        | _ => None
        end
      else if N.eqb (N.land c0 0xF8) 0xF0 then
        match r0 with
        | b1 :: b2 :: b3 :: r3 =>
            let c1 := code_of_byte b1 in
            let c2 := code_of_byte b2 in
            let c3 := code_of_byte b3 in
            let cp := N.lor (N.shiftl (N.land c0 0x07) 18)
                        (N.lor (N.shiftl (cont_bits c1) 12)
                           (N.lor (N.shiftl (cont_bits c2) 6) (cont_bits c3))) in
            if is_cont c1 && is_cont c2 && is_cont c3
               && (0x10000 <=? cp)%N && (cp <=? 0x10FFFF)%N then
              match decode_utf8 r3 with Some s => Some (cp :: s) | None => None end
            else None
        | _ => None
        end
      else None
  end.

(** *** [bytes.decode('ascii')], strict *)

Fixpoint decode_ascii (b : list byte) : option pystr :=
  match b with
  | [] => Some []
  | b0 :: r0 =>
      let c0 := code_of_byte b0 in
      if (c0 <? 0x80)%N then
        match decode_ascii r0 with Some s => Some (c0 :: s) | None => None end
      else None
  end.

Inductive encoding := Utf16BE | Utf8 | Ascii.

Definition decode (e : encoding) (b : list byte) : option pystr :=
  match e with
  | Utf16BE => decode_utf16_be b
  | Utf8 => decode_utf8 b
  | Ascii => decode_ascii b
  end.

(** [s.replace('\x00', '')] *)
Definition remove_nul (s : pystr) : pystr := filter (fun c => negb (N.eqb c 0)) s.

(** *** [str(value)] *)

Definition hex_digit (n : N) : N :=
  if (n <? 10)%N then (48 + n)%N else (87 + n)%N.

Definition repr_byte (quote : N) (b : byte) : pystr :=
  let c := code_of_byte b in
  if N.eqb c quote || N.eqb c 92 then [92; c]%N
  else if N.eqb c 9 then [92; 116]%N
  else if N.eqb c 10 then [92; 110]%N
  else if N.eqb c 13 then [92; 114]%N
  else if (c <? 32)%N || (0x7f <=? c)%N then
    [92; 120; hex_digit (N.shiftr c 4); hex_digit (N.land c 15)]%N
  else [c].

Definition has_byte (c : N) (b : list byte) : bool :=
  existsb (fun x => N.eqb (code_of_byte x) c) b.

(** [repr] of a bytes object: the letter b and the escaped bytes between single
    quotes, or between double quotes when the bytes hold a single quote and
    no double quote. *)
Definition bytes_repr (b : list byte) : pystr :=
  let quote := if has_byte 39 b && negb (has_byte 34 b) then 34%N else 39%N in
  98%N :: quote :: flat_map (repr_byte quote) b ++ [quote].

Fixpoint pos_digits (fuel : nat) (n : N) (acc : pystr) : pystr :=
  match fuel with
  | O => acc
  | S fuel' =>
      let acc' := (48 + n mod 10)%N :: acc in
      if (n <? 10)%N then acc' else pos_digits fuel' (n / 10)%N acc'
  end.

Definition int_str (z : Z) : pystr :=
  let n := Z.to_N (Z.abs z) in
  let ds := pos_digits (S (N.to_nat (N.log2 n))) n [] in
  if (z <? 0)%Z then 45%N :: ds else ds.

(** The value PIL hands over for an EXIF tag. *)
Inductive exif_value :=
| EBytes (b : list byte)
| EStr (s : pystr)
| EInt (n : Z).

Definition py_str (v : exif_value) : pystr :=
  match v with
  | EBytes b => bytes_repr b
  | EStr s => s
  | EInt n => int_str n
  end.

(** The loop [for encoding in [...]: try: return ... except UnicodeDecodeError: pass];
    [None] means the loop ran to its end without returning. *)
Fixpoint try_encodings (encs : list encoding) (value : list byte) : option pystr :=
  match encs with
  | [] => None
  | e :: rest =>
      match decode e value with
      | Some s => Some (remove_nul s)
      | None => try_encodings rest value
      end
  end.

Definition UNICODE : list byte := bytes_of_string "UNICODE".

Definition decode_user_comment (value : exif_value) : pystr :=
  match value with
  | EBytes b =>
      let value := if startswith b UNICODE then skipn 8 b else b in
      match try_encodings [Utf16BE; Utf8; Ascii] value with
      | Some s => s
      | None => py_str (EBytes value)
      end
  | _ => py_str value
  end.

End Codec.

Import Codec.

(** ** Python values of the listing and of an assembled record *)


(** The scalar values a JSON listing field or a record field holds.  A Python
    float is an IEEE binary64 value ([spec_float]). *)
Inductive pyval :=
| PNone
| PInt (n : Z)
| PFloat (x : spec_float)
| PStr (s : pystr).

(** [float == int], exact as in Python. *)
Definition float_eq_int (x : spec_float) (n : Z) : bool :=
  match x with
  | S754_zero _ => Z.eqb n 0
  | S754_finite sign m e =>
      let v := if sign then Z.neg m else Z.pos m in
      if (0 <=? e)%Z then Z.eqb n (v * 2 ^ e) else Z.eqb (n * 2 ^ (- e)) v
  | _ => false
  end.

(** [a == b] on values, the test behind dict and set membership. *)
Definition py_eqb (a b : pyval) : bool :=
  match a, b with
  | PNone, PNone => true
  | PInt x, PInt y => Z.eqb x y
  | PFloat x, PFloat y => SFeqb x y
  | PInt n, PFloat x | PFloat x, PInt n => float_eq_int x n
  | PStr x, PStr y => pystr_eqb x y
  | _, _ => false
  end.

(** [bool(v)] *)
Definition truthy (v : pyval) : bool :=
  match v with
  | PNone => false
  | PInt n => negb (Z.eqb n 0)
  | PFloat x => negb (SFeqb x (S754_zero false))
  | PStr s => match s with [] => false | _ => true end
  end.

(** One element of the [items] array of the listing API. *)
Record api_item := {
  api_id : pyval;
  api_url : pyval;
  api_hash : pyval;
  api_createdAt : pyval;
  api_postId : pyval;
  api_username : pyval
}.

(** A listing item as [fetch_images] returns it: the API item with [web_url]. *)
Record listing_item := {
  item : api_item;
  item_web_url : pystr
}.

(** The dict built by [format_image_data]. *)
Record image_data := {
  id : pyval;
  url : pyval;
  hash : pyval;
  createdAt : pyval;
  postId : pyval;
  username : pyval;
  web_url : pyval;
  tags : list pystr;
  user_comment : pyval
}.

(** ** Exceptions *)

Inductive exn :=
| TimeoutException
| WebDriverException
| ValueError
| AttributeError
| TypeError
| RequestException
| DatabaseError.

(** [isinstance(e, WebDriverException)]: selenium declares [TimeoutException]
    as a subclass of [WebDriverException]. *)
Definition is_WebDriverException (e : exn) : bool :=
  match e with
  | TimeoutException | WebDriverException => true
  | _ => false
  end.

(** ** The outside world *)

(** What PIL reports for the downloaded file. *)
Inductive exif_result :=
| ExifError
| ExifAbsent
| ExifItems (items : list (Z * exif_value)).

(** What one rendering attempt ([driver.get], the wait for the main region,
    [find_elements] and the reads of [tag.text]) yields.  The comprehension
    reads the text of every link element in its condition and reads it again
    for the value it keeps: [RenderTexts] holds, for each element found, the
    text at the first read and the text at the second. *)
Inductive render_result :=
| RenderTimeout
| RenderSessionFault
| RenderTexts (texts : list (pystr * pystr)).

(** The answer of the n-th external call, for each kind of call.
    - [listing]: the items of the page, or [None] when the request raises a
      [RequestException].  The body is taken as the API gives it, an object
      whose [items] are objects with an [id]; a body of another shape, which
      would raise past [fetch_images], is not among the answers.
    - [http_get]: whether the download of the file and its write to disk went
      through; what fails there is caught by [process_image] alike. *)
Record oracle := {
  clock : nat -> Z;
  listing : nat -> option (list api_item);
  http_get : nat -> bool;
  exif : nat -> exif_result;
  firefox : nat -> bool;
  render : nat -> render_result;
  stored_entries : nat -> option (list (list pystr * pyval));
  duplicate_count : nat -> option Z;
  insert_ok : nat -> bool
}.

(** Python builtins and library functions the code calls on strings. *)
Record runtime := {
  str_isdigit : pystr -> bool;
  int_of_str : pystr -> option Z;
  float_of_str : pystr -> option spec_float;
  float_str : spec_float -> pystr;
  fromisoformat : pystr -> option pystr;
  matching_size : pystr -> pystr -> Z
}.

Inductive event :=
| EvNow
| EvSleep (micros : Z)
| EvFetchPage (page : Z)
| EvDownload (u : pyval)
| EvOpenImage
| EvFirefox
| EvQuit (session : nat)
| EvRender (session : option nat) (u : pystr)
| EvSelectAll
| EvQuery (user comment : pyval)
| EvInsert (data : image_data)
| EvClose.

(** ** The processor object *)

Record ImageProcessor := {
  processed_count : Z;
  skipped_count : Z;
  previous_images : list image_data;
  driver : option nat;
  existing_entries_set : list (list pystr * pyval);
  processed_ids : list pyval;
  recent_users : list (pyval * Z);
  consecutive_duplicate_count : Z;
  tick : nat;
  trace : list event
}.

(** [__init__] *)
Definition init : ImageProcessor := {|
  processed_count := 0;
  skipped_count := 0;
  previous_images := [];
  driver := None;
  existing_entries_set := [];
  processed_ids := [];
  recent_users := [];
  consecutive_duplicate_count := 0;
  tick := 0;
  trace := []
|}.

Definition set_processed_count (v : Z) (s : ImageProcessor) :=
  {| processed_count := v; skipped_count := skipped_count s;
     previous_images := previous_images s; driver := driver s;
     existing_entries_set := existing_entries_set s; processed_ids := processed_ids s;
     recent_users := recent_users s;
     consecutive_duplicate_count := consecutive_duplicate_count s;
     tick := tick s; trace := trace s |}.

Definition set_skipped_count (v : Z) (s : ImageProcessor) :=
  {| processed_count := processed_count s; skipped_count := v;
     previous_images := previous_images s; driver := driver s;
     existing_entries_set := existing_entries_set s; processed_ids := processed_ids s;
     recent_users := recent_users s;
     consecutive_duplicate_count := consecutive_duplicate_count s;
     tick := tick s; trace := trace s |}.

Definition set_previous_images (v : list image_data) (s : ImageProcessor) :=
  {| processed_count := processed_count s; skipped_count := skipped_count s;
     previous_images := v; driver := driver s;
     existing_entries_set := existing_entries_set s; processed_ids := processed_ids s;
     recent_users := recent_users s;
     consecutive_duplicate_count := consecutive_duplicate_count s;
     tick := tick s; trace := trace s |}.

Definition set_driver (v : option nat) (s : ImageProcessor) :=
  {| processed_count := processed_count s; skipped_count := skipped_count s;
     previous_images := previous_images s; driver := v;
     existing_entries_set := existing_entries_set s; processed_ids := processed_ids s;
     recent_users := recent_users s;
     consecutive_duplicate_count := consecutive_duplicate_count s;
     tick := tick s; trace := trace s |}.

Definition set_existing_entries_set (v : list (list pystr * pyval)) (s : ImageProcessor) :=
  {| processed_count := processed_count s; skipped_count := skipped_count s;
     previous_images := previous_images s; driver := driver s;
     existing_entries_set := v; processed_ids := processed_ids s;
     recent_users := recent_users s;
     consecutive_duplicate_count := consecutive_duplicate_count s;
     tick := tick s; trace := trace s |}.

Definition set_processed_ids (v : list pyval) (s : ImageProcessor) :=
  {| processed_count := processed_count s; skipped_count := skipped_count s;
     previous_images := previous_images s; driver := driver s;
     existing_entries_set := existing_entries_set s; processed_ids := v;
     recent_users := recent_users s;
     consecutive_duplicate_count := consecutive_duplicate_count s;
     tick := tick s; trace := trace s |}.

Definition set_recent_users (v : list (pyval * Z)) (s : ImageProcessor) :=
  {| processed_count := processed_count s; skipped_count := skipped_count s;
     previous_images := previous_images s; driver := driver s;
     existing_entries_set := existing_entries_set s; processed_ids := processed_ids s;
     recent_users := v;
     consecutive_duplicate_count := consecutive_duplicate_count s;
     tick := tick s; trace := trace s |}.

Definition set_consecutive_duplicate_count (v : Z) (s : ImageProcessor) :=
  {| processed_count := processed_count s; skipped_count := skipped_count s;
     previous_images := previous_images s; driver := driver s;
     existing_entries_set := existing_entries_set s; processed_ids := processed_ids s;
     recent_users := recent_users s;
     consecutive_duplicate_count := v;
     tick := tick s; trace := trace s |}.

(** One external call: the call is recorded and the call counter advances. *)
Definition record_call (e : event) (s : ImageProcessor) :=
  {| processed_count := processed_count s; skipped_count := skipped_count s;
     previous_images := previous_images s; driver := driver s;
     existing_entries_set := existing_entries_set s; processed_ids := processed_ids s;
     recent_users := recent_users s;
     consecutive_duplicate_count := consecutive_duplicate_count s;
     tick := S (tick s); trace := trace s ++ [e] |}.

(** ** The monad of methods: state and exceptions *)

Inductive result (A : Type) :=
| Ok (a : A)
| Raise (e : exn).
Arguments Ok {A} a.
Arguments Raise {A} e.

Definition M (A : Type) := ImageProcessor -> result A * ImageProcessor.

Definition ret {A} (a : A) : M A := fun s => (Ok a, s).

Definition raise {A} (e : exn) : M A := fun s => (Raise e, s).

Definition bind {A B} (c : M A) (k : A -> M B) : M B :=
  fun s =>
    match c s with
    | (Ok a, s') => k a s'
    | (Raise e, s') => (Raise e, s')
    end.

(** [try: c  except <classes>: h]; [handles e] says whether [e] is an instance
    of the listed classes. *)
Definition try_except {A} (c : M A) (handles : exn -> bool) (h : exn -> M A) : M A :=
  fun s =>
    match c s with
    | (Ok a, s') => (Ok a, s')
    | (Raise e, s') => if handles e then h e s' else (Raise e, s')
    end.

Definition get {A} (f : ImageProcessor -> A) : M A := fun s => (Ok (f s), s).

Definition modify (f : ImageProcessor -> ImageProcessor) : M unit :=
  fun s => (Ok tt, f s).

(** An external call answered by the oracle at the current call number. *)
Definition call {A} (e : event) (answer : nat -> A) : M A :=
  fun s => (Ok (answer (tick s)), record_call e s).

Declare Scope method_scope.
Delimit Scope method_scope with method.
Notation "x <- c ;; k" := (bind c (fun x => k))
  (at level 61, c at next level, right associativity) : method_scope.
Notation "c ;; k" := (bind c (fun _ => k))
  (at level 61, right associativity) : method_scope.
Open Scope method_scope.

Definition any_exception (_ : exn) : bool := true.

Definition micros (seconds : Z) : Z := seconds * 1000000.

(** [time.sleep(seconds)] *)
Definition sleep (us : Z) : M unit := call (EvSleep us) (fun _ => tt).

(** ** Dicts and sets keyed by Python equality *)

Fixpoint dict_get (k : pyval) (d : list (pyval * Z)) : option Z :=
  match d with
  | [] => None
  | (k', v) :: rest => if py_eqb k' k then Some v else dict_get k rest
  end.

Fixpoint dict_set (k : pyval) (v : Z) (d : list (pyval * Z)) : list (pyval * Z) :=
  match d with
  | [] => [(k, v)]
  | (k', v') :: rest =>
      if py_eqb k' k then (k', v) :: rest else (k', v') :: dict_set k v rest
  end.

Definition set_mem {A} (eqb : A -> A -> bool) (k : A) (l : list A) : bool :=
  existsb (eqb k) l.

Definition set_add {A} (eqb : A -> A -> bool) (k : A) (l : list A) : list A :=
  if set_mem eqb k l then l else l ++ [k].

(** The DedupKey: the tuple of tags and the comment. *)
Definition key_eqb (a b : list pystr * pyval) : bool :=
  tags_eqb (fst a) (fst b) && py_eqb (snd a) (snd b).

(** ** Strings *)

(** [str.isspace] of one character. *)
Definition is_space (c : N) : bool :=
  ((9 <=? c) && (c <=? 13) || (28 <=? c) && (c <=? 32) || (c =? 0x85) || (c =? 0xA0)
   || (c =? 0x1680) || (0x2000 <=? c) && (c <=? 0x200A) || (c =? 0x2028)
   || (c =? 0x2029) || (c =? 0x202F) || (c =? 0x205F) || (c =? 0x3000))%N.

Fixpoint lstrip (s : pystr) : pystr :=
  match s with
  | c :: rest => if is_space c then lstrip rest else s
  | [] => []
  end.

(** [s.strip()] *)
Definition strip (s : pystr) : pystr := rev (lstrip (rev (lstrip s))).

Definition nonempty {A} (l : list A) : bool :=
  match l with [] => false | _ => true end.

(** [date_str.replace('Z', '+00:00')] *)
Definition replace_Z (s : pystr) : pystr :=
  flat_map (fun c => if N.eqb c 90 then lit "+00:00" else [c]) s.

(** ** The methods of [ImageProcessor] *)

Section Pipeline.

Variable rt : runtime.
Variable env : oracle.

Import Config.

(** [datetime.now()] and [time.time()], in microseconds. *)
Definition now : M Z := call EvNow (clock env).

(** [str(v)] *)
Definition pyval_str (v : pyval) : pystr :=
  match v with
  | PNone => lit "None"
  | PInt n => int_str n
  | PFloat x => float_str rt x
  | PStr s => s
  end.

(** *** Session initialization.  [attempts_left] is
    [MAX_DRIVER_RETRIES - retries]. *)
Fixpoint initialize_driver_from (attempts_left : nat) : M nat :=
  match attempts_left with
  | O => raise WebDriverException
  | S n =>
      session <- get tick ;;
      ok <- call EvFirefox (firefox env) ;;
      if ok then ret session
      else sleep (micros RETRY_DELAY) ;; initialize_driver_from n
  end.

Definition initialize_driver : M nat := initialize_driver_from MAX_DRIVER_RETRIES.

(** *** Source Connector *)
Definition add_web_url (a : api_item) : listing_item :=
  {| item := a; item_web_url := lit "website/" ++ pyval_str (api_id a) |}.

(** [fetch_images]: the handler of [RequestException] returns the empty
    list. *)
Definition fetch_images (page : Z) : M (list listing_item) :=
  r <- call (EvFetchPage page) (listing env) ;;
  match r with
  | Some data => ret (map add_web_url data)
  | None => ret []
  end.

(** *** Content Fetcher *)
Fixpoint find_user_comment (items : list (Z * exif_value)) : option pystr :=
  match items with
  | [] => None
  | (tag_id, value) :: rest =>
      if Z.eqb tag_id 37510 then Some (decode_user_comment value)
      else find_user_comment rest
  end.

Definition extract_exif_user_comment : M (option pystr) :=
  r <- call EvOpenImage (exif env) ;;
  match r with
  | ExifItems items => ret (find_user_comment items)
  | _ => ret None
  end.

(** *** Tag Extractor *)

(** [[tag.text.strip() for tag in ... if tag.text.strip()]]: an element stays
    when its text at the first read is not blank; what is kept is its text at
    the second read, stripped. *)
Definition kept_texts (texts : list (pystr * pystr)) : list pystr :=
  map (fun reads => strip (snd reads))
      (filter (fun reads => nonempty (strip (fst reads))) texts).

(** The body of the [try] of one attempt. *)
Definition attempt (image : listing_item) : M (list pystr) :=
  d <- get driver ;;
  match d with
  | None => raise AttributeError
  | Some session =>
      r <- call (EvRender (Some session) (item_web_url image)) (render env) ;;
      match r with
      | RenderTimeout => raise TimeoutException
      | RenderSessionFault => raise WebDriverException
      | RenderTexts texts =>
          let tags := kept_texts texts in
          if nonempty tags then ret tags else raise ValueError
      end
  end.

(** The clause [except (TimeoutException, WebDriverException)]. *)
Definition retryable (e : exn) : bool :=
  match e with
  | TimeoutException => true
  | _ => is_WebDriverException e
  end.

(** The handler body; [retries += 1] is the decrease of [attempts_left]. *)
Definition recover (e : exn) : M unit :=
  (if is_WebDriverException e then
     d <- get driver ;;
     match d with
     | None => raise AttributeError
     | Some session =>
         call (EvQuit session) (fun _ => tt) ;;
         d' <- initialize_driver ;;
         modify (set_driver (Some d'))
     end
   else ret tt) ;;
  sleep (micros RETRY_DELAY).

Fixpoint extract_image_details_from (attempts_left : nat) (image : listing_item)
  : M (list pystr) :=
  match attempts_left with
  | O => ret []
  | S n =>
      r <- try_except (t <- attempt image ;; ret (Some t))
             retryable (fun e => recover e ;; ret None) ;;
      match r with
      | Some t => ret t
      | None => extract_image_details_from n image
      end
  end.

Definition extract_image_details : listing_item -> M (list pystr) :=
  extract_image_details_from MAX_RETRIES.

(** *** Record assembly *)

Definition standardize_date (date_str : pyval) : M pyval :=
  if truthy date_str then
    match date_str with
    | PStr s =>
        match fromisoformat rt (replace_Z s) with
        | Some iso => ret (PStr iso)
        | None => ret PNone
        end
    | _ => raise AttributeError
    end
  else ret PNone.

(** One step of [convert_numeric_fields], on the value of one key. *)
Definition convert_numeric (v : pyval) : M pyval :=
  match v with
  | PStr s =>
      if str_isdigit rt s then
        match int_of_str rt s with
        | Some n => ret (PInt n)
        | None => raise ValueError
        end
      else
        match float_of_str rt s with
        | Some x => ret (PFloat x)
        | None => ret v
        end
  | _ => ret v
  end.

Definition format_image_data (image : listing_item) (extracted : list pystr)
    (comment : pystr) : M image_data :=
  date <- standardize_date (api_createdAt (item image)) ;;
  id' <- convert_numeric (api_id (item image)) ;;
  url' <- convert_numeric (api_url (item image)) ;;
  hash' <- convert_numeric (api_hash (item image)) ;;
  date' <- convert_numeric date ;;
  postId' <- convert_numeric (api_postId (item image)) ;;
  username' <- convert_numeric (api_username (item image)) ;;
  web_url' <- convert_numeric (PStr (item_web_url image)) ;;
  comment' <- convert_numeric (PStr comment) ;;
  ret {| id := id'; url := url'; hash := hash'; createdAt := date';
         postId := postId'; username := username'; web_url := web_url';
         tags := extracted; user_comment := comment' |}.

(** *** Per-item processing; [None] is the Python [None].  The [finally]
    clause removes the temporary file and changes nothing of what is
    returned. *)
Definition process_image (image : listing_item) : M (option image_data) :=
  try_except
    (ok <- call (EvDownload (api_url (item image))) (http_get env) ;;
     (if ok then ret tt else raise RequestException) ;;
     comment <- extract_exif_user_comment ;;
     match comment with
     | None | Some [] => ret None
     | Some c =>
         extracted <- extract_image_details image ;;
         if nonempty extracted then
           formatted <- format_image_data image extracted c ;;
           ret (Some formatted)
         else ret None
     end)
    any_exception (fun _ => ret None).

(** *** Deduplication Engine *)

Definition is_similar_entry (new_data : image_data) : M bool :=
  entries <- get existing_entries_set ;;
  ret (set_mem key_eqb (tags new_data, user_comment new_data) entries).

Definition is_duplicate (user comment : pyval) : M bool :=
  r <- call (EvQuery user comment) (duplicate_count env) ;;
  match r with
  | Some n => ret (0 <? n)%Z
  | None => ret false
  end.

(** *** Persistence Store *)
Definition insert_into_db (data : image_data) : M unit :=
  ok <- call (EvInsert data) (insert_ok env) ;;
  if ok then
    modify (fun s => set_existing_entries_set
                       (set_add key_eqb (tags data, user_comment data)
                          (existing_entries_set s)) s)
  else ret tt.

(** [SequenceMatcher(None, a, b).ratio() > SIMILARITY_THRESHOLD]: the ratio is
    [2 * matches / (len a + len b)], and 1 when both are empty. *)
Definition is_similar (current : image_data) (previous : option image_data) : M bool :=
  match previous with
  | None => ret false
  | Some p =>
      match user_comment current, user_comment p with
      | PStr a, PStr b =>
          let total := Z.of_nat (List.length a + List.length b) in
          if Z.eqb total 0 then ret true
          else ret (SIMILARITY_THRESHOLD_NUM * total
                    <? SIMILARITY_THRESHOLD_DEN * (2 * matching_size rt a b))%Z
      | _, _ => raise TypeError
      end
  end.

(** *** Ingestion Controller *)

Definition skip : M unit :=
  modify (fun s => set_skipped_count (skipped_count s + 1) s).

Definition count_duplicate : M unit :=
  modify (fun s => set_consecutive_duplicate_count (consecutive_duplicate_count s + 1) s).

(** The block under [if processed_image:]. *)
Definition handle_candidate (processed_image : image_data) : M unit :=
  let username := username processed_image in
  let user_comment := user_comment processed_image in
  dup <- is_duplicate username user_comment ;;
  (if dup then skip ;; count_duplicate
   else
     similar <- is_similar_entry processed_image ;;
     if similar then skip ;; count_duplicate
     else
       insert_into_db processed_image ;;
       t <- now ;;
       modify (fun s => set_recent_users (dict_set username t (recent_users s)) s) ;;
       modify (fun s => set_previous_images (previous_images s ++ [processed_image]) s) ;;
       modify (fun s => set_processed_ids
                          (set_add py_eqb (id processed_image) (processed_ids s)) s) ;;
       modify (fun s => set_processed_count (processed_count s + 1) s) ;;
       modify (set_consecutive_duplicate_count 0)) ;;
  buffer <- get previous_images ;;
  if (IMAGES_TO_PROCESS <? List.length buffer)%nat
  then modify (set_previous_images (tl buffer))
  else ret tt.

(** How one pass through the body of [for image in images] ends. *)
Inductive signal :=
| Next
| Restart
| Terminate.

(** The test of the first [if] of the loop body. *)
Definition recently_processed (image : listing_item) : M bool :=
  users <- get recent_users ;;
  match dict_get (api_username (item image)) users with
  | Some t => n <- now ;; ret (n - t <? micros TIME_THRESHOLD)%Z
  | None => ret false
  end.

(** The two checks that close the loop body. *)
Definition quota_and_streak : M signal :=
  processed <- get processed_count ;;
  if (PROCESS_THRESHOLD <=? processed)%Z then
    sleep (micros PAUSE_DURATION) ;;
    modify (set_processed_count 0) ;;
    modify (set_skipped_count 0) ;;
    ret Restart
  else
    streak <- get consecutive_duplicate_count ;;
    if (10 <=? streak)%Z then ret Terminate else ret Next.

(** The body of [for image in images]. *)
Definition process_item (image : listing_item) : M signal :=
  recent <- recently_processed image ;;
  if recent then skip ;; ret Next
  else
    ids <- get processed_ids ;;
    if set_mem py_eqb (api_id (item image)) ids then skip ;; ret Next
    else
      processed_image <- process_image image ;;
      match processed_image with
      | Some data => handle_candidate data
      | None => ret tt
      end ;;
      quota_and_streak.

Fixpoint for_each_image (images : list listing_item) : M signal :=
  match images with
  | [] => ret Next
  | image :: rest =>
      sg <- process_item image ;;
      match sg with
      | Next => for_each_image rest
      | _ => ret sg
      end
  end.

(** How [process_images] stands after a number of cycles. *)
Inductive outcome :=
| Returned
| StillRunning (page : Z).

(** [process_images]: [fuel] bounds the cycles of [while True]. *)
Fixpoint process_images_from (fuel : nat) (page : Z) : M outcome :=
  match fuel with
  | O => ret (StillRunning page)
  | S n =>
      cycle_start_time <- now ;;
      images <- fetch_images page ;;
      match images with
      | [] =>
          sleep (micros REFRESH_INTERVAL) ;;
          process_images_from n (page + 1)
      | _ =>
          sg <- for_each_image images ;;
          match sg with
          | Terminate => ret Returned
          | _ =>
              t <- now ;;
              sleep (Z.max 0 (micros REFRESH_INTERVAL - (t - cycle_start_time))) ;;
              process_images_from n (match sg with Restart => 1 | _ => page end)
          end
      end
  end.

Definition process_images (fuel : nat) : M outcome := process_images_from fuel 1.

(** [__enter__]: the session, then the stored (tags, comment) pairs. *)
Definition enter : M unit :=
  d <- initialize_driver ;;
  modify (set_driver (Some d)) ;;
  r <- call EvSelectAll (stored_entries env) ;;
  match r with
  | Some rows =>
      modify (set_existing_entries_set
                (fold_left (fun acc k => set_add key_eqb k acc) rows []))
  | None => raise DatabaseError
  end.

(** [__exit__]; it runs only after [__enter__] has returned, so the store
    connection is there to be closed. *)
Definition exit : M unit :=
  d <- get driver ;;
  match d with
  | Some session => call (EvQuit session) (fun _ => tt)
  | None => ret tt
  end ;;
  call EvClose (fun _ => tt).

(** The [with] block of [main]: [Raise] is an error that reaches the top
    level and ends the run. *)
Definition main (fuel : nat) : M outcome :=
  enter ;;
  fun s =>
    match process_images fuel s with
    | (r, s') => (r, snd (exit s'))
    end.

End Pipeline.

(** * Vocabulary of the verification *)

(** ** What a method leaves alone *)

(** The controller's own bookkeeping: every field but the rendering session,
    the call counter and the trace. *)
Definition session (s : ImageProcessor) :=
  (processed_count s, skipped_count s, previous_images s, existing_entries_set s,
   processed_ids s, recent_users s, consecutive_duplicate_count s).

Definition keeps_session {A} (c : M A) : Prop :=
  forall s, session (snd (c s)) = session s.

(** ** The verdict on a listing item *)

(** Which way one pass through the loop body goes. [stored] tells whether the
    single-record insert went through. *)
Inductive verdict :=
| RecentUser
| SeenId
| NoCandidate
| StoreDuplicate (data : image_data)
| MemoryDuplicate (data : image_data)
| Accepted (data : image_data) (stored : bool).

Definition is_duplicate_verdict (v : verdict) : bool :=
  match v with
  | StoreDuplicate _ | MemoryDuplicate _ => true
  | _ => false
  end.

Definition is_accepted (v : verdict) : bool :=
  match v with
  | Accepted _ _ => true
  | _ => false
  end.

Definition is_prefilter_skip (v : verdict) : bool :=
  match v with
  | RecentUser | SeenId => true
  | _ => false
  end.

Section Verdict.

Variable rt : runtime.
Variable env : oracle.

Definition classify_candidate (data : image_data) (s : ImageProcessor) : verdict :=
  match is_duplicate env (username data) (user_comment data) s with
  | (Ok true, _) => StoreDuplicate data
  | (_, s1) =>
      match is_similar_entry data s1 with
      | (Ok true, _) => MemoryDuplicate data
      | (_, s2) => Accepted data (insert_ok env (tick s2))
      end
  end.

Definition classify (image : listing_item) (s : ImageProcessor) : verdict :=
  match recently_processed env image s with
  | (Ok true, _) => RecentUser
  | (_, s1) =>
      if set_mem py_eqb (api_id (item image)) (processed_ids s1) then SeenId
      else
        match process_image rt env image s1 with
        | (Ok (Some data), s2) => classify_candidate data s2
        | _ => NoCandidate
        end
  end.

(** The states at which a pass through the loop body can start. *)
Inductive reachable : ImageProcessor -> Prop :=
| reachable_enter s :
  enter env init = (Ok tt, s) -> reachable s
| reachable_item s image :
  reachable s ->
  fst (process_item rt env image s) <> Ok Terminate ->
  reachable (snd (process_item rt env image s))
| reachable_call s e :
  reachable s -> reachable (record_call e s).

End Verdict.

(** ** The loop body, block by block *)

(** The cap on the history buffer, as the loop body applies it. *)
Definition trim (buffer : list image_data) : list image_data :=
  if (Config.IMAGES_TO_PROCESS <? List.length buffer)%nat then tl buffer else buffer.

(** The bookkeeping a verdict leads to, before the quota and streak checks;
    [t] is the clock reading stored for the user of an accepted record. *)
Definition after_verdict (v : verdict) (t : Z) (s : ImageProcessor) :=
  match v with
  | RecentUser | SeenId =>
      (processed_count s, skipped_count s + 1, previous_images s,
       existing_entries_set s, processed_ids s, recent_users s,
       consecutive_duplicate_count s)%Z
  | NoCandidate => session s
  | StoreDuplicate _ | MemoryDuplicate _ =>
      (processed_count s, skipped_count s + 1, trim (previous_images s),
       existing_entries_set s, processed_ids s, recent_users s,
       consecutive_duplicate_count s + 1)%Z
  | Accepted data stored =>
      (processed_count s + 1, skipped_count s, trim (previous_images s ++ [data]),
       (if stored
        then set_add key_eqb (tags data, user_comment data) (existing_entries_set s)
        else existing_entries_set s),
       set_add py_eqb (id data) (processed_ids s),
       dict_set (username data) t (recent_users s),
       0)%Z
  end.

(** The invariant of the loop: what holds whenever a pass through the loop
  body starts. *)
Definition loop_inv (s : ImageProcessor) : Prop :=
  (processed_count s < Config.PROCESS_THRESHOLD)%Z /\
  (0 <= skipped_count s)%Z /\
  (0 <= consecutive_duplicate_count s < 10)%Z /\
  (List.length (previous_images s) <= Config.IMAGES_TO_PROCESS)%nat.

(** ** The history buffer is write-only *)

(** A method is oblivious of [previous_images] when overwriting the buffer
    before the call changes neither what the method returns nor any other
    field of the state it leaves. *)
Definition oblivious {A} (c : M A) : Prop :=
  forall s p, exists p',
    c (set_previous_images p s) = (fst (c s), set_previous_images p' (snd (c s))).

(** The same runtime with another similarity measure. *)
Definition with_matching_size (f : pystr -> pystr -> Z) (rt : runtime) : runtime := {|
  str_isdigit := str_isdigit rt;
  int_of_str := int_of_str rt;
  float_of_str := float_of_str rt;
  float_str := float_str rt;
  fromisoformat := fromisoformat rt;
  matching_size := f
|}.

(** ** The failed insert *)

(** C2 as stated: an item whose insert fails leaves no mark on the session. *)
Definition insert_failure_loses_item (rt : runtime) (env : oracle)
    (image : listing_item) (s : ImageProcessor) : Prop :=
  forall data, classify rt env image s = Accepted data false ->
    let s' := snd (process_item rt env image s) in
    processed_count s' = processed_count s /\
    consecutive_duplicate_count s' = consecutive_duplicate_count s /\
    recent_users s' = recent_users s /\
    previous_images s' = previous_images s /\
    processed_ids s' = processed_ids s.

(** ** What a method tells the outside world *)

(** A method only appends to the trace, and every event it appends
    satisfies [P]. *)
Definition emits (P : event -> Prop) {A} (c : M A) : Prop :=
  forall s, exists l, trace (snd (c s)) = trace s ++ l /\ Forall P l.

(** The events that reach the persistence store. *)
Definition touches_store (e : event) : bool :=
  match e with
  | EvSelectAll | EvQuery _ _ | EvInsert _ | EvClose => true
  | _ => false
  end.

Definition is_render (e : event) : bool :=
  match e with
  | EvRender _ _ => true
  | _ => false
  end.

(** The store traffic a verdict stands for. *)
Definition verdict_events (v : verdict) : list event :=
  match v with
  | StoreDuplicate data | MemoryDuplicate data =>
      [EvQuery (username data) (user_comment data)]
  | Accepted data _ =>
      [EvQuery (username data) (user_comment data); EvInsert data; EvNow]
  | _ => []
  end.

Definition quiet (e : event) : Prop := touches_store e = false.

Definition off_screen (e : event) : Prop :=
  touches_store e = false /\ is_render e = false.

(** ** What a method returns *)

(** Whenever the method returns normally, the value satisfies [Q]. *)
Definition returns {A} (Q : A -> Prop) (c : M A) : Prop :=
  forall s a, fst (c s) = Ok a -> Q a.

(** A text without blanks around it. *)
Definition stripped_tag (t : pystr) : Prop := strip t = t.

(** The link texts of a rendering read the same both times. *)
Definition steady_texts (texts : list (pystr * pystr)) : Prop :=
  Forall (fun reads => fst reads = snd reads) texts.

(** A record fit for the store: tags present, each tag a text without blanks
    around it, comment present.  A tag can be the empty text: the value kept
    is a second read of the element, which the filter has not seen. *)
Definition valid_record (d : image_data) : Prop :=
  tags d <> [] /\
  Forall stripped_tag (tags d) /\
  user_comment d <> PNone /\
  user_comment d <> PStr [].

(** [v'] is what [convert_numeric_fields] puts in place of [v]. *)
Definition converts (rt : runtime) (v v' : pyval) : Prop :=
  forall s, convert_numeric rt v s = (Ok v', s).

(** No blank at either end (or empty). *)
Definition head_clean (s : pystr) : Prop :=
  match s with
  | [] => True
  | c :: _ => is_space c = false
  end.

(** The store traffic of a verdict, without the clock reading. *)
Definition store_events (v : verdict) : list event :=
  filter touches_store (verdict_events v).

(** An event that, if it is an insert, inserts a valid record. *)
Definition inserts_valid (e : event) : Prop :=
  forall d, e = EvInsert d -> valid_record d.

(** The record a verdict is about, if any. *)
Definition candidate_of (v : verdict) : option image_data :=
  match v with
  | StoreDuplicate d | MemoryDuplicate d | Accepted d _ => Some d
  | _ => None
  end.

Section Follows.

Variable rt : runtime.
Variable env : oracle.

(** [follows s s']: the run can get from [s] to [s'] by passes through the
    loop body and external calls of the loop itself. *)
Inductive follows (s : ImageProcessor) : ImageProcessor -> Prop :=
| follows_here : follows s s
| follows_item s' image :
    follows s s' -> follows s (snd (process_item rt env image s'))
| follows_call s' e :
    follows s s' -> follows s (record_call e s').

End Follows.

(** The trace of [k] failed attempts to start Firefox: the launch, then the
    fixed delay, [k] times. *)
Fixpoint failed_launches (k : nat) : list event :=
  match k with
  | O => []
  | S k' => EvFirefox :: EvSleep (micros Config.RETRY_DELAY) :: failed_launches k'
  end.

Definition renderings (l : list event) : nat := List.length (filter is_render l).

(** What PIL reports holds no comment the pipeline can use: no EXIF block, no
    UserComment tag, or a UserComment that decodes to the empty text. *)
Definition no_usable_comment (r : exif_result) : Prop :=
  match r with
  | ExifItems items =>
      match find_user_comment items with
      | Some (_ :: _) => False
      | _ => True
      end
  | _ => True
  end.

(** The text a byte string stands for when read byte by byte. *)
Definition ascii_text (b : list byte) : pystr := map code_of_byte b.

(** The time a trace spends in [time.sleep], in microseconds. *)
Fixpoint slept (l : list event) : Z :=
  match l with
  | [] => 0
  | EvSleep us :: rest => us + slept rest
  | _ :: rest => slept rest
  end.

(** ** The browser session from startup to shutdown *)



(** A method no exception leaves. *)
Definition never_raises {A} (c : M A) : Prop :=
  forall s, exists a, fst (c s) = Ok a.

(** ** Items the record assembly cannot digest *)

(** A text that [str.isdigit] accepts and [int] refuses. *)
Definition odd_digits (rt : runtime) (v : pyval) : Prop :=
  exists u, v = PStr u /\ str_isdigit rt u = true /\ int_of_str rt u = None.

(** A [createdAt] that is truthy and no string (it has no [replace]), or a
    field of the listing item that is such a text. *)
Definition unformattable (rt : runtime) (image : listing_item) : Prop :=
  (truthy (api_createdAt (item image)) = true /\
   forall t, api_createdAt (item image) <> PStr t) \/
  odd_digits rt (api_id (item image)) \/
  odd_digits rt (api_url (item image)) \/
  odd_digits rt (api_hash (item image)) \/
  odd_digits rt (api_postId (item image)) \/
  odd_digits rt (api_username (item image)).

(** ** A scripted world for running the model *)

Module Demo.

Local Open Scope Z_scope.

Definition rt : runtime := {|
  str_isdigit := fun s => nonempty s && forallb (fun c => ((48 <=? c) && (c <=? 57))%N) s;
  int_of_str := fun s => Some (fold_left (fun acc c => acc * 10 + Z.of_N (c - 48))%Z s 0%Z);
  float_of_str := fun _ => None;
  float_str := fun _ => lit "0.0";
  fromisoformat := fun s => Some s;
  matching_size := fun _ _ => 0%Z
|}.

Definition alice (n : Z) : api_item := {|
  api_id := PInt n;
  api_url := PStr (lit "http://img/a.jpg");
  api_hash := PStr (lit "Uabc");
  api_createdAt := PStr (lit "2024-01-01T00:00:00Z");
  api_postId := PInt 7;
  api_username := PStr (lit "alice")
|}.

Definition comment_exif (s : string) : exif_result :=
  ExifItems [(271%Z, EStr (lit "maker")); (37510%Z, EBytes (bytes_of_string s))].

(** Link texts that read the same both times. *)
Definition steady (texts : list pystr) : list (pystr * pystr) :=
  map (fun t => (t, t)) texts.

(** A world where everything works: each page holds one new item. *)
Definition calm : oracle := {|
  clock := fun n => Z.of_nat n * 2000000;
  listing := fun n => Some [alice (Z.of_nat n)];
  http_get := fun _ => true;
  exif := fun n => comment_exif "hello world";
  firefox := fun _ => true;
  render := fun _ => RenderTexts (steady [lit " a "; lit ""; lit "b"]);
  stored_entries := fun _ => Some [];
  duplicate_count := fun _ => Some 0;
  insert_ok := fun _ => true
|}.

(** The store refuses every insert. *)
Definition store_down : oracle := {|
  clock := clock calm; listing := listing calm; http_get := http_get calm;
  exif := exif calm; firefox := firefox calm; render := render calm;
  stored_entries := stored_entries calm; duplicate_count := duplicate_count calm;
  insert_ok := fun _ => false
|}.

(** The store already holds a record of the same user and comment prefix. *)
Definition repeats : oracle := {|
  clock := clock calm; listing := listing calm; http_get := http_get calm;
  exif := exif calm; firefox := firefox calm; render := render calm;
  stored_entries := stored_entries calm; duplicate_count := fun _ => Some 1;
  insert_ok := insert_ok calm
|}.

(** The downloaded file carries no EXIF block. *)
Definition no_comment : oracle := {|
  clock := clock calm; listing := listing calm; http_get := http_get calm;
  exif := fun _ => ExifAbsent; firefox := firefox calm; render := render calm;
  stored_entries := stored_entries calm; duplicate_count := duplicate_count calm;
  insert_ok := insert_ok calm
|}.

(** The page loads, but on the first rendering (external call 2) its tag
    links carry no text; any later rendering shows the tags. *)
Definition bare_page : oracle := {|
  clock := clock calm; listing := listing calm; http_get := http_get calm;
  exif := exif calm; firefox := firefox calm;
  render := fun n => if (n =? 2)%nat then RenderTexts (steady [lit ""; lit "  "])
                     else RenderTexts (steady [lit " a "; lit "b"]);
  stored_entries := stored_entries calm; duplicate_count := duplicate_count calm;
  insert_ok := insert_ok calm
|}.

(** The first rendering times out; any later rendering shows the tags. *)
Definition slow_page : oracle := {|
  clock := clock calm; listing := listing calm; http_get := http_get calm;
  exif := exif calm; firefox := firefox calm;
  render := fun n => if (n =? 2)%nat then RenderTimeout
                     else RenderTexts (steady [lit " a "; lit "b"]);
  stored_entries := stored_entries calm; duplicate_count := duplicate_count calm;
  insert_ok := insert_ok calm
|}.

(** Firefox never starts. *)
Definition no_browser : oracle := {|
  clock := clock calm; listing := listing calm; http_get := http_get calm;
  exif := exif calm; firefox := fun _ => false; render := render calm;
  stored_entries := stored_entries calm; duplicate_count := duplicate_count calm;
  insert_ok := insert_ok calm
|}.

(** Firefox starts once, at startup (external call 0); afterwards the session
    is lost on every rendering and Firefox does not start again. *)
Definition session_lost : oracle := {|
  clock := clock calm; listing := listing calm; http_get := http_get calm;
  exif := exif calm; firefox := fun n => (n =? 0)%nat;
  render := fun _ => RenderSessionFault;
  stored_entries := stored_entries calm; duplicate_count := duplicate_count calm;
  insert_ok := insert_ok calm
|}.

Definition item1 : listing_item := add_web_url rt (alice 1).

(** The record assembled for [item1] in the calm world. *)
Definition record1 : image_data := {|
  id := PInt 1;
  url := PStr (lit "http://img/a.jpg");
  hash := PStr (lit "Uabc");
  createdAt := PStr (lit "2024-01-01T00:00:00+00:00");
  postId := PInt 7;
  username := PStr (lit "alice");
  web_url := PStr (lit "website/1");
  tags := [lit "a"; lit "b"];
  user_comment := PStr (lit "hello world")
|}.

(** The processor with a live session and nothing processed yet. *)
Definition ready : ImageProcessor := set_driver (Some 0%nat) init.

(** Three duplicates in a row so far. *)
Definition ready3 : ImageProcessor := set_consecutive_duplicate_count 3 ready.

(** Nine duplicates in a row so far. *)
Definition ready9 : ImageProcessor := set_consecutive_duplicate_count 9 ready.

(** One short of the quota, with skips and a streak on the counters. *)
Definition nearly_there : ImageProcessor :=
  set_processed_count 99 (set_skipped_count 7 ready3).

Definition oldest : image_data := {|
  id := PInt 0;
  url := PStr (lit "http://img/0.jpg");
  hash := PStr (lit "U000");
  createdAt := PNone;
  postId := PInt 5;
  username := PStr (lit "bob");
  web_url := PStr (lit "website/0");
  tags := [lit "z"];
  user_comment := PStr (lit "first")
|}.

(** The history buffer at capacity, [oldest] first. *)
Definition full_buffer : ImageProcessor :=
  set_previous_images (oldest :: repeat record1 49) ready.

(** Item 1 was processed before. *)
Definition seen1 : ImageProcessor := set_processed_ids [PInt 1] ready.

(** The store already holds the pair of [record1] when the run starts. *)
Definition restarted : oracle := {|
  clock := clock calm; listing := listing calm; http_get := http_get calm;
  exif := exif calm; firefox := firefox calm; render := render calm;
  stored_entries := fun _ => Some [([lit "a"; lit "b"], PStr (lit "hello world"))];
  duplicate_count := duplicate_count calm; insert_ok := insert_ok calm
|}.

(** The first file opened carries one comment, the later ones another. *)
Definition two_comments : oracle := {|
  clock := clock calm; listing := listing calm; http_get := http_get calm;
  exif := fun n => if (n <? 3)%nat then comment_exif "hello world"
                   else comment_exif "second text";
  firefox := firefox calm; render := render calm;
  stored_entries := stored_entries calm; duplicate_count := duplicate_count calm;
  insert_ok := insert_ok calm
|}.

(** A clock that moves one millisecond per external call. *)
Definition fast_clock : oracle := {|
  clock := fun n => Z.of_nat n * 1000; listing := listing calm; http_get := http_get calm;
  exif := exif calm; firefox := firefox calm; render := render calm;
  stored_entries := stored_entries calm; duplicate_count := duplicate_count calm;
  insert_ok := insert_ok calm
|}.

(** The comment holds the marker and null characters only. *)
Definition blank_comment : oracle := {|
  clock := clock calm; listing := listing calm; http_get := http_get calm;
  exif := fun _ => ExifItems
                     [(37510, EBytes (bytes_of_string "UNICODE" ++ [x00; x00; x00]))];
  firefox := firefox calm; render := render calm;
  stored_entries := stored_entries calm; duplicate_count := duplicate_count calm;
  insert_ok := insert_ok calm
|}.

Definition item2 : listing_item := add_web_url rt (alice 2).

(** The record assembled for [item2] in the world of [two_comments]. *)
Definition record2 : image_data := {|
  id := PInt 2;
  url := PStr (lit "http://img/a.jpg");
  hash := PStr (lit "Uabc");
  createdAt := PStr (lit "2024-01-01T00:00:00+00:00");
  postId := PInt 7;
  username := PStr (lit "alice");
  web_url := PStr (lit "website/2");
  tags := [lit "a"; lit "b"];
  user_comment := PStr (lit "second text")
|}.

(** An item of a user whose name is a string of digits. *)
Definition item_of_12345 : listing_item := add_web_url rt {|
  api_id := PInt 8;
  api_url := PStr (lit "http://img/a.jpg");
  api_hash := PStr (lit "Uabc");
  api_createdAt := PNone;
  api_postId := PInt 7;
  api_username := PStr (lit "12345")
|}.

Definition record_of_12345 : image_data := {|
  id := PInt 8;
  url := PStr (lit "http://img/a.jpg");
  hash := PStr (lit "Uabc");
  createdAt := PNone;
  postId := PInt 7;
  username := PInt 12345;
  web_url := PStr (lit "website/8");
  tags := [lit "a"; lit "b"];
  user_comment := PStr (lit "hello world")
|}.

(** Firefox starts, but the store cannot be read at startup. *)
Definition store_unreadable : oracle := {|
  clock := clock calm; listing := listing calm; http_get := http_get calm;
  exif := exif calm; firefox := firefox calm; render := render calm;
  stored_entries := fun _ => None;
  duplicate_count := duplicate_count calm; insert_ok := insert_ok calm
|}.

(** An item whose [createdAt] is a number. *)
Definition item_dated_5 : listing_item := add_web_url rt {|
  api_id := PInt 7; api_url := PStr (lit "http://img/7"); api_hash := PNone;
  api_createdAt := PInt 5; api_postId := PNone; api_username := PStr (lit "alice")
|}.

(** The millisecond clock, with a new comment in every file after the first. *)
Definition hasty : oracle := {|
  clock := clock fast_clock; listing := listing calm; http_get := http_get calm;
  exif := exif two_comments; firefox := firefox calm; render := render calm;
  stored_entries := stored_entries calm; duplicate_count := duplicate_count calm;
  insert_ok := insert_ok calm
|}.

(** The next item of the user whose name is a string of digits. *)
Definition next_item_of_12345 : listing_item := add_web_url rt {|
  api_id := PInt 9;
  api_url := PStr (lit "http://img/b.jpg");
  api_hash := PStr (lit "Uabc");
  api_createdAt := PNone;
  api_postId := PInt 7;
  api_username := PStr (lit "12345")
|}.

Definition next_record_of_12345 : image_data := {|
  id := PInt 9;
  url := PStr (lit "http://img/b.jpg");
  hash := PStr (lit "Uabc");
  createdAt := PNone;
  postId := PInt 7;
  username := PInt 12345;
  web_url := PStr (lit "website/9");
  tags := [lit "a"; lit "b"];
  user_comment := PStr (lit "second text")
|}.

End Demo.

(** * Verification *)

(** ** Frames *)

Lemma keeps_ret A (a : A) : keeps_session (ret a).
Proof. intro s; reflexivity. Qed.

Lemma keeps_raise A (e : exn) : keeps_session (@raise A e).
Proof. intro s; reflexivity. Qed.

Lemma keeps_get A (f : ImageProcessor -> A) : keeps_session (get f).
Proof. intro s; reflexivity. Qed.

Lemma keeps_call A (e : event) (answer : nat -> A) : keeps_session (call e answer).
Proof. intro s; reflexivity. Qed.

Lemma keeps_set_driver d : keeps_session (modify (set_driver d)).
Proof. intro s; reflexivity. Qed.

Lemma keeps_bind A B (c : M A) (k : A -> M B) :
  keeps_session c -> (forall a, keeps_session (k a)) -> keeps_session (bind c k).
Proof.
  intros Hc Hk s. unfold bind.
  specialize (Hc s). destruct (c s) as [[a | e] s1]; simpl in *.
  - rewrite Hk. exact Hc.
  - exact Hc.
Qed.

Lemma keeps_try A (c : M A) handles (h : exn -> M A) :
  keeps_session c -> (forall e, keeps_session (h e)) -> keeps_session (try_except c handles h).
Proof.
  intros Hc Hh s. unfold try_except.
  specialize (Hc s). destruct (c s) as [[a | e] s1]; simpl in *.
  - exact Hc.
  - destruct (handles e); simpl; [rewrite Hh|]; exact Hc.
Qed.

Ltac keeps :=
  repeat first
    [ solve [auto]
    | apply keeps_ret | apply keeps_raise | apply keeps_get | apply keeps_call
    | apply keeps_set_driver
    | apply keeps_bind; [ | intros ]
    | apply keeps_try; [ | intros ]
    | match goal with
      | |- keeps_session (if ?b then _ else _) => destruct b
      | |- keeps_session (match ?x with _ => _ end) => destruct x
      end ].

Section Frames.

Variable rt : runtime.
Variable env : oracle.

Lemma keeps_initialize_driver_from n : keeps_session (initialize_driver_from env n).
Proof. induction n as [| n IH]; simpl; unfold sleep; keeps. Qed.

Lemma keeps_recover e : keeps_session (recover env e).
Proof.
  unfold recover, sleep, initialize_driver.
  pose proof (keeps_initialize_driver_from Config.MAX_DRIVER_RETRIES). keeps.
Qed.

Lemma keeps_attempt image : keeps_session (attempt env image).
Proof. unfold attempt; keeps. Qed.

Lemma keeps_extract_image_details_from n image :
  keeps_session (extract_image_details_from env n image).
Proof.
  induction n as [| n IH]; simpl.
  - keeps.
  - pose proof (keeps_attempt image). pose proof keeps_recover. keeps.
Qed.

Lemma keeps_format_image_data image extracted c :
  keeps_session (format_image_data rt image extracted c).
Proof. unfold format_image_data, standardize_date, convert_numeric; keeps. Qed.

Lemma keeps_process_image image : keeps_session (process_image rt env image).
Proof.
  unfold process_image, extract_exif_user_comment, extract_image_details.
  pose proof (keeps_extract_image_details_from Config.MAX_RETRIES image).
  pose proof (keeps_format_image_data image).
  keeps.
Qed.

(** The item boundary catches everything: [process_image] never raises. *)
Lemma process_image_returns image s :
  exists o, fst (process_image rt env image s) = Ok o.
Proof.
  unfold process_image, try_except.
  match goal with |- context [match ?c s with _ => _ end] => destruct (c s) as [[a | e] s1] end;
    simpl; eauto.
Qed.

End Frames.


(** ** The effect of the loop body *)

Section Controller.

Variable rt : runtime.
Variable env : oracle.

Import Config.

Lemma quota_and_streak_eq m :
  quota_and_streak m =
  if (PROCESS_THRESHOLD <=? processed_count m)%Z then
    (Ok Restart,
     set_skipped_count 0
       (set_processed_count 0 (record_call (EvSleep (micros PAUSE_DURATION)) m)))
  else if (10 <=? consecutive_duplicate_count m)%Z then (Ok Terminate, m)
  else (Ok Next, m).
Proof.
  unfold quota_and_streak, bind, get, sleep, call, modify, ret.
  destruct (PROCESS_THRESHOLD <=? processed_count m)%Z; [reflexivity |].
  destruct (10 <=? consecutive_duplicate_count m)%Z; reflexivity.
Qed.

Lemma recently_processed_eq image s :
  recently_processed env image s =
  match dict_get (api_username (item image)) (recent_users s) with
  | Some t => (Ok (clock env (tick s) - t <? micros TIME_THRESHOLD)%Z, record_call EvNow s)
  | None => (Ok false, s)
  end.
Proof.
  unfold recently_processed, bind, get, now, call, ret.
  destruct (dict_get _ _); reflexivity.
Qed.

Lemma recently_processed_session image s :
  session (snd (recently_processed env image s)) = session s.
Proof. rewrite recently_processed_eq. destruct (dict_get _ _); reflexivity. Qed.

Lemma is_duplicate_eq u c s :
  is_duplicate env u c s =
  (Ok (match duplicate_count env (tick s) with Some n => (0 <? n)%Z | None => false end),
   record_call (EvQuery u c) s).
Proof.
  unfold is_duplicate, bind, call, ret.
  destruct (duplicate_count env (tick s)); reflexivity.
Qed.

(** The dedup-and-insert block never raises, and does to the session what the
    verdict on the candidate says. *)
Lemma handle_candidate_effect data s :
  exists t m,
    handle_candidate env data s = (Ok tt, m) /\
    session m = after_verdict (classify_candidate env data s) t s /\
    is_prefilter_skip (classify_candidate env data s) = false /\
    classify_candidate env data s <> NoCandidate.
Proof.
  unfold handle_candidate, classify_candidate.
  unfold bind at 1. unfold bind at 1. rewrite is_duplicate_eq.
  destruct (match duplicate_count env (tick s) with Some n => (0 <? n)%Z | None => false end).
  - exists 0%Z. unfold skip, count_duplicate, bind, modify, get, ret; simpl; unfold trim.
    destruct (IMAGES_TO_PROCESS <? _)%nat; simpl; eexists;
      (split; [reflexivity | split; [reflexivity | split; [reflexivity | discriminate]]]).
  - unfold is_similar_entry, bind, get, ret; simpl.
    destruct (set_mem key_eqb _ _).
    + exists 0%Z. unfold skip, count_duplicate, bind, modify, get, ret; simpl; unfold trim.
      destruct (IMAGES_TO_PROCESS <? _)%nat; simpl; eexists;
      (split; [reflexivity | split; [reflexivity | split; [reflexivity | discriminate]]]).
    + unfold insert_into_db, now, bind, call, modify, get, ret; simpl.
      destruct (insert_ok env (S (tick s))); simpl; unfold trim;
        destruct (IMAGES_TO_PROCESS <? _)%nat; simpl;
        eexists; eexists;
        (split; [reflexivity | split; [reflexivity | split; [reflexivity | discriminate]]]).
Qed.

(** The whole loop body: the bookkeeping of the verdict, then, unless a
    pre-filter skipped the item with [continue], the two closing checks. *)
Lemma process_item_effect image s :
  exists t m,
    session m = after_verdict (classify rt env image s) t s /\
    process_item rt env image s =
      if is_prefilter_skip (classify rt env image s) then (Ok Next, m)
      else quota_and_streak m.
Proof.
  unfold process_item, classify.
  unfold bind at 1.
  rewrite recently_processed_eq.
  destruct (dict_get (api_username (item image)) (recent_users s)) as [t0 |];
    [ destruct (clock env (tick s) - t0 <? micros TIME_THRESHOLD)%Z | ].
  1: { exists 0%Z; eexists; split; [| reflexivity]. reflexivity. }
  all: match goal with
    | |- context [process_image rt env _ ?s1] =>
        unfold bind at 1, get at 1;
        change (processed_ids s1) with (processed_ids s);
        destruct (set_mem py_eqb (api_id (item image)) (processed_ids s));
        [ exists 0%Z; eexists; split; [| reflexivity]; reflexivity | ];
        unfold bind at 1, bind at 1;
        pose proof (keeps_process_image rt env image s1) as Hframe;
        destruct (process_image_returns rt env image s1) as [o Ho];
        destruct (process_image rt env image s1) as [r s2];
        simpl in Ho, Hframe; subst r; change (session s2 = session s) in Hframe;
        destruct o as [data |]
    end.
  all: try (exists 0%Z, s2; split; [exact Hframe | reflexivity]).
  all: destruct (handle_candidate_effect data s2) as (t & m & Hrun & Hm & Hpre & Hnc);
    rewrite Hrun, Hpre; exists t, m; split; [| reflexivity];
    unfold session in Hframe; injection Hframe as E1 E2 E3 E4 E5 E6 E7;
    revert Hm Hpre Hnc; destruct (classify_candidate env data s2);
    simpl; intros Hm Hpre Hnc; try discriminate; try (exfalso; apply Hnc; reflexivity);
    rewrite Hm, ?E1, ?E2, ?E3, ?E4, ?E5, ?E6, ?E7; reflexivity.
Qed.

End Controller.

(** ** Cycles and runs *)

Section Runs.

Variable rt : runtime.
Variable env : oracle.

Import Config.

Lemma process_item_returns image s :
  exists sg, fst (process_item rt env image s) = Ok sg.
Proof.
  destruct (process_item_effect rt env image s) as (t & m & _ & Hrun).
  rewrite Hrun, quota_and_streak_eq.
  destruct (is_prefilter_skip _); [simpl; eauto |].
  destruct (_ <=? _)%Z; [simpl; eauto |]. destruct (_ <=? _)%Z; simpl; eauto.
Qed.

(** The items before the one that leaves the loop all signal [Next]. *)
Lemma for_each_image_app front rest s s1 :
  for_each_image rt env front s = (Ok Next, s1) ->
  for_each_image rt env (front ++ rest) s = for_each_image rt env rest s1.
Proof.
  revert s. induction front as [| image front IH]; intros s H; simpl in *.
  - unfold ret in H. injection H as <-. reflexivity.
  - unfold bind in *.
    destruct (process_item rt env image s) as [[[ | | ] | e] s2]; try discriminate.
    apply IH. exact H.
Qed.

Lemma for_each_image_leaves image rest s sg :
  sg <> Next ->
  fst (process_item rt env image s) = Ok sg ->
  for_each_image rt env (image :: rest) s = (Ok sg, snd (process_item rt env image s)).
Proof.
  intros Hsg H. simpl. unfold bind.
  destruct (process_item rt env image s) as [r s2]. simpl in *. subst r.
  destruct sg; [contradiction | reflexivity | reflexivity].
Qed.

(** One cycle of [while True] on a page that is not empty. *)
Lemma cycle_eq fuel page s0 images s1 :
  images <> [] ->
  fetch_images rt env page (snd (now env s0)) = (Ok images, s1) ->
  process_images_from rt env (S fuel) page s0 =
  match for_each_image rt env images s1 with
  | (Ok Terminate, s2) => (Ok Returned, s2)
  | (Ok sg, s2) =>
      process_images_from rt env fuel (match sg with Restart => 1%Z | _ => page end)
        (record_call
           (EvSleep (Z.max 0 (micros REFRESH_INTERVAL
                              - (clock env (tick s2) - clock env (tick s0)))))
           (record_call EvNow s2))
  | (Raise e, s2) => (Raise e, s2)
  end.
Proof.
  intros Hne Hfetch.
  cbn [process_images_from]. unfold bind at 1. unfold now at 1, call at 1.
  unfold now, call in Hfetch. simpl in Hfetch.
  unfold bind at 1. rewrite Hfetch.
  destruct images as [| i0 images']; [contradiction |].
  unfold bind at 1.
  destruct (for_each_image rt env (i0 :: images') s1) as [[[ | | ] | e] s2];
    reflexivity.
Qed.

End Runs.

(** ** Properties of the controller *)

Section ControllerProperties.

Variable rt : runtime.
Variable env : oracle.

Import Config.

(** Replace the loop body by its effect and split on the verdict and on the
    two closing checks. *)
Ltac by_verdict image s :=
  let t := fresh "t" in
  let m := fresh "m" in
  let Hm := fresh "Hm" in
  let Hrun := fresh "Hrun" in
  destruct (process_item_effect rt env image s) as (t & m & Hm & Hrun);
  rewrite ?Hrun; rewrite ?quota_and_streak_eq;
  destruct (classify rt env image s); simpl in Hm; unfold session in Hm;
  injection Hm as Epc Esk Epi Eee Eids Eru Ecdc;
  cbn [is_prefilter_skip is_duplicate_verdict is_accepted];
  repeat match goal with
         | |- context [(?a <=? ?b)%Z] => destruct (Z.leb_spec a b)
         end;
  cbn [fst snd processed_count skipped_count previous_images existing_entries_set
       processed_ids recent_users consecutive_duplicate_count trace
       set_skipped_count set_processed_count record_call];
  unfold PROCESS_THRESHOLD in *.

(** C1. The duplicate-streak counter goes up by one exactly on a duplicate
    verdict (store test or in-memory test), an accepted record sets it to 0
    whatever it was, every other pass leaves it alone, and the pass on which
    it reaches 10 ends the for loop and the run. *)
Theorem C1_duplicate_streak (image : listing_item) (s : ImageProcessor) :
  (processed_count s < PROCESS_THRESHOLD)%Z ->
  (0 <= consecutive_duplicate_count s < 10)%Z ->
  let v := classify rt env image s in
  let r := fst (process_item rt env image s) in
  let s' := snd (process_item rt env image s) in
  (consecutive_duplicate_count s' = consecutive_duplicate_count s + 1
   <-> is_duplicate_verdict v = true)%Z /\
  (is_accepted v = true -> consecutive_duplicate_count s' = 0%Z) /\
  (is_duplicate_verdict v = false -> is_accepted v = false ->
   consecutive_duplicate_count s' = consecutive_duplicate_count s) /\
  (r = Ok Terminate <-> consecutive_duplicate_count s' = 10%Z) /\
  (forall rest, consecutive_duplicate_count s' = 10%Z ->
     for_each_image rt env (image :: rest) s = (Ok Terminate, s')) /\
  (forall fuel page s0 s1 front rest,
     fetch_images rt env page (snd (now env s0)) = (Ok (front ++ image :: rest), s1) ->
     for_each_image rt env front s1 = (Ok Next, s) ->
     consecutive_duplicate_count s' = 10%Z ->
     process_images_from rt env (S fuel) page s0 = (Ok Returned, s')).
Proof.
  intros Hp Hc v r s'.
  assert (Hterm : r = Ok Terminate <-> consecutive_duplicate_count s' = 10%Z).
  { subst v r s'. by_verdict image s; rewrite ?Ecdc;
      split; intro H'; try discriminate; try reflexivity; try lia. }
  assert (Hfor : forall rest, consecutive_duplicate_count s' = 10%Z ->
            for_each_image rt env (image :: rest) s = (Ok Terminate, s')).
  { intros rest H10. apply for_each_image_leaves; [discriminate |].
    apply Hterm. exact H10. }
  split; [| split; [| split; [| split; [exact Hterm | split; [exact Hfor |]]]]].
  - subst v r s'. by_verdict image s; rewrite ?Ecdc;
      split; intro H'; try discriminate; try reflexivity; try lia.
  - subst v r s'. by_verdict image s; rewrite ?Ecdc; intro H'; try discriminate; reflexivity.
  - subst v r s'. by_verdict image s; rewrite ?Ecdc; intros H1 H2; try discriminate; reflexivity.
  - intros fuel page s0 s1 front rest Hfetch Hfront H10.
    rewrite (cycle_eq rt env fuel page s0 (front ++ image :: rest) s1);
      [| destruct front; discriminate | exact Hfetch].
    rewrite (for_each_image_app rt env front (image :: rest) s1 s Hfront).
    rewrite (Hfor rest H10). reflexivity.
Qed.

(** C4. On the pass on which the processed counter reaches the threshold the
    controller sleeps for the cool-down, leaves all three counters at zero,
    leaves the for loop, and the run goes on with page 1. *)
Theorem C4_quota_cycle (image : listing_item) (s : ImageProcessor) :
  (processed_count s < PROCESS_THRESHOLD)%Z ->
  let v := classify rt env image s in
  let r := fst (process_item rt env image s) in
  let s' := snd (process_item rt env image s) in
  (r = Ok Restart <->
   is_accepted v = true /\ (PROCESS_THRESHOLD <= processed_count s + 1)%Z) /\
  (r = Ok Restart ->
   processed_count s' = 0%Z /\ skipped_count s' = 0%Z /\
   consecutive_duplicate_count s' = 0%Z /\
   last (trace s') EvNow = EvSleep (micros PAUSE_DURATION) /\
   (forall rest, for_each_image rt env (image :: rest) s = (Ok Restart, s')) /\
   (forall fuel page s0 s1 front rest,
      fetch_images rt env page (snd (now env s0)) = (Ok (front ++ image :: rest), s1) ->
      for_each_image rt env front s1 = (Ok Next, s) ->
      process_images_from rt env (S fuel) page s0 =
      process_images_from rt env fuel 1
        (record_call
           (EvSleep (Z.max 0 (micros REFRESH_INTERVAL
                              - (clock env (tick s') - clock env (tick s0)))))
           (record_call EvNow s')))).
Proof.
  intros Hp v r s'.
  split.
  - subst v r s'. by_verdict image s; rewrite ?Epc in *;
      split; intro H'; try discriminate; try reflexivity; try lia;
      try (destruct H' as [H1 H2]; try discriminate; lia);
      split; try reflexivity; lia.
  - intro Hr.
    assert (Hfor : forall rest,
              for_each_image rt env (image :: rest) s = (Ok Restart, s')).
    { intro rest. apply for_each_image_leaves; [discriminate | exact Hr]. }
    repeat split.
    1-4: subst v r s'; revert Hr; by_verdict image s; rewrite ?Epc in *;
      intro Hr; try discriminate; try lia; try reflexivity; try exact Ecdc;
      apply last_last.
    + exact Hfor.
    + intros fuel page s0 s1 front rest Hfetch Hfront.
      rewrite (cycle_eq rt env fuel page s0 (front ++ image :: rest) s1);
        [| destruct front; discriminate | exact Hfetch].
      rewrite (for_each_image_app rt env front (image :: rest) s1 s Hfront).
      rewrite (Hfor rest). reflexivity.
Qed.

Lemma trim_within (buffer : list image_data) :
  (List.length buffer <= IMAGES_TO_PROCESS)%nat -> trim buffer = buffer.
Proof.
  intro H. unfold trim.
  destruct (Nat.ltb_spec IMAGES_TO_PROCESS (List.length buffer)); [lia | reflexivity].
Qed.

Lemma trim_append (buffer : list image_data) (data : image_data) :
  (List.length buffer <= IMAGES_TO_PROCESS)%nat ->
  trim (buffer ++ [data]) =
  (if (List.length buffer <? IMAGES_TO_PROCESS)%nat then buffer ++ [data]
   else tl buffer ++ [data]) /\
  (List.length (trim (buffer ++ [data])) <= IMAGES_TO_PROCESS)%nat.
Proof.
  intro H. unfold trim. rewrite length_app. simpl List.length.
  destruct (Nat.ltb_spec IMAGES_TO_PROCESS (List.length buffer + 1));
    destruct (Nat.ltb_spec (List.length buffer) IMAGES_TO_PROCESS); try lia.
  - destruct buffer as [| x buffer]; [unfold IMAGES_TO_PROCESS in *; simpl in *; lia |].
    simpl. split; [reflexivity |]. rewrite length_app. simpl in *. lia.
  - split; [reflexivity |]. rewrite length_app. simpl. lia.
Qed.

(** C8. A pass through the loop body keeps the history buffer within its
    capacity; an accepted record goes to the end of the buffer, and when the
    buffer is full its first (oldest) entry is the one dropped. *)
Theorem C8_history_buffer_bound (image : listing_item) (s : ImageProcessor) :
  (List.length (previous_images s) <= IMAGES_TO_PROCESS)%nat ->
  let v := classify rt env image s in
  let s' := snd (process_item rt env image s) in
  (List.length (previous_images s') <= IMAGES_TO_PROCESS)%nat /\
  (forall data stored, v = Accepted data stored ->
     previous_images s' =
     if (List.length (previous_images s) <? IMAGES_TO_PROCESS)%nat
     then previous_images s ++ [data]
     else tl (previous_images s) ++ [data]) /\
  (is_accepted v = false -> previous_images s' = previous_images s).
Proof.
  intros Hlen v s'.
  subst v s'. by_verdict image s; rewrite ?Epi, ?trim_within by exact Hlen;
    (split; [| split]); try exact Hlen; try reflexivity;
    try (intros ? ? H'; discriminate H'); try (intro H'; discriminate H');
    try (apply trim_append; exact Hlen);
    intros data' stored' H'; injection H' as -> ->;
    apply trim_append; exact Hlen.
Qed.

(** C10. A pass that yields no candidate leaves the skipped counter alone;
    the counter goes up only on a pre-filter skip or a duplicate verdict, and
    then by one. *)
Theorem C10_skipped_counter_frame (image : listing_item) (s : ImageProcessor) :
  (processed_count s < PROCESS_THRESHOLD)%Z ->
  (0 <= skipped_count s)%Z ->
  let v := classify rt env image s in
  let s' := snd (process_item rt env image s) in
  (v = NoCandidate -> skipped_count s' = skipped_count s) /\
  (skipped_count s < skipped_count s' ->
   is_prefilter_skip v = true \/ is_duplicate_verdict v = true)%Z /\
  (is_prefilter_skip v = true \/ is_duplicate_verdict v = true ->
   skipped_count s' = skipped_count s + 1)%Z.
Proof.
  intros Hp Hs v s'.
  subst v s'. by_verdict image s; rewrite ?Epc, ?Esk in *;
    (split; [| split]); try (intro H'; discriminate H'); try lia;
    try (intros _; reflexivity); try (intros _; auto; fail);
    try (intros [H' | H']; discriminate H'); intros H'; try lia; auto.
Qed.

(** An item whose user name, as the listing gives it, has a timestamp in
    [recent_users] less than [TIME_THRESHOLD] seconds before the clock
    reading, or whose id is in [processed_ids], is skipped:
    only the skipped counter moves, and the only external call made, if any,
    is the clock reading; nothing is downloaded or rendered. *)
Theorem prefilter_hit_is_skipped (image : listing_item) (s : ImageProcessor) :
  (exists t, dict_get (api_username (item image)) (recent_users s) = Some t /\
             (clock env (tick s) - t < micros TIME_THRESHOLD)%Z) \/
  set_mem py_eqb (api_id (item image)) (processed_ids s) = true ->
  exists s',
    process_item rt env image s = (Ok Next, s') /\
    session s' =
      (processed_count s, (skipped_count s + 1)%Z, previous_images s,
       existing_entries_set s, processed_ids s, recent_users s,
       consecutive_duplicate_count s) /\
    driver s' = driver s /\
    (trace s' = trace s \/ trace s' = trace s ++ [EvNow]).
Proof.
  intro H. unfold process_item. unfold bind at 1. rewrite recently_processed_eq.
  destruct (dict_get (api_username (item image)) (recent_users s)) as [t0 |].
  - destruct (Z.ltb_spec (clock env (tick s) - t0) (micros TIME_THRESHOLD)) as [Hlt | Hge].
    + eexists; split; [reflexivity |]. simpl. auto.
    + destruct H as [(t & Ht & Hlt) | Hseen]; [injection Ht as ->; lia |].
      unfold bind at 1, get at 1. cbn [processed_ids record_call]. rewrite Hseen.
      eexists; split; [reflexivity |]. simpl. auto.
  - destruct H as [(t & Ht & _) | Hseen]; [discriminate |].
    unfold bind at 1, get at 1. rewrite Hseen.
    eexists; split; [reflexivity |]. simpl. auto.
Qed.

(** *** From an accepted record to the pre-filters *)

Lemma dict_get_dict_set (k : pyval) (t : Z) (d : list (pyval * Z)) :
  py_eqb k k = true -> dict_get k (dict_set k t d) = Some t.
Proof.
  intro Hk. induction d as [| [k' v'] d IH]; cbn [dict_set dict_get].
  - rewrite Hk. reflexivity.
  - destruct (py_eqb k' k) eqn:E; cbn [dict_get]; rewrite E; [reflexivity | exact IH].
Qed.

Lemma set_mem_set_add (k : pyval) (l : list pyval) :
  py_eqb k k = true -> set_mem py_eqb k (set_add py_eqb k l) = true.
Proof.
  intro Hk. unfold set_add. destruct (set_mem py_eqb k l) eqn:E; [exact E |].
  unfold set_mem. rewrite existsb_app. cbn [existsb]. rewrite Hk.
  rewrite orb_true_r. reflexivity.
Qed.

(** After a record is accepted, the user and the id under which it was
    recorded are the ones the pre-filters will find.  The record holds them as
    [convert_numeric_fields] left them; the pre-filters look up the user and
    the id of the listing item. *)
Lemma accepted_is_remembered (image : listing_item) (s : ImageProcessor)
    (data : image_data) (stored : bool) :
  classify rt env image s = Accepted data stored ->
  let s' := snd (process_item rt env image s) in
  (py_eqb (username data) (username data) = true ->
   exists t, dict_get (username data) (recent_users s') = Some t) /\
  (py_eqb (id data) (id data) = true ->
   set_mem py_eqb (id data) (processed_ids s') = true).
Proof.
  intros Hv s'. subst s'. revert Hv.
  by_verdict image s; intro Hv; try discriminate Hv;
    injection Hv as -> ->; rewrite ?Eru, ?Eids;
    (split; [intro Hk; eexists; apply dict_get_dict_set; exact Hk
            | intro Hk; apply set_mem_set_add; exact Hk]).
Qed.

(** C2, as the code has it. When the insert fails, the pair of tags and
    comment is not added to [existing_entries_set], and the controller goes
    on as after a successful insert: the processed counter advances (and is
    then subject to the quota check), the streak counter is set to 0, the
    user's timestamp is stored, the record is appended to the capped history
    buffer and the id is added to [processed_ids]. *)
Theorem C2_insert_failure_bookkeeping (image : listing_item) (s : ImageProcessor)
    (data : image_data) :
  classify rt env image s = Accepted data false ->
  let s' := snd (process_item rt env image s) in
  existing_entries_set s' = existing_entries_set s /\
  processed_count s' =
    (if (PROCESS_THRESHOLD <=? processed_count s + 1)%Z then 0
     else processed_count s + 1)%Z /\
  consecutive_duplicate_count s' = 0%Z /\
  (exists t, recent_users s' = dict_set (username data) t (recent_users s)) /\
  previous_images s' = trim (previous_images s ++ [data]) /\
  processed_ids s' = set_add py_eqb (id data) (processed_ids s).
Proof.
  intros Hv s'. subst s'. revert Hv.
  by_verdict image s; intro Hv; try discriminate Hv;
    injection Hv as -> ->; rewrite ?Epc in *;
    repeat match goal with
           | |- context [(?a <=? ?b)%Z] => destruct (Z.leb_spec a b); try lia
           end;
    repeat split; eauto; lia.
Qed.

Lemma process_item_inv image s :
  loop_inv s ->
  fst (process_item rt env image s) <> Ok Terminate ->
  loop_inv (snd (process_item rt env image s)).
Proof.
  intros (Hp & Hs & Hc & Hl).
  unfold loop_inv.
  by_verdict image s; rewrite ?Epc, ?Esk, ?Ecdc, ?Epi, ?trim_within in * by exact Hl;
    intros Hr; repeat split; try lia; try exact Hl;
    try (exfalso; apply Hr; reflexivity);
    apply trim_append; exact Hl.
Qed.

Lemma enter_inv s : enter env init = (Ok tt, s) -> loop_inv s.
Proof.
  unfold enter, initialize_driver. unfold bind at 1.
  pose proof (keeps_initialize_driver_from env MAX_DRIVER_RETRIES init) as Hk.
  destruct (initialize_driver_from env MAX_DRIVER_RETRIES init) as [[d | e] s1];
    [| discriminate].
  simpl in Hk. unfold session in Hk. injection Hk as Epc Esk Epi _ _ _ Ecdc.
  unfold bind, modify, call. simpl.
  destruct (stored_entries env (tick s1)); unfold modify, raise; intro H;
    [| discriminate].
  injection H as <-. unfold loop_inv. simpl.
  rewrite Epc, Esk, Epi, Ecdc. simpl. unfold PROCESS_THRESHOLD. repeat split; lia.
Qed.

Lemma reachable_inv s : reachable rt env s -> loop_inv s.
Proof.
  induction 1 as [s H | s image _ IH Hr | s e _ IH].
  - exact (enter_inv s H).
  - apply process_item_inv; assumption.
  - exact IH.
Qed.

End ControllerProperties.

(** ** Obliviousness of the history buffer *)

Lemma oblivious_ret A (a : A) : oblivious (ret a).
Proof. intros s p; exists p; reflexivity. Qed.

Lemma oblivious_raise A (e : exn) : oblivious (@raise A e).
Proof. intros s p; exists p; reflexivity. Qed.

Lemma oblivious_get A (f : ImageProcessor -> A) :
  (forall s p, f (set_previous_images p s) = f s) -> oblivious (get f).
Proof. intros Hf s p; exists p; unfold get; rewrite Hf; reflexivity. Qed.

Lemma oblivious_call A (e : event) (answer : nat -> A) : oblivious (call e answer).
Proof. intros s p; exists p; reflexivity. Qed.

Lemma oblivious_modify (f : ImageProcessor -> ImageProcessor) :
  (forall s p, exists p', f (set_previous_images p s) = set_previous_images p' (f s)) ->
  oblivious (modify f).
Proof.
  intros Hf s p. destruct (Hf s p) as [p' Hp']. exists p'.
  unfold modify. rewrite Hp'. reflexivity.
Qed.

Lemma oblivious_bind A B (c : M A) (k : A -> M B) :
  oblivious c -> (forall a, oblivious (k a)) -> oblivious (bind c k).
Proof.
  intros Hc Hk s p. unfold bind.
  destruct (Hc s p) as [p1 H1]. rewrite H1.
  destruct (c s) as [[a | e] s1]; simpl.
  - apply Hk.
  - exists p1; reflexivity.
Qed.

Lemma oblivious_try A (c : M A) handles (h : exn -> M A) :
  oblivious c -> (forall e, oblivious (h e)) -> oblivious (try_except c handles h).
Proof.
  intros Hc Hh s p. unfold try_except.
  destruct (Hc s p) as [p1 H1]. rewrite H1.
  destruct (c s) as [[a | e] s1]; simpl.
  - exists p1; reflexivity.
  - destruct (handles e); [apply Hh | exists p1; reflexivity].
Qed.

Ltac oblivious :=
  repeat first
    [ solve [auto]
    | apply oblivious_ret | apply oblivious_raise | apply oblivious_call
    | apply oblivious_get; intros; reflexivity
    | apply oblivious_modify; intros; eexists; reflexivity
    | apply oblivious_bind; [ | intros ]
    | apply oblivious_try; [ | intros ]
    | match goal with
      | |- oblivious (if ?b then _ else _) => destruct b
      | |- oblivious (match ?x with _ => _ end) => destruct x
      end ].

Section Oblivious.

Variable rt : runtime.
Variable env : oracle.

Lemma oblivious_initialize_driver_from n : oblivious (initialize_driver_from env n).
Proof. induction n as [| n IH]; simpl; unfold sleep; oblivious. Qed.

Lemma oblivious_recover e : oblivious (recover env e).
Proof.
  unfold recover, sleep, initialize_driver.
  pose proof (oblivious_initialize_driver_from Config.MAX_DRIVER_RETRIES). oblivious.
Qed.

Lemma oblivious_attempt image : oblivious (attempt env image).
Proof. unfold attempt; oblivious. Qed.

Lemma oblivious_extract_image_details_from n image :
  oblivious (extract_image_details_from env n image).
Proof.
  induction n as [| n IH]; simpl.
  - oblivious.
  - pose proof (oblivious_attempt image). pose proof oblivious_recover. oblivious.
Qed.

Lemma oblivious_format_image_data image extracted c :
  oblivious (format_image_data rt image extracted c).
Proof. unfold format_image_data, standardize_date, convert_numeric; oblivious. Qed.

Lemma oblivious_process_image image : oblivious (process_image rt env image).
Proof.
  unfold process_image, extract_exif_user_comment, extract_image_details.
  pose proof (oblivious_extract_image_details_from Config.MAX_RETRIES image).
  pose proof (oblivious_format_image_data image).
  oblivious.
Qed.

Lemma oblivious_is_duplicate u c : oblivious (is_duplicate env u c).
Proof. unfold is_duplicate; oblivious. Qed.

Lemma oblivious_is_similar_entry data : oblivious (is_similar_entry data).
Proof. unfold is_similar_entry; oblivious. Qed.

Lemma oblivious_insert_into_db data : oblivious (insert_into_db env data).
Proof. unfold insert_into_db; oblivious. Qed.

Lemma oblivious_recently_processed image : oblivious (recently_processed env image).
Proof.
  intros s p. exists p. rewrite !recently_processed_eq.
  cbn [recent_users tick set_previous_images].
  destruct (dict_get _ _); reflexivity.
Qed.

(** The cap on the buffer reads the buffer, but only to write it back. *)
Lemma oblivious_cap :
  oblivious
    (buffer <- get previous_images ;;
     if (Config.IMAGES_TO_PROCESS <? List.length buffer)%nat
     then modify (set_previous_images (tl buffer))
     else ret tt).
Proof.
  intros s p. unfold bind, get, modify, ret. cbn [previous_images set_previous_images].
  destruct (_ <? List.length p)%nat; destruct (_ <? List.length (previous_images s))%nat;
    simpl; eexists; reflexivity.
Qed.

Lemma oblivious_handle_candidate data : oblivious (handle_candidate env data).
Proof.
  unfold handle_candidate, skip, count_duplicate, now.
  pose proof oblivious_is_duplicate. pose proof oblivious_is_similar_entry.
  pose proof oblivious_insert_into_db. pose proof oblivious_cap.
  apply oblivious_bind; [auto | intros dup].
  apply oblivious_bind; [| intros; exact oblivious_cap].
  oblivious.
Qed.

Lemma oblivious_process_item image : oblivious (process_item rt env image).
Proof.
  unfold process_item, quota_and_streak, skip, sleep.
  pose proof oblivious_recently_processed. pose proof oblivious_process_image.
  pose proof oblivious_handle_candidate.
  oblivious.
Qed.

Lemma oblivious_for_each_image images : oblivious (for_each_image rt env images).
Proof.
  induction images as [| image images IH]; cbn [for_each_image].
  - oblivious.
  - pose proof oblivious_process_item. oblivious.
Qed.

Lemma oblivious_process_images_from fuel page :
  oblivious (process_images_from rt env fuel page).
Proof.
  revert page. induction fuel as [| fuel IH]; intro page; cbn [process_images_from].
  - oblivious.
  - unfold now, fetch_images, sleep.
    pose proof oblivious_for_each_image. oblivious.
Qed.

Lemma classify_oblivious image s p :
  classify rt env image (set_previous_images p s) = classify rt env image s.
Proof.
  unfold classify.
  destruct (oblivious_recently_processed image s p) as [p1 ->].
  destruct (recently_processed env image s) as [[[ | ] | e] s1]; simpl; try reflexivity.
  all: destruct (set_mem py_eqb _ _); try reflexivity.
  all: destruct (oblivious_process_image image s1 p1) as [p2 ->];
    destruct (process_image rt env image s1) as [[[data |] | e'] s2]; simpl;
    try reflexivity.
  all: unfold classify_candidate;
    destruct (oblivious_is_duplicate (username data) (user_comment data) s2 p2) as [p3 ->];
    destruct (is_duplicate env (username data) (user_comment data) s2)
      as [[[ | ] | e''] s3]; simpl; try reflexivity.
  all: destruct (oblivious_is_similar_entry data s3 p3) as [p4 ->];
    destruct (is_similar_entry data s3) as [[[ | ] | e3] s4]; reflexivity.
Qed.

End Oblivious.

(** C9. Neither the similarity test nor the history buffer takes part in the
    loop: with another buffer in place every item gets the same verdict, the
    loop body and the whole run return the same result and leave the same
    state up to the buffer itself, and with another similarity measure in
    place the loop body is the same function. *)
Theorem C9_history_is_never_consulted
    (rt : runtime) (env : oracle) (image : listing_item) (s : ImageProcessor)
    (p : list image_data) :
  classify rt env image (set_previous_images p s) = classify rt env image s /\
  (exists p',
     process_item rt env image (set_previous_images p s) =
     (fst (process_item rt env image s),
      set_previous_images p' (snd (process_item rt env image s)))) /\
  (forall fuel, exists p',
     process_images rt env fuel (set_previous_images p s) =
     (fst (process_images rt env fuel s),
      set_previous_images p' (snd (process_images rt env fuel s)))) /\
  (forall f,
     process_item (with_matching_size f rt) env image s = process_item rt env image s /\
     classify (with_matching_size f rt) env image s = classify rt env image s).
Proof.
  split; [apply classify_oblivious |].
  split; [apply oblivious_process_item |].
  split; [intro fuel; apply oblivious_process_images_from |].
  intro f. split; reflexivity.
Qed.

(** ** Runs stay within the invariant *)

Section Reachability.

Variable rt : runtime.
Variable env : oracle.

Lemma for_each_image_reachable images s sg s' :
  reachable rt env s ->
  for_each_image rt env images s = (Ok sg, s') ->
  sg <> Terminate ->
  reachable rt env s'.
Proof.
  revert s. induction images as [| image images IH]; intros s Hs Hrun Hsg.
  - injection Hrun as _ <-. exact Hs.
  - cbn [for_each_image] in Hrun. unfold bind in Hrun.
    pose proof (reachable_item rt env s image Hs) as Hstep.
    destruct (process_item rt env image s) as [[sg0 | e] s1]; [| discriminate].
    cbn [fst snd] in Hstep.
    destruct sg0.
    + apply (IH s1); [apply Hstep; discriminate | exact Hrun | exact Hsg].
    + injection Hrun as _ <-. apply Hstep. discriminate.
    + injection Hrun as <- _. contradiction.
Qed.

(** Whatever state a run is in while it is still running is reachable, and so
    satisfies the loop invariant. *)
Lemma process_images_from_reachable fuel page s page' s' :
  reachable rt env s ->
  process_images_from rt env fuel page s = (Ok (StillRunning page'), s') ->
  reachable rt env s'.
Proof.
  revert page s. induction fuel as [| fuel IH]; intros page s Hs Hrun.
  - injection Hrun as _ <-. exact Hs.
  - cbn [process_images_from] in Hrun.
    unfold bind at 1, now at 1, call at 1 in Hrun.
    unfold bind at 1, fetch_images at 1, bind at 1, call at 1 in Hrun.
    pose proof (reachable_call rt env _ (EvFetchPage page)
                  (reachable_call rt env s EvNow Hs)) as H1.
    set (s1 := record_call (EvFetchPage page) (record_call EvNow s)) in *.
    destruct (listing env (tick (record_call EvNow s))) as [data |];
      unfold ret at 1 in Hrun; [destruct data as [| a data] |].
    2: { cbn [map] in Hrun. unfold bind at 1 in Hrun.
         destruct (for_each_image rt env _ s1) as [[sg | e] s2] eqn:Hfor;
           [| discriminate].
         assert (Hsg : sg <> Terminate) by (intros ->; discriminate).
         pose proof (for_each_image_reachable _ _ _ _ H1 Hfor Hsg) as H2.
         destruct sg; [| | contradiction];
           unfold bind at 1, now at 1, call at 1 in Hrun;
           unfold bind at 1, sleep at 1, call at 1 in Hrun;
           eapply IH; [| exact Hrun | | exact Hrun];
           apply reachable_call; apply reachable_call; exact H2. }
    all: cbn [map] in Hrun; unfold bind at 1, sleep at 1, call at 1 in Hrun;
      eapply IH; [| exact Hrun]; apply reachable_call; exact H1.
Qed.

Lemma main_keeps_invariant fuel s0 page' s' :
  enter env init = (Ok tt, s0) ->
  process_images rt env fuel s0 = (Ok (StillRunning page'), s') ->
  loop_inv s'.
Proof.
  intros Henter Hrun. apply (reachable_inv rt env).
  apply (process_images_from_reachable fuel 1%Z s0 page' s');
    [apply reachable_enter; exact Henter | exact Hrun].
Qed.

(** *** What yields no candidate *)

Lemma process_image_download_failure image s :
  http_get env (tick s) = false ->
  fst (process_image rt env image s) = Ok None.
Proof.
  intro H. unfold process_image, try_except, bind at 1, call at 1.
  rewrite H. reflexivity.
Qed.

Lemma process_image_missing_comment image s :
  http_get env (tick s) = true ->
  (forall items, exif env (S (tick s)) = ExifItems items ->
                 find_user_comment items = None \/ find_user_comment items = Some []) ->
  fst (process_image rt env image s) = Ok None.
Proof.
  intros H Hexif. unfold process_image, try_except, bind at 1, call at 1.
  rewrite H. unfold bind at 1, ret at 1, bind at 1, extract_exif_user_comment,
    bind at 1, call at 1. cbn [tick record_call].
  destruct (exif env (S (tick s))) as [| | items]; try reflexivity.
  destruct (Hexif items eq_refl) as [-> | ->]; reflexivity.
Qed.

End Reachability.

(** ** The Tag Extractor and the item boundary *)

Section Extractor.

Variable env : oracle.

(** A page that loads with no tag text ends the extraction at once: the
    [ValueError] is not among the exceptions the retry clause lists. *)
Lemma extract_zero_tags_raises n image s session texts :
  driver s = Some session ->
  render env (tick s) = RenderTexts texts ->
  kept_texts texts = [] ->
  extract_image_details_from env (S n) image s =
  (Raise ValueError, record_call (EvRender (Some session) (item_web_url image)) s).
Proof.
  intros Hd Hr Hf. cbn [extract_image_details_from].
  unfold bind at 1, try_except, bind at 1, attempt, bind at 1, get at 1.
  rewrite Hd. unfold bind at 1, call at 1. rewrite Hr, Hf. reflexivity.
Qed.

(** A timeout, by contrast, is retried: the attempt counter goes down by one
    and the extraction starts over after the handler has run. *)
Lemma extract_timeout_retried n image s session :
  driver s = Some session ->
  render env (tick s) = RenderTimeout ->
  extract_image_details_from env (S n) image s =
  match recover env TimeoutException
          (record_call (EvRender (Some session) (item_web_url image)) s) with
  | (Ok _, s') => extract_image_details_from env n image s'
  | (Raise e, s') => (Raise e, s')
  end.
Proof.
  intros Hd Hr. cbn [extract_image_details_from].
  unfold bind at 1, try_except, bind at 1, attempt, bind at 1, get at 1.
  rewrite Hd. unfold bind at 1, call at 1. rewrite Hr.
  cbn [raise retryable]. unfold bind at 1.
  destruct (recover env TimeoutException _) as [[[] | e] s']; reflexivity.
Qed.

End Extractor.

(** C3. On the page of [Demo.bare_page], which loads and shows no tag text on
    its first rendering, the extractor makes one attempt, does not sleep and
    does not try again, although the next rendering would show the tags; the
    item is dropped.  The same page timing out instead ([Demo.slow_page]) is
    retried after the fixed delay and the record is accepted. *)
Theorem C3_zero_tags_end_the_extraction :
  process_image Demo.rt Demo.bare_page Demo.item1 Demo.ready =
  (Ok None,
   record_call (EvRender (Some 0%nat) (lit "website/1"))
     (record_call EvOpenImage
        (record_call (EvDownload (PStr (lit "http://img/a.jpg"))) Demo.ready))) /\
  extract_image_details Demo.bare_page Demo.item1
    (record_call EvOpenImage
       (record_call (EvDownload (PStr (lit "http://img/a.jpg"))) Demo.ready)) =
  (Raise ValueError,
   record_call (EvRender (Some 0%nat) (lit "website/1"))
     (record_call EvOpenImage
        (record_call (EvDownload (PStr (lit "http://img/a.jpg"))) Demo.ready))) /\
  classify Demo.rt Demo.bare_page Demo.item1 Demo.ready = NoCandidate /\
  classify Demo.rt Demo.slow_page Demo.item1 Demo.ready = Accepted Demo.record1 true /\
  In (EvSleep (micros Config.RETRY_DELAY))
     (trace (snd (process_image Demo.rt Demo.slow_page Demo.item1 Demo.ready))).
Proof.
  split; [vm_compute; reflexivity |].
  split; [apply extract_zero_tags_raises with (texts := Demo.steady [lit ""; lit "  "]);
          reflexivity |].
  split; [vm_compute; reflexivity |].
  split; [vm_compute; reflexivity |].
  vm_compute. tauto.
Qed.

(** C5. When Firefox cannot be started at startup, the error leaves [main] and
    the run is over.  When the session is lost during the tag extraction of an
    item and Firefox cannot be started again in [MAX_DRIVER_RETRIES] attempts,
    the same error is caught at the item boundary: the item is dropped, the
    loop goes to the next item and the run goes on. *)
Theorem C5_reinit_exhaustion_during_extraction :
  fst (main Demo.rt Demo.no_browser 3 init) = Raise WebDriverException /\
  fst (initialize_driver Demo.session_lost
         (record_call (EvQuit 0)
            (record_call (EvRender (Some 0%nat) (lit "website/1"))
               (record_call EvOpenImage
                  (record_call (EvDownload (PStr (lit "http://img/a.jpg"))) Demo.ready)))))
  = Raise WebDriverException /\
  fst (process_image Demo.rt Demo.session_lost Demo.item1 Demo.ready) = Ok None /\
  fst (process_item Demo.rt Demo.session_lost Demo.item1 Demo.ready) = Ok Next /\
  trace (snd (process_item Demo.rt Demo.session_lost Demo.item1 Demo.ready)) =
    [EvDownload (PStr (lit "http://img/a.jpg")); EvOpenImage;
     EvRender (Some 0%nat) (lit "website/1"); EvQuit 0;
     EvFirefox; EvSleep (micros Config.RETRY_DELAY);
     EvFirefox; EvSleep (micros Config.RETRY_DELAY);
     EvFirefox; EvSleep (micros Config.RETRY_DELAY)] /\
  fst (main Demo.rt Demo.session_lost 3 init) = Ok (StillRunning 1).
Proof. repeat split; vm_compute; reflexivity. Qed.

(** C6. The recency pre-filter misses a user whose name is a string of digits.
    In the world of [Demo.hasty] the first item of user 12345 is accepted and
    the clock reading 5000 (5 ms) is filed under the number 12345, which is
    what the numeric conversion made of the name.  The next item of the same
    user is offered 1 ms later, well inside [TIME_THRESHOLD]; the lookup under
    the name as the listing gives it, a string, finds nothing, so the item is
    not skipped: it is downloaded, rendered and stored, and the skipped
    counter stays at 0.  For the user alice the same two steps end in the
    pre-filter, with the clock reading as the only external call. *)
Theorem C6_digit_user_is_not_suppressed :
  let s1 := snd (process_item Demo.rt Demo.hasty Demo.item_of_12345 Demo.ready) in
  let s2 := snd (process_item Demo.rt Demo.hasty Demo.next_item_of_12345 s1) in
  let a1 := snd (process_item Demo.rt Demo.hasty Demo.item1 Demo.ready) in
  let a2 := snd (process_item Demo.rt Demo.hasty Demo.item2 a1) in
  classify Demo.rt Demo.hasty Demo.item_of_12345 Demo.ready
    = Accepted Demo.record_of_12345 true /\
  recent_users s1 = [(PInt 12345, 5000%Z)] /\
  (clock Demo.hasty (tick s1) - 5000 < micros Config.TIME_THRESHOLD)%Z /\
  dict_get (api_username (item Demo.next_item_of_12345)) (recent_users s1) = None /\
  classify Demo.rt Demo.hasty Demo.next_item_of_12345 s1
    = Accepted Demo.next_record_of_12345 true /\
  trace s2 = trace s1 ++
    [EvDownload (PStr (lit "http://img/b.jpg")); EvOpenImage;
     EvRender (Some 0%nat) (lit "website/9");
     EvQuery (PInt 12345) (PStr (lit "second text"));
     EvInsert Demo.next_record_of_12345; EvNow] /\
  (processed_count s2, skipped_count s2) = (2%Z, 0%Z) /\
  classify Demo.rt Demo.hasty Demo.item1 Demo.ready = Accepted Demo.record1 true /\
  classify Demo.rt Demo.hasty Demo.item2 a1 = RecentUser /\
  trace a2 = trace a1 ++ [EvNow] /\
  (processed_count a2, skipped_count a2) = (1%Z, 1%Z).
Proof.
  cbv zeta.
  do 10 (split; [vm_compute; reflexivity |]).
  vm_compute; reflexivity.
Qed.

(** ** The failed insert, at work *)

(** With the store down and three duplicates in a row behind it, the loop
    counts the item as processed and resets the streak. *)
Lemma C2_insert_failure_counterexample :
  ~ insert_failure_loses_item Demo.rt Demo.store_down Demo.item1 Demo.ready3.
Proof.
  intro H. specialize (H Demo.record1). 
  assert (Hv : classify Demo.rt Demo.store_down Demo.item1 Demo.ready3
               = Accepted Demo.record1 false) by (vm_compute; reflexivity).
  destruct (H Hv) as [Hpc _]. vm_compute in Hpc. discriminate Hpc.
Qed.

(** ** The properties at work *)

Lemma C2_insert_failure_bookkeeping_witness :
  classify Demo.rt Demo.store_down Demo.item1 Demo.ready3 = Accepted Demo.record1 false /\
  processed_count (snd (process_item Demo.rt Demo.store_down Demo.item1 Demo.ready3)) = 1%Z /\
  consecutive_duplicate_count
    (snd (process_item Demo.rt Demo.store_down Demo.item1 Demo.ready3)) = 0%Z.
Proof.
  assert (Hv : classify Demo.rt Demo.store_down Demo.item1 Demo.ready3
               = Accepted Demo.record1 false) by (vm_compute; reflexivity).
  split; [exact Hv |].
  destruct (C2_insert_failure_bookkeeping Demo.rt Demo.store_down Demo.item1 Demo.ready3
              Demo.record1 Hv) as (_ & Hpc & Hcdc & _).
  split; [exact Hpc | exact Hcdc].
Defined.

Lemma C1_duplicate_streak_witness :
  (processed_count Demo.ready9 < Config.PROCESS_THRESHOLD)%Z /\
  (0 <= consecutive_duplicate_count Demo.ready9 < 10)%Z /\
  fst (process_item Demo.rt Demo.repeats Demo.item1 Demo.ready9) = Ok Terminate.
Proof.
  assert (Hp : (processed_count Demo.ready9 < Config.PROCESS_THRESHOLD)%Z) by reflexivity.
  assert (Hc : (0 <= consecutive_duplicate_count Demo.ready9 < 10)%Z)
    by (split; [discriminate | reflexivity]).
  split; [exact Hp | split; [exact Hc |]].
  destruct (C1_duplicate_streak Demo.rt Demo.repeats Demo.item1 Demo.ready9 Hp Hc)
    as (Hinc & _ & _ & Hterm & _).
  apply Hterm. rewrite (proj2 Hinc); [reflexivity | vm_compute; reflexivity].
Defined.

Lemma C4_quota_cycle_witness :
  (processed_count Demo.nearly_there < Config.PROCESS_THRESHOLD)%Z /\
  fst (process_item Demo.rt Demo.calm Demo.item1 Demo.nearly_there) = Ok Restart /\
  processed_count (snd (process_item Demo.rt Demo.calm Demo.item1 Demo.nearly_there)) = 0%Z /\
  skipped_count (snd (process_item Demo.rt Demo.calm Demo.item1 Demo.nearly_there)) = 0%Z /\
  consecutive_duplicate_count
    (snd (process_item Demo.rt Demo.calm Demo.item1 Demo.nearly_there)) = 0%Z.
Proof.
  assert (Hp : (processed_count Demo.nearly_there < Config.PROCESS_THRESHOLD)%Z)
    by reflexivity.
  split; [exact Hp |].
  destruct (C4_quota_cycle Demo.rt Demo.calm Demo.item1 Demo.nearly_there Hp)
    as (Hiff & Hthen).
  assert (Hr : fst (process_item Demo.rt Demo.calm Demo.item1 Demo.nearly_there)
               = Ok Restart).
  { apply Hiff. split; [vm_compute; reflexivity | vm_compute; discriminate]. }
  destruct (Hthen Hr) as (H1 & H2 & H3 & _).
  repeat split; assumption.
Defined.

Lemma prefilter_hit_is_skipped_at_seen1 :
  set_mem py_eqb (api_id (item Demo.item1)) (processed_ids Demo.seen1) = true /\
  exists s',
    process_item Demo.rt Demo.calm Demo.item1 Demo.seen1 = (Ok Next, s') /\
    skipped_count s' = 1%Z /\ (trace s' = [] \/ trace s' = [EvNow]).
Proof.
  assert (Hseen : set_mem py_eqb (api_id (item Demo.item1)) (processed_ids Demo.seen1)
                  = true) by reflexivity.
  split; [exact Hseen |].
  destruct (prefilter_hit_is_skipped Demo.rt Demo.calm Demo.item1 Demo.seen1 (or_intror Hseen))
    as (s' & Hrun & Hsession & _ & Htrace).
  exists s'. split; [exact Hrun |].
  unfold session in Hsession. injection Hsession as _ Hsk _ _ _ _ _.
  split; [exact Hsk | exact Htrace].
Defined.

Lemma C8_history_buffer_bound_witness :
  (List.length (previous_images Demo.full_buffer) <= Config.IMAGES_TO_PROCESS)%nat /\
  previous_images (snd (process_item Demo.rt Demo.calm Demo.item1 Demo.full_buffer)) =
  repeat Demo.record1 49 ++ [Demo.record1].
Proof.
  assert (Hl : (List.length (previous_images Demo.full_buffer)
                <= Config.IMAGES_TO_PROCESS)%nat)
    by (apply Nat.leb_le; reflexivity).
  split; [exact Hl |].
  destruct (C8_history_buffer_bound Demo.rt Demo.calm Demo.item1 Demo.full_buffer Hl)
    as (_ & Hacc & _).
  rewrite (Hacc Demo.record1 true); [reflexivity | vm_compute; reflexivity].
Defined.

Lemma C10_skipped_counter_frame_witness :
  (processed_count Demo.nearly_there < Config.PROCESS_THRESHOLD)%Z /\
  (0 <= skipped_count Demo.nearly_there)%Z /\
  classify Demo.rt Demo.no_comment Demo.item1 Demo.nearly_there = NoCandidate /\
  skipped_count (snd (process_item Demo.rt Demo.no_comment Demo.item1 Demo.nearly_there))
  = 7%Z.
Proof.
  assert (Hp : (processed_count Demo.nearly_there < Config.PROCESS_THRESHOLD)%Z)
    by reflexivity.
  assert (Hs : (0 <= skipped_count Demo.nearly_there)%Z) by discriminate.
  assert (Hv : classify Demo.rt Demo.no_comment Demo.item1 Demo.nearly_there = NoCandidate)
    by (vm_compute; reflexivity).
  split; [exact Hp | split; [exact Hs | split; [exact Hv |]]].
  destruct (C10_skipped_counter_frame Demo.rt Demo.no_comment Demo.item1
              Demo.nearly_there Hp Hs) as (Hnone & _).
  rewrite (Hnone Hv). reflexivity.
Defined.

(** The worked example of the specification: a first item of alice is
    inserted; a second one with the same tags and comment is skipped as a
    duplicate; a third one whose file has no comment is dropped before the
    duplicate tests and leaves the streak alone. *)
Example three_items_of_alice :
  let s1 := snd (process_item Demo.rt Demo.calm Demo.item1 Demo.ready) in
  let s2 := snd (process_item Demo.rt Demo.calm (add_web_url Demo.rt (Demo.alice 2)) s1) in
  let s3 := snd (process_item Demo.rt Demo.no_comment
                   (add_web_url Demo.rt (Demo.alice 3)) s2) in
  (processed_count s1, skipped_count s1, consecutive_duplicate_count s1) = (1, 0, 0)%Z /\
  classify Demo.rt Demo.calm (add_web_url Demo.rt (Demo.alice 2)) s1
  = MemoryDuplicate
      {| id := PInt 2; url := url Demo.record1; hash := hash Demo.record1;
         createdAt := createdAt Demo.record1; postId := postId Demo.record1;
         username := username Demo.record1; web_url := PStr (lit "website/2");
         tags := tags Demo.record1; user_comment := user_comment Demo.record1 |} /\
  (processed_count s2, skipped_count s2, consecutive_duplicate_count s2) = (1, 1, 1)%Z /\
  classify Demo.rt Demo.no_comment (add_web_url Demo.rt (Demo.alice 3)) s2 = NoCandidate /\
  (processed_count s3, skipped_count s3, consecutive_duplicate_count s3) = (1, 1, 1)%Z.
Proof. repeat split; vm_compute; reflexivity. Qed.

(** ** The comment codec *)



(** Whatever decodes as ASCII decodes as UTF-8 to the same text, so the third
    encoding of the list never is the first to succeed. *)
Lemma ascii_decodes_as_utf8 (b : list byte) (s : pystr) :
  decode_ascii b = Some s -> decode_utf8 b = Some s.
Proof.
  revert s. induction b as [| b0 b IH]; intros s H; [exact H |].
  cbn [decode_ascii decode_utf8] in *.
  destruct (code_of_byte b0 <? 128)%N; [| discriminate].
  destruct (decode_ascii b) as [s0 |]; [| discriminate].
  rewrite (IH s0 eq_refl). exact H.
Qed.


(** The comment of a Unicode EXIF block, as written by a camera: marker,
    then UTF-16-BE text. *)
Example decode_marked_utf16 :
  decode_user_comment
    (EBytes (bytes_of_string "UNICODE" ++ [x00; x4e; x2d; x00; x41; x00; x00])) =
  [0x4E2D; 0x41]%N.
Proof. reflexivity. Qed.

(** An odd number of bytes is no UTF-16: the text is read as UTF-8. *)
Example decode_plain_utf8 :
  decode_user_comment (EBytes (bytes_of_string "hello world")) = lit "hello world".
Proof. reflexivity. Qed.

(** Bytes that are neither UTF-16-BE nor UTF-8 nor ASCII come back as the
    printed form of the bytes. *)
Example decode_gives_up :
  decode_user_comment (EBytes [xff; x27; x41]) = [98; 34; 92; 120; 102; 102; 39; 65; 34]%N.
Proof. reflexivity. Qed.

Example decode_not_bytes :
  decode_user_comment (EInt (-120)) = lit "-120" /\
  decode_user_comment (EStr (lit "as is")) = lit "as is".
Proof. split; reflexivity. Qed.

(** * Further properties *)

(** ** Traces *)

Lemma emits_ret P A (a : A) : emits P (ret a).
Proof. intro s; exists []; split; [symmetry; apply app_nil_r | constructor]. Qed.

Lemma emits_raise P A (e : exn) : emits P (@raise A e).
Proof. intro s; exists []; split; [symmetry; apply app_nil_r | constructor]. Qed.

Lemma emits_get P A (f : ImageProcessor -> A) : emits P (get f).
Proof. intro s; exists []; split; [symmetry; apply app_nil_r | constructor]. Qed.

Lemma emits_call (P : event -> Prop) A (e : event) (answer : nat -> A) :
  P e -> emits P (call e answer).
Proof. intros He s; exists [e]; split; [reflexivity | repeat constructor; exact He]. Qed.

Lemma emits_set_driver P d : emits P (modify (set_driver d)).
Proof. intro s; exists []; split; [symmetry; apply app_nil_r | constructor]. Qed.

Lemma emits_bind P A B (c : M A) (k : A -> M B) :
  emits P c -> (forall a, emits P (k a)) -> emits P (bind c k).
Proof.
  intros Hc Hk s. unfold bind.
  destruct (Hc s) as (l1 & H1 & F1). destruct (c s) as [[a | e] s1]; simpl in *.
  - destruct (Hk a s1) as (l2 & H2 & F2). exists (l1 ++ l2).
    rewrite H2, H1, app_assoc. split; [reflexivity | apply Forall_app; auto].
  - exists l1; auto.
Qed.

Lemma emits_try P A (c : M A) handles (h : exn -> M A) :
  emits P c -> (forall e, emits P (h e)) -> emits P (try_except c handles h).
Proof.
  intros Hc Hh s. unfold try_except.
  destruct (Hc s) as (l1 & H1 & F1). destruct (c s) as [[a | e] s1]; simpl in *.
  - exists l1; auto.
  - destruct (handles e); simpl; [| exists l1; auto].
    destruct (Hh e s1) as (l2 & H2 & F2). exists (l1 ++ l2).
    rewrite H2, H1, app_assoc. split; [reflexivity | apply Forall_app; auto].
Qed.

Ltac emits :=
  repeat first
    [ solve [auto]
    | apply emits_ret | apply emits_raise | apply emits_get
    | apply emits_call; solve [reflexivity | exact I | auto]
    | apply emits_set_driver
    | apply emits_bind; [ | intros ]
    | apply emits_try; [ | intros ]
    | match goal with
      | |- emits _ (if ?b then _ else _) => destruct b
      | |- emits _ (match ?x with _ => _ end) => destruct x
      end ].

Section Traces.

Variable rt : runtime.
Variable env : oracle.

Lemma emits_initialize_driver_from n : emits off_screen (initialize_driver_from env n).
Proof.
  induction n as [| n IH]; cbn [initialize_driver_from]; unfold sleep; emits;
    apply emits_call; split; reflexivity.
Qed.

Lemma emits_recover e : emits off_screen (recover env e).
Proof.
  unfold recover, sleep, initialize_driver.
  pose proof (emits_initialize_driver_from Config.MAX_DRIVER_RETRIES).
  emits; apply emits_call; split; reflexivity.
Qed.

Lemma off_screen_quiet l : Forall off_screen l -> Forall quiet l.
Proof. apply Forall_impl. intros e [H _]. exact H. Qed.

Lemma emits_weaken (P Q : event -> Prop) A (c : M A) :
  (forall e, P e -> Q e) -> emits P c -> emits Q c.
Proof.
  intros HPQ Hc s. destruct (Hc s) as (l & H & F). exists l. split; [exact H |].
  revert F. apply Forall_impl. exact HPQ.
Qed.

Lemma emits_attempt image : emits quiet (attempt env image).
Proof. unfold attempt. emits. Qed.

Lemma emits_extract_image_details_from n image :
  emits quiet (extract_image_details_from env n image).
Proof.
  induction n as [| n IH]; cbn [extract_image_details_from].
  - emits.
  - pose proof (emits_attempt image).
    assert (forall e, emits quiet (recover env e)).
    { intro e. apply emits_weaken with (P := off_screen); [intros e0 [H0 _]; exact H0 |].
      apply emits_recover. }
    emits.
Qed.

Lemma emits_format_image_data image extracted c :
  emits quiet (format_image_data rt image extracted c).
Proof. unfold format_image_data, standardize_date, convert_numeric; emits. Qed.

Lemma emits_process_image image : emits quiet (process_image rt env image).
Proof.
  unfold process_image, extract_exif_user_comment, extract_image_details.
  pose proof (emits_extract_image_details_from Config.MAX_RETRIES image).
  pose proof (emits_format_image_data image).
  emits.
Qed.

Lemma handle_candidate_trace data s :
  trace (snd (handle_candidate env data s)) =
  trace s ++ verdict_events (classify_candidate env data s).
Proof.
  unfold handle_candidate, classify_candidate.
  unfold bind at 1. unfold bind at 1. rewrite is_duplicate_eq.
  destruct (match duplicate_count env (tick s) with Some n => (0 <? n)%Z | None => false end).
  - unfold skip, count_duplicate, bind, modify, get, ret; simpl.
    destruct (_ <? _)%nat; reflexivity.
  - unfold is_similar_entry, bind, get, ret; simpl.
    destruct (set_mem key_eqb _ _).
    + unfold skip, count_duplicate, bind, modify, get, ret; simpl.
      destruct (_ <? _)%nat; reflexivity.
    + unfold insert_into_db, now, bind, call, modify, get, ret; simpl.
      destruct (insert_ok env (S (tick s))); simpl;
        destruct (_ <? _)%nat; simpl; rewrite <- !app_assoc; reflexivity.
Qed.

Lemma quota_and_streak_trace m :
  exists post, trace (snd (quota_and_streak m)) = trace m ++ post /\ Forall off_screen post.
Proof.
  rewrite quota_and_streak_eq.
  destruct (_ <=? _)%Z; [| destruct (_ <=? _)%Z].
  - eexists; split; [reflexivity |]. repeat constructor.
  - exists []; split; [symmetry; apply app_nil_r | constructor].
  - exists []; split; [symmetry; apply app_nil_r | constructor].
Qed.

(** The trace of one pass through the loop body: events that do not concern
    the store, then the store traffic of the verdict, then at most the
    cool-down sleep. *)
Lemma process_item_trace image s :
  exists pre post,
    trace (snd (process_item rt env image s)) =
      trace s ++ pre ++ verdict_events (classify rt env image s) ++ post /\
    Forall quiet pre /\ Forall off_screen post.
Proof.
  unfold process_item, classify.
  unfold bind at 1. rewrite recently_processed_eq.
  assert (Hnow : Forall quiet [EvNow]) by (repeat constructor).
  destruct (dict_get (api_username (item image)) (recent_users s)) as [t0 |];
    [ destruct (clock env (tick s) - t0 <? micros Config.TIME_THRESHOLD)%Z | ].
  1: { exists [EvNow], []. split; [reflexivity | split; [exact Hnow | constructor]]. }
  all: match goal with
       | |- context [process_image rt env _ ?s1] =>
           unfold bind at 1, get at 1;
           change (processed_ids s1) with (processed_ids s);
           destruct (set_mem py_eqb (api_id (item image)) (processed_ids s));
           [ | unfold bind at 1, bind at 1;
               destruct (emits_process_image image s1) as (l1 & Hl1 & Fl1);
               destruct (process_image_returns rt env image s1) as [o Ho];
               destruct (process_image rt env image s1) as [r s2];
               simpl in Ho, Hl1; subst r; destruct o as [data |];
               [ pose proof (handle_candidate_trace data s2) as Hh;
                 destruct (handle_candidate_effect env data s2) as (t & m & Hrun & _);
                 rewrite Hrun in *; cbn [snd] in Hh | unfold ret at 1 ];
               cbn beta iota;
               match goal with
               | |- context [quota_and_streak ?m] =>
                   destruct (quota_and_streak_trace m) as (post & Hpost & Fpost);
                   rewrite Hpost, ?Hh, Hl1
               end ]
       end.
  - exists [EvNow], []. split; [reflexivity | split; [exact Hnow | constructor]].
  - exists (EvNow :: l1), post. cbn [trace record_call verdict_events].
    split; [rewrite <- !app_assoc; reflexivity |].
    split; [constructor; [reflexivity | exact Fl1] | exact Fpost].
  - exists (EvNow :: l1), post. cbn [trace record_call verdict_events].
    split; [rewrite <- !app_assoc; reflexivity |].
    split; [constructor; [reflexivity | exact Fl1] | exact Fpost].
  - exists [], []. split; [cbn; rewrite app_nil_r; reflexivity | split; constructor].
  - exists l1, post. cbn [verdict_events].
    split; [rewrite <- !app_assoc; reflexivity | split; assumption].
  - exists l1, post. cbn [verdict_events].
    split; [rewrite <- !app_assoc; reflexivity | split; assumption].
Qed.

End Traces.

(** ** Stripped texts *)

Lemma lstrip_head_clean s : head_clean (lstrip s).
Proof.
  induction s as [| c s IH]; cbn [lstrip]; [exact I |].
  destruct (is_space c) eqn:E; [exact IH | exact E].
Qed.

Lemma lstrip_of_head_clean s : head_clean s -> lstrip s = s.
Proof. destruct s as [| c s]; cbn; [reflexivity | intros ->; reflexivity]. Qed.

Lemma lstrip_suffix s : exists blanks, s = blanks ++ lstrip s.
Proof.
  induction s as [| c s (blanks & IH)]; cbn [lstrip]; [exists []; reflexivity |].
  destruct (is_space c).
  - exists (c :: blanks). cbn. f_equal. exact IH.
  - exists []. reflexivity.
Qed.

(** [strip] gives a text with no blank at either end, so stripping again
    changes nothing. *)
Lemma strip_idempotent s : strip (strip s) = strip s.
Proof.
  unfold strip.
  set (a := lstrip s). set (b := lstrip (rev a)).
  assert (Ha : head_clean a) by apply lstrip_head_clean.
  assert (Hb : head_clean b) by apply lstrip_head_clean.
  assert (Hrb : head_clean (rev b)).
  { destruct (lstrip_suffix (rev a)) as (blanks & Hs). fold b in Hs.
    assert (Hs' : a = rev b ++ rev blanks).
    { rewrite <- (rev_involutive a), Hs, rev_app_distr. reflexivity. }
    destruct (rev b) as [| c r] eqn:E; [exact I |].
    rewrite Hs' in Ha. exact Ha. }
  rewrite (lstrip_of_head_clean _ Hrb), rev_involutive.
  rewrite (lstrip_of_head_clean _ Hb). reflexivity.
Qed.

(** ** Postconditions *)

Lemma returns_ret A (Q : A -> Prop) (a : A) : Q a -> returns Q (ret a).
Proof. intros H s a' E. injection E as <-. exact H. Qed.

Lemma returns_raise A (Q : A -> Prop) (e : exn) : returns Q (@raise A e).
Proof. intros s a E. discriminate E. Qed.

Lemma returns_bind A B (Q1 : A -> Prop) (Q : B -> Prop) (c : M A) (k : A -> M B) :
  returns Q1 c -> (forall a, Q1 a -> returns Q (k a)) -> returns Q (bind c k).
Proof.
  intros Hc Hk s b. unfold bind. specialize (Hc s).
  destruct (c s) as [[a | e] s1]; cbn [fst] in *; [| discriminate].
  apply (Hk a (Hc a eq_refl)).
Qed.

Lemma returns_any A (c : M A) : returns (fun _ => True) c.
Proof. intros s a _. exact I. Qed.

Lemma returns_try A (Q : A -> Prop) (c : M A) handles (h : exn -> M A) :
  returns Q c -> (forall e, returns Q (h e)) -> returns Q (try_except c handles h).
Proof.
  intros Hc Hh s a. unfold try_except. specialize (Hc s).
  destruct (c s) as [[a' | e] s1]; cbn [fst] in *.
  - intro E. apply Hc. exact E.
  - destruct (handles e); [apply Hh | discriminate].
Qed.

Section Assembly.

Variable rt : runtime.
Variable env : oracle.

Lemma kept_texts_clean texts : Forall stripped_tag (kept_texts texts).
Proof.
  unfold kept_texts. apply Forall_map, Forall_forall. intros reads _.
  apply strip_idempotent.
Qed.

(** An element whose text is blank at the second read is kept as the empty
    text. *)
Example kept_texts_second_read :
  kept_texts [(lit " a ", lit "  "); (lit "", lit "b")] = [[]].
Proof. reflexivity. Qed.

Lemma attempt_returns image :
  returns (fun t => t <> [] /\ Forall stripped_tag t) (attempt env image).
Proof.
  unfold attempt. intros s t. unfold bind at 1, get.
  destruct (driver s) as [session |]; [| discriminate].
  unfold bind, call. destruct (render env (tick s)) as [| | texts]; try discriminate.
  pose proof (kept_texts_clean texts) as Hc.
  destruct (kept_texts texts) as [| x l]; cbn [nonempty]; [discriminate |].
  intro E. injection E as <-. split; [discriminate | exact Hc].
Qed.

Lemma extract_image_details_from_returns n image :
  returns (Forall stripped_tag) (extract_image_details_from env n image).
Proof.
  induction n as [| n IH]; cbn [extract_image_details_from].
  - apply returns_ret. constructor.
  - apply returns_bind
      with (Q1 := fun r => forall t, r = Some t -> Forall stripped_tag t).
    + apply returns_try.
      * apply returns_bind with (Q1 := fun t => t <> [] /\ Forall stripped_tag t);
          [apply attempt_returns |].
        intros t [_ Ht]. apply returns_ret. intros t' E. injection E as <-. exact Ht.
      * intro e. apply returns_bind with (Q1 := fun _ => True); [apply returns_any |].
        intros _ _. apply returns_ret. intros t E. discriminate E.
    + intros [t |] Hr; [apply returns_ret; apply Hr; reflexivity | exact IH].
Qed.

(** The numeric conversion does not look at the state and does not change it. *)
Lemma convert_numeric_pure v s :
  (exists v', convert_numeric rt v s = (Ok v', s) /\ converts rt v v') \/
  (exists e, convert_numeric rt v s = (Raise e, s)).
Proof.
  unfold converts, convert_numeric.
  destruct v as [| n | x | str]; try (left; eexists; split; reflexivity).
  destruct (str_isdigit rt str).
  - destruct (int_of_str rt str); [left; eexists; split; reflexivity | right; eexists; reflexivity].
  - destruct (float_of_str rt str); left; eexists; split; reflexivity.
Qed.

Lemma converts_comment c v' :
  c <> [] -> converts rt (PStr c) v' -> v' <> PNone /\ v' <> PStr [].
Proof.
  intros Hc H. specialize (H init). unfold convert_numeric in H.
  destruct (str_isdigit rt c).
  - destruct (int_of_str rt c); [| discriminate]. injection H as <-. split; discriminate.
  - destruct (float_of_str rt c); injection H as <-; split; try discriminate.
    intro E. injection E as E. contradiction.
Qed.

(** What [format_image_data] hands over: the tags as extracted, and id, user
    and comment as the numeric conversion leaves them. *)
Lemma format_image_data_returns image extracted c :
  returns (fun d => tags d = extracted /\
                    converts rt (api_id (item image)) (id d) /\
                    converts rt (api_username (item image)) (username d) /\
                    converts rt (PStr c) (user_comment d))
          (format_image_data rt image extracted c).
Proof.
  intros s d. unfold format_image_data.
  unfold bind at 1.
  destruct (standardize_date rt (api_createdAt (item image)) s) as [[date | e] s1];
    [| discriminate].
  repeat match goal with
         | |- context [bind (convert_numeric rt ?v) _ ?st] =>
             let v' := fresh "v" in
             let H := fresh "H" in
             let C := fresh "C" in
             unfold bind at 1;
             destruct (convert_numeric_pure v st) as [(v' & H & C) | (? & H)];
             rewrite H; [| discriminate]
         end.
  unfold ret. intro E. injection E as <-. cbn. auto.
Qed.

Lemma process_image_returns_assembled image :
  returns (fun o => forall d, o = Some d ->
             valid_record d /\
             converts rt (api_id (item image)) (id d) /\
             converts rt (api_username (item image)) (username d))
          (process_image rt env image).
Proof.
  unfold process_image.
  apply returns_try; [| intro e; apply returns_ret; intros d E; discriminate E].
  apply returns_bind with (Q1 := fun _ => True); [apply returns_any | intros ok _].
  apply returns_bind with (Q1 := fun _ => True); [apply returns_any | intros _ _].
  apply returns_bind with (Q1 := fun _ => True); [apply returns_any | intros comment _].
  destruct comment as [[| c0 c] |]; try (apply returns_ret; intros d E; discriminate E).
  apply returns_bind with (Q1 := Forall stripped_tag);
    [apply extract_image_details_from_returns | intros extracted Hex].
  destruct extracted as [| t0 extracted]; cbn [nonempty];
    [apply returns_ret; intros d E; discriminate E |].
  eapply returns_bind; [apply format_image_data_returns |].
  intros d (Ht & Hid & Hu & Hc). apply returns_ret. intros d' E. injection E as <-.
  destruct (converts_comment (c0 :: c) (user_comment d) ltac:(discriminate) Hc) as [H1 H2].
  split; [| split; assumption].
  unfold valid_record. rewrite Ht. repeat split; try assumption. discriminate.
Qed.

End Assembly.

(** ** The store traffic of the loop *)

Lemma filter_quiet l : Forall quiet l -> filter touches_store l = [].
Proof.
  induction 1 as [| e l He _ IH]; [reflexivity |].
  cbn [filter]. unfold quiet in He. rewrite He. exact IH.
Qed.

Lemma off_screen_is_quiet l : Forall off_screen l -> Forall quiet l.
Proof. apply Forall_impl. intros e [H _]. exact H. Qed.

Section StoreTraffic.

Variable rt : runtime.
Variable env : oracle.

(** X1. One pass through the loop body talks to the store exactly as its verdict
    says: not at all when the item is skipped by a pre-filter or yields no
    candidate, one duplicate query for a duplicate, one duplicate query and
    then one insert for an accepted record. *)
Theorem store_traffic_of_a_pass (image : listing_item) (s : ImageProcessor) :
  exists l,
    trace (snd (process_item rt env image s)) = trace s ++ l /\
    filter touches_store l =
    match classify rt env image s with
    | StoreDuplicate d | MemoryDuplicate d => [EvQuery (username d) (user_comment d)]
    | Accepted d _ => [EvQuery (username d) (user_comment d); EvInsert d]
    | _ => []
    end.
Proof.
  destruct (process_item_trace rt env image s) as (pre & post & Ht & Fpre & Fpost).
  exists (pre ++ verdict_events (classify rt env image s) ++ post).
  split; [exact Ht |].
  rewrite !filter_app, (filter_quiet pre Fpre),
    (filter_quiet post (off_screen_is_quiet post Fpost)), app_nil_r.
  destruct (classify rt env image s); reflexivity.
Qed.

(** The record of a verdict is the one [process_image] returned. *)
Lemma classify_carries image s d :
  candidate_of (classify rt env image s) = Some d ->
  exists s1, fst (process_image rt env image s1) = Ok (Some d).
Proof.
  unfold classify.
  destruct (recently_processed env image s) as [[[ | ] | e] s1]; cbn; try discriminate.
  all: destruct (set_mem py_eqb _ _); cbn; try discriminate.
  all: destruct (process_image rt env image s1) as [[[data |] | e'] s2] eqn:E;
    cbn; try discriminate.
  all: intro H; exists s1; rewrite E; cbn; f_equal; f_equal.
  all: unfold classify_candidate in H;
    destruct (is_duplicate env _ _ s2) as [[[ | ] | e''] s3];
    try (destruct (is_similar_entry data s3) as [[[ | ] | e3] s4]);
    cbn in H; congruence.
Qed.

Lemma candidates_are_valid image s d :
  candidate_of (classify rt env image s) = Some d ->
  valid_record d /\
  converts rt (api_id (item image)) (id d) /\
  converts rt (api_username (item image)) (username d).
Proof.
  intro H. destruct (classify_carries image s d H) as (s1 & Hs1).
  exact (process_image_returns_assembled rt env image s1 (Some d) Hs1 d eq_refl).
Qed.

Lemma emits_process_item_valid image : emits inserts_valid (process_item rt env image).
Proof.
  intro s.
  destruct (process_item_trace rt env image s) as (pre & post & Ht & Fpre & Fpost).
  exists (pre ++ verdict_events (classify rt env image s) ++ post).
  split; [exact Ht |].
  assert (Hq : forall l, Forall quiet l -> Forall inserts_valid l).
  { intro l. apply Forall_impl. intros e He d' ->. discriminate He. }
  apply Forall_app; split; [apply Hq; exact Fpre |].
  apply Forall_app; split; [| apply Hq, off_screen_is_quiet; exact Fpost].
  pose proof (candidates_are_valid image s) as Hv.
  destruct (classify rt env image s) as [| | | d0 | d0 | d0 stored];
    cbn [verdict_events].
  1-3: constructor.
  1-2: constructor; [intros d' E; discriminate E | constructor].
  constructor; [intros d' E; discriminate E |].
  constructor; [intros d' E; injection E as <-; apply (Hv d0 eq_refl) |].
  constructor; [intros d' E; discriminate E | constructor].
Qed.

Lemma emits_for_each_image P images :
  (forall image, emits P (process_item rt env image)) ->
  emits P (for_each_image rt env images).
Proof.
  intro Hitem. induction images as [| image images IH]; cbn [for_each_image].
  - apply emits_ret.
  - emits.
Qed.

Lemma emits_process_images_from (P : event -> Prop) fuel page :
  (forall image, emits P (process_item rt env image)) ->
  P EvNow -> (forall us, P (EvSleep us)) -> (forall p, P (EvFetchPage p)) ->
  emits P (process_images_from rt env fuel page).
Proof.
  intros Hitem Hnow Hsleep Hfetch.
  revert page. induction fuel as [| fuel IH]; intro page; cbn [process_images_from].
  - apply emits_ret.
  - unfold now, fetch_images, sleep.
    pose proof (emits_for_each_image P) as Hfor.
    emits; apply emits_call; auto.
Qed.

(** X2. Whatever the world does and however long the loop runs, every record it
    sends to the store has at least one tag, each tag a text without blanks
    around it, and a comment that is neither missing nor empty. *)
Theorem only_valid_records_are_inserted (fuel : nat) :
  emits inserts_valid (process_images rt env fuel).
Proof.
  unfold process_images. apply emits_process_images_from.
  - apply emits_process_item_valid.
  - intros d E; discriminate E.
  - intros us d E; discriminate E.
  - intros p d E; discriminate E.
Qed.

End StoreTraffic.

(** ** What the sets of the session remember *)

Lemma In_set_add_old {A} (eqb : A -> A -> bool) (k k' : A) (l : list A) :
  In k l -> In k (set_add eqb k' l).
Proof.
  intro H. unfold set_add. destruct (set_mem eqb k' l); [exact H |].
  apply in_or_app. left. exact H.
Qed.

Lemma In_set_add_new {A} (eqb : A -> A -> bool) (k : A) (l : list A) :
  set_mem eqb k l = false -> In k (set_add eqb k l).
Proof.
  intro H. unfold set_add. rewrite H. apply in_or_app. right. left. reflexivity.
Qed.

Lemma set_mem_of_In {A} (eqb : A -> A -> bool) (k x : A) (l : list A) :
  In x l -> eqb k x = true -> set_mem eqb k l = true.
Proof.
  intros Hin He. unfold set_mem. apply existsb_exists. exists x. auto.
Qed.

(** A lookup under a text key does not see what is filed under a number. *)
Lemma dict_get_str_after_int (u : pystr) (n t : Z) (d : list (pyval * Z)) :
  dict_get (PStr u) (dict_set (PInt n) t d) = dict_get (PStr u) d.
Proof.
  induction d as [| [k v] d IH]; cbn [dict_set dict_get]; [reflexivity |].
  destruct (py_eqb k (PInt n)) eqn:E; cbn [dict_get].
  - destruct k; cbn in E |- *; try discriminate E; reflexivity.
  - rewrite IH. reflexivity.
Qed.

Section Memory.

Variable rt : runtime.
Variable env : oracle.

(** How one pass changes the three lookup structures of the session. *)
Lemma process_item_sets image s :
  let v := classify rt env image s in
  let s' := snd (process_item rt env image s) in
  existing_entries_set s' =
    match v with
    | Accepted d true => set_add key_eqb (tags d, user_comment d) (existing_entries_set s)
    | _ => existing_entries_set s
    end /\
  processed_ids s' =
    match v with
    | Accepted d _ => set_add py_eqb (id d) (processed_ids s)
    | _ => processed_ids s
    end /\
  exists t,
    recent_users s' =
    match v with
    | Accepted d _ => dict_set (username d) t (recent_users s)
    | _ => recent_users s
    end.
Proof.
  cbv zeta.
  destruct (process_item_effect rt env image s) as (t & m & Hm & Hrun).
  rewrite Hrun, quota_and_streak_eq.
  destruct (classify rt env image s) as [| | | d | d | d stored];
    cbn in Hm; unfold session in Hm; injection Hm as _ _ _ Eee Eids Eru _;
    cbn [is_prefilter_skip];
    repeat match goal with
           | |- context [(?a <=? ?b)%Z] => destruct (a <=? b)%Z
           end;
    cbn [snd existing_entries_set processed_ids recent_users set_skipped_count
         set_processed_count record_call];
    rewrite Eee, Eids, Eru; (split; [| split; [| exists t]]);
    try reflexivity; destruct stored; reflexivity.
Qed.

(** An accepted record had passed both membership tests. *)
Lemma accepted_passed_tests image s d stored :
  classify rt env image s = Accepted d stored ->
  set_mem py_eqb (api_id (item image)) (processed_ids s) = false /\
  set_mem key_eqb (tags d, user_comment d) (existing_entries_set s) = false.
Proof.
  unfold classify. rewrite recently_processed_eq.
  assert (Hgen : forall s1, processed_ids s1 = processed_ids s ->
            existing_entries_set s1 = existing_entries_set s ->
            (if set_mem py_eqb (api_id (item image)) (processed_ids s1)
             then SeenId
             else match process_image rt env image s1 with
                  | (Ok (Some data), s2) => classify_candidate env data s2
                  | _ => NoCandidate
                  end) = Accepted d stored ->
            set_mem py_eqb (api_id (item image)) (processed_ids s) = false /\
            set_mem key_eqb (tags d, user_comment d) (existing_entries_set s) = false).
  { intros s1 Hids Hee. rewrite Hids.
    destruct (set_mem py_eqb _ _); [discriminate |].
    pose proof (keeps_process_image rt env image s1) as Hk.
    destruct (process_image rt env image s1) as [[[data |] | e] s2]; try discriminate.
    cbn in Hk. unfold session in Hk. injection Hk as _ _ _ Hee2 _ _ _.
    unfold classify_candidate. rewrite is_duplicate_eq.
    destruct (match duplicate_count env (tick s2) with
              | Some n => (0 <? n)%Z | None => false end); [discriminate |].
    unfold is_similar_entry, bind, get, ret.
    cbn [existing_entries_set record_call]. rewrite Hee2, Hee.
    destruct (set_mem key_eqb (tags data, user_comment data) (existing_entries_set s))
      eqn:E; [discriminate |].
    intro H. injection H as <- _. split; [reflexivity | exact E]. }
  destruct (dict_get _ _) as [t0 |];
    [destruct (_ <? _)%Z; [discriminate |] |]; apply Hgen; reflexivity.
Qed.

(** X3. A candidate whose pair of tags and comment is in [existing_entries_set]
    is never accepted: the verdict is a duplicate one. *)
Theorem known_pair_is_rejected (image : listing_item) (s : ImageProcessor)
    (d : image_data) :
  candidate_of (classify rt env image s) = Some d ->
  set_mem key_eqb (tags d, user_comment d) (existing_entries_set s) = true ->
  is_duplicate_verdict (classify rt env image s) = true /\
  existing_entries_set (snd (process_item rt env image s)) = existing_entries_set s.
Proof.
  intros Hc Hmem.
  pose proof (process_item_sets image s) as (Hee & _).
  pose proof (accepted_passed_tests image s) as Hacc.
  destruct (classify rt env image s) as [| | | d0 | d0 | d0 stored];
    cbn in Hc; try discriminate Hc; injection Hc as ->.
  - split; [reflexivity | exact Hee].
  - split; [reflexivity | exact Hee].
  - destruct (Hacc d stored eq_refl) as [_ Hno]. congruence.
Qed.

Lemma follows_existing k s s2 :
  follows rt env s s2 ->
  In k (existing_entries_set s) -> In k (existing_entries_set s2).
Proof.
  induction 1 as [| s' image _ IH | s' e _ IH]; intro Hin; [exact Hin | | exact (IH Hin)].
  destruct (process_item_sets image s') as (Hee & _). rewrite Hee.
  destruct (classify rt env image s') as [| | | | | d [|]]; auto.
  apply In_set_add_old. auto.
Qed.

Lemma follows_processed_ids k s s2 :
  follows rt env s s2 ->
  In k (processed_ids s) -> In k (processed_ids s2).
Proof.
  induction 1 as [| s' image _ IH | s' e _ IH]; intro Hin; [exact Hin | | exact (IH Hin)].
  destruct (process_item_sets image s') as (_ & Hids & _). rewrite Hids.
  destruct (classify rt env image s'); auto.
  apply In_set_add_old. auto.
Qed.




End Memory.

(** ** From one pass to the later ones *)

Section Later.

Variable rt : runtime.
Variable env : oracle.

Lemma pystr_eqb_same a : pystr_eqb a a = true.
Proof. induction a as [| x a IH]; cbn; [reflexivity |]. rewrite N.eqb_refl. exact IH. Qed.

Lemma tags_eqb_same t : tags_eqb t t = true.
Proof.
  induction t as [| x t IH]; cbn; [reflexivity |]. rewrite pystr_eqb_same. exact IH.
Qed.

(** X4. Once a record has been stored, the in-memory test finds its pair of
    tags and comment for the rest of the run: no record accepted later has a
    pair that compares equal to it.  So no record accepted later has the same
    pair, provided the comment compares equal to itself; the one comment that
    does not is the float NaN that the numeric conversion makes of a text. *)
Theorem stored_pair_is_not_accepted_again
    (image image2 : listing_item) (s s2 : ImageProcessor)
    (d d2 : image_data) (stored2 : bool) :
  classify rt env image s = Accepted d true ->
  follows rt env (snd (process_item rt env image s)) s2 ->
  classify rt env image2 s2 = Accepted d2 stored2 ->
  key_eqb (tags d2, user_comment d2) (tags d, user_comment d) = false /\
  (py_eqb (user_comment d) (user_comment d) = true ->
   (tags d2, user_comment d2) <> (tags d, user_comment d)) /\
  (py_eqb (user_comment d) (user_comment d) = false ->
   exists x, user_comment d = PFloat x /\ SFeqb x x = false).
Proof.
  intros Hv Hf Hv2.
  destruct (accepted_passed_tests rt env image s d true Hv) as [_ Hnew].
  destruct (process_item_sets rt env image s) as (Hee & _). rewrite Hv in Hee.
  assert (Hin : In (tags d, user_comment d)
                   (existing_entries_set (snd (process_item rt env image s)))).
  { rewrite Hee. apply In_set_add_new. exact Hnew. }
  pose proof (follows_existing rt env _ _ _ Hf Hin) as Hin2.
  destruct (accepted_passed_tests rt env image2 s2 d2 stored2 Hv2) as [_ Hno].
  assert (Hk : key_eqb (tags d2, user_comment d2) (tags d, user_comment d) = false).
  { destruct (key_eqb (tags d2, user_comment d2) (tags d, user_comment d)) eqn:E;
      [| reflexivity].
    rewrite (set_mem_of_In key_eqb _ _ _ Hin2 E) in Hno. discriminate Hno. }
  split; [exact Hk |]. split.
  - intros Hself Heq. rewrite Heq in Hk. unfold key_eqb in Hk. cbn [fst snd] in Hk.
    rewrite tags_eqb_same, Hself in Hk. discriminate Hk.
  - destruct (user_comment d) as [| n | x | t]; cbn [py_eqb].
    + discriminate.
    + rewrite Z.eqb_refl. discriminate.
    + intro H. exists x. split; [reflexivity | exact H].
    + rewrite pystr_eqb_same. discriminate.
Qed.

(** A pass that a pre-filter ends makes no external call but, at most, the
    clock reading. *)
Lemma prefilter_skip_is_cheap image s :
  is_prefilter_skip (classify rt env image s) = true ->
  exists s',
    process_item rt env image s = (Ok Next, s') /\
    (trace s' = trace s \/ trace s' = trace s ++ [EvNow]).
Proof.
  unfold classify, process_item. unfold bind at 1. rewrite recently_processed_eq.
  assert (Hgen : forall s1,
            is_prefilter_skip
              (if set_mem py_eqb (api_id (item image)) (processed_ids s1)
               then SeenId
               else match process_image rt env image s1 with
                    | (Ok (Some data), s2) => classify_candidate env data s2
                    | _ => NoCandidate
                    end) = true ->
            set_mem py_eqb (api_id (item image)) (processed_ids s1) = true).
  { intros s1. destruct (set_mem py_eqb _ _); [reflexivity |].
    destruct (process_image rt env image s1) as [[[data |] | e] s2]; try discriminate.
    destruct (handle_candidate_effect env data s2) as (_ & _ & _ & _ & Hpre & _).
    rewrite Hpre. discriminate. }
  destruct (dict_get _ _) as [t0 |]; [destruct (_ <? _)%Z |].
  - intros _. eexists. split; [reflexivity | right; reflexivity].
  - intro H. apply Hgen in H. unfold bind at 1, get at 1. rewrite H.
    eexists. split; [reflexivity | right; reflexivity].
  - intro H. apply Hgen in H. unfold bind at 1, get at 1. rewrite H.
    eexists. split; [reflexivity | left; reflexivity].
Qed.

(** X5. An id under which a record was accepted is skipped whenever it is offered
    again later in the run, before anything is downloaded: the pass ends at a
    pre-filter.  The id is the one of the listing item when the numeric
    conversion left it alone, as it does for every id that is a number. *)
Theorem accepted_id_is_skipped_later
    (image image2 : listing_item) (s s2 : ImageProcessor)
    (d : image_data) (stored : bool) :
  classify rt env image s = Accepted d stored ->
  id d = api_id (item image) ->
  follows rt env (snd (process_item rt env image s)) s2 ->
  py_eqb (api_id (item image2)) (id d) = true ->
  is_prefilter_skip (classify rt env image2 s2) = true /\
  fst (process_item rt env image2 s2) = Ok Next /\
  (trace (snd (process_item rt env image2 s2)) = trace s2 \/
   trace (snd (process_item rt env image2 s2)) = trace s2 ++ [EvNow]).
Proof.
  intros Hv Hid Hf Heq.
  destruct (accepted_passed_tests rt env image s d stored Hv) as [Hnew _].
  destruct (process_item_sets rt env image s) as (_ & Hids & _). rewrite Hv in Hids.
  assert (Hin : In (id d) (processed_ids (snd (process_item rt env image s)))).
  { rewrite Hids. apply In_set_add_new. rewrite Hid. exact Hnew. }
  pose proof (follows_processed_ids rt env _ _ _ Hf Hin) as Hin2.
  pose proof (set_mem_of_In py_eqb _ _ _ Hin2 Heq) as Hmem.
  assert (Hskip : is_prefilter_skip (classify rt env image2 s2) = true).
  { unfold classify. rewrite recently_processed_eq.
    destruct (dict_get _ _) as [t0 |]; [destruct (_ <? _)%Z; [reflexivity |] |];
      cbn [processed_ids record_call]; rewrite Hmem; reflexivity. }
  split; [exact Hskip |].
  destruct (prefilter_skip_is_cheap image2 s2 Hskip) as (s3 & Hrun & Htr).
  rewrite Hrun. split; [reflexivity | exact Htr].
Qed.

(** X6. After a record is accepted under a user name that the numeric conversion
    left alone, [recent_users] holds a clock reading for that user, and an item
    of the same user met on the next pass within [TIME_THRESHOLD] seconds of
    that reading is skipped as a recent user. *)
Theorem accepted_user_is_suppressed_next
    (image : listing_item) (s : ImageProcessor) (d : image_data) (stored : bool) :
  classify rt env image s = Accepted d stored ->
  username d = api_username (item image) ->
  py_eqb (username d) (username d) = true ->
  let s' := snd (process_item rt env image s) in
  exists t,
    dict_get (api_username (item image)) (recent_users s') = Some t /\
    forall image2,
      api_username (item image2) = api_username (item image) ->
      (clock env (tick s') - t < micros Config.TIME_THRESHOLD)%Z ->
      classify rt env image2 s' = RecentUser /\
      fst (process_item rt env image2 s') = Ok Next /\
      trace (snd (process_item rt env image2 s')) = trace s' ++ [EvNow].
Proof.
  intros Hv Hu Hrefl s'.
  destruct (process_item_sets rt env image s) as (_ & _ & t & Hru). rewrite Hv in Hru.
  fold s' in Hru.
  assert (Hget : dict_get (api_username (item image)) (recent_users s') = Some t).
  { rewrite Hru, <- Hu. apply dict_get_dict_set. exact Hrefl. }
  exists t. split; [exact Hget |].
  intros image2 Hsame Hlt.
  apply Z.ltb_lt in Hlt.
  assert (Hrun : process_item rt env image2 s' =
                 (Ok Next, set_skipped_count (skipped_count s' + 1) (record_call EvNow s'))).
  { unfold process_item. unfold bind at 1.
    rewrite recently_processed_eq, Hsame, Hget, Hlt. reflexivity. }
  rewrite Hrun. split; [| split; reflexivity].
  unfold classify. rewrite recently_processed_eq, Hsame, Hget, Hlt. reflexivity.
Qed.

(** X7. When the user name of an accepted item is a string of digits, the record
    is filed in [recent_users] under the number, and the lookup of the name as
    the listing gives it is left as it was: the recency filter does not see
    the record. *)
Theorem digit_user_is_not_remembered
    (image : listing_item) (s : ImageProcessor) (d : image_data) (stored : bool)
    (u : pystr) :
  classify rt env image s = Accepted d stored ->
  api_username (item image) = PStr u ->
  str_isdigit rt u = true ->
  (exists n, username d = PInt n) /\
  dict_get (PStr u) (recent_users (snd (process_item rt env image s))) =
  dict_get (PStr u) (recent_users s).
Proof.
  intros Hv Hu Hdigit.
  assert (Hc : candidate_of (classify rt env image s) = Some d) by (rewrite Hv; reflexivity).
  destruct (candidates_are_valid rt env image s d Hc) as (_ & _ & Hconv).
  rewrite Hu in Hconv. specialize (Hconv init). unfold convert_numeric in Hconv.
  rewrite Hdigit in Hconv.
  destruct (int_of_str rt u) as [n |]; [| discriminate Hconv].
  injection Hconv as Hn.
  split; [exists n; symmetry; exact Hn |].
  destruct (process_item_sets rt env image s) as (_ & _ & t & Hru). rewrite Hv in Hru.
  rewrite Hru, <- Hn. apply dict_get_str_after_int.
Qed.

End Later.

(** ** Session initialization *)

Section Initialization.

Variable env : oracle.

Lemma initialize_driver_from_outcome n s :
  (exists k,
     (k < n)%nat /\
     (forall i, (i < k)%nat -> firefox env (tick s + 2 * i) = false) /\
     firefox env (tick s + 2 * k) = true /\
     fst (initialize_driver_from env n s) = Ok (tick s + 2 * k)%nat /\
     trace (snd (initialize_driver_from env n s)) =
       trace s ++ failed_launches k ++ [EvFirefox]) \/
  ((forall i, (i < n)%nat -> firefox env (tick s + 2 * i) = false) /\
   fst (initialize_driver_from env n s) = Raise WebDriverException /\
   trace (snd (initialize_driver_from env n s)) = trace s ++ failed_launches n).
Proof.
  revert s. induction n as [| n IH]; intro s.
  - right. split; [intros i Hi; lia |]. cbn. rewrite app_nil_r. auto.
  - set (s1 := record_call (EvSleep (micros Config.RETRY_DELAY)) (record_call EvFirefox s)).
    assert (Heq : initialize_driver_from env (S n) s =
                  if firefox env (tick s) then (Ok (tick s), record_call EvFirefox s)
                  else initialize_driver_from env n s1).
    { cbn [initialize_driver_from]. unfold bind at 1, get at 1. unfold bind at 1, call at 1.
      destruct (firefox env (tick s)); reflexivity. }
    rewrite Heq. clear Heq.
    destruct (firefox env (tick s)) eqn:E.
    + left. exists 0%nat. rewrite Nat.mul_0_r, Nat.add_0_r.
      split; [lia |]. split; [intros i Hi; lia |]. split; [exact E |].
      split; reflexivity.
    + assert (Ht : tick s1 = (tick s + 2)%nat) by (cbn; lia).
      assert (Htr : trace s1 = trace s ++ failed_launches 1)
        by (cbn; rewrite <- app_assoc; reflexivity).
      destruct (IH s1) as [(k & Hk & Hfail & Hok & Hres & Htrace) | (Hfail & Hres & Htrace)].
      * left. exists (S k). split; [lia |].
        split.
        { intros i Hi. destruct i as [| i]; [rewrite Nat.mul_0_r, Nat.add_0_r; exact E |].
          replace (tick s + 2 * S i)%nat with (tick s1 + 2 * i)%nat by lia.
          apply Hfail. lia. }
        replace (tick s + 2 * S k)%nat with (tick s1 + 2 * k)%nat by lia.
        split; [exact Hok |]. split; [exact Hres |].
        rewrite Htrace, Htr. cbn. rewrite <- !app_assoc. reflexivity.
      * right. split.
        { intros i Hi. destruct i as [| i]; [rewrite Nat.mul_0_r, Nat.add_0_r; exact E |].
          replace (tick s + 2 * S i)%nat with (tick s1 + 2 * i)%nat by lia.
          apply Hfail. lia. }
        split; [exact Hres |].
        rewrite Htrace, Htr. cbn. rewrite <- !app_assoc. reflexivity.
Qed.

(** X11. [initialize_driver] launches Firefox until a launch succeeds, at most
    [MAX_DRIVER_RETRIES] times, sleeping [RETRY_DELAY] after every failure; it
    returns the session of the first launch that succeeds and raises
    [WebDriverException] exactly when all launches fail.  It leaves the
    controller's bookkeeping alone. *)
Theorem initialize_driver_outcome (s : ImageProcessor) :
  ((exists k,
      (k < Config.MAX_DRIVER_RETRIES)%nat /\
      (forall i, (i < k)%nat -> firefox env (tick s + 2 * i) = false) /\
      firefox env (tick s + 2 * k) = true /\
      fst (initialize_driver env s) = Ok (tick s + 2 * k)%nat /\
      trace (snd (initialize_driver env s)) =
        trace s ++ failed_launches k ++ [EvFirefox]) \/
   ((forall i, (i < Config.MAX_DRIVER_RETRIES)%nat ->
               firefox env (tick s + 2 * i) = false) /\
    fst (initialize_driver env s) = Raise WebDriverException /\
    trace (snd (initialize_driver env s)) =
      trace s ++ failed_launches Config.MAX_DRIVER_RETRIES)) /\
  session (snd (initialize_driver env s)) = session s.
Proof.
  split; [apply initialize_driver_from_outcome | apply keeps_initialize_driver_from].
Qed.

End Initialization.

(** ** The item boundary *)

Section Boundary.

Variable rt : runtime.
Variable env : oracle.

Lemma renderings_app l1 l2 : renderings (l1 ++ l2) = (renderings l1 + renderings l2)%nat.
Proof. unfold renderings. rewrite filter_app, length_app. reflexivity. Qed.

Lemma renderings_off_screen l : Forall off_screen l -> renderings l = 0%nat.
Proof.
  unfold renderings. induction 1 as [| e l [_ He] _ IH]; [reflexivity |].
  cbn [filter]. rewrite He. exact IH.
Qed.

Lemma attempt_trace image s :
  exists l, trace (snd (attempt env image s)) = trace s ++ l /\
            Forall quiet l /\ (renderings l <= 1)%nat.
Proof.
  unfold attempt, bind at 1, get.
  destruct (driver s) as [session |].
  - unfold bind, call. exists [EvRender (Some session) (item_web_url image)].
    split; [| split; [repeat constructor | cbn; lia]].
    destruct (render env (tick s)) as [| | texts]; try reflexivity.
    destruct (nonempty _); reflexivity.
  - exists []. split; [symmetry; apply app_nil_r | split; [constructor | cbn; lia]].
Qed.

Lemma extract_image_details_from_trace n image s :
  exists l,
    trace (snd (extract_image_details_from env n image s)) = trace s ++ l /\
    Forall quiet l /\ (renderings l <= n)%nat.
Proof.
  revert s. induction n as [| n IH]; intro s; cbn [extract_image_details_from].
  - exists []. split; [symmetry; apply app_nil_r | split; [constructor | cbn; lia]].
  - unfold bind at 1, try_except. unfold bind at 1.
    destruct (attempt_trace image s) as (l1 & H1 & Q1 & R1).
    destruct (attempt env image s) as [[t | e] s1]; cbn [snd] in H1.
    + exists l1. split; [exact H1 | split; [exact Q1 | lia]].
    + destruct (retryable e).
      * unfold bind at 1.
        destruct (emits_recover env e s1) as (l2 & H2 & F2).
        destruct (recover env e s1) as [[[] | e2] s2]; cbn [snd] in H2.
        -- destruct (IH s2) as (l3 & H3 & Q3 & R3).
           unfold ret at 1. cbn beta iota.
           exists (l1 ++ l2 ++ l3).
           split; [rewrite H3, H2, H1, <- !app_assoc; reflexivity |].
           split; [repeat (apply Forall_app; split); auto using off_screen_is_quiet |].
           rewrite !renderings_app, (renderings_off_screen l2 F2). lia.
        -- exists (l1 ++ l2).
           split; [cbn [snd]; rewrite H2, H1, <- !app_assoc; reflexivity |].
           split; [apply Forall_app; split; auto using off_screen_is_quiet |].
           rewrite renderings_app, (renderings_off_screen l2 F2). lia.
      * exists l1. split; [exact H1 | split; [exact Q1 | lia]].
Qed.

Lemma format_image_data_silent image extracted c s :
  trace (snd (format_image_data rt image extracted c s)) = trace s.
Proof.
  assert (H : emits (fun _ => False) (format_image_data rt image extracted c)).
  { unfold format_image_data, standardize_date, convert_numeric; emits. }
  destruct (H s) as (l & Hl & Fl). rewrite Hl.
  destruct l as [| e l]; [apply app_nil_r | inversion Fl; contradiction].
Qed.

(** X14. The per-item processing never raises and never changes the controller's
    bookkeeping.  Towards the outside it starts with the download of the file,
    renders the page at most [MAX_RETRIES] times and never talks to the
    store. *)
Theorem item_boundary (image : listing_item) (s : ImageProcessor) :
  exists o s' l,
    process_image rt env image s = (Ok o, s') /\
    session s' = session s /\
    trace s' = trace s ++ EvDownload (api_url (item image)) :: l /\
    Forall quiet l /\
    (renderings l <= Config.MAX_RETRIES)%nat.
Proof.
  pose proof (keeps_process_image rt env image s) as Hk.
  destruct (process_image_returns rt env image s) as [o Ho].
  assert (Htr : exists l,
             trace (snd (process_image rt env image s)) =
               trace s ++ EvDownload (api_url (item image)) :: l /\
             Forall quiet l /\ (renderings l <= Config.MAX_RETRIES)%nat).
  { unfold process_image, try_except. unfold bind at 1, call at 1.
    set (s1 := record_call (EvDownload (api_url (item image))) s).
    assert (H1 : trace s1 = trace s ++ [EvDownload (api_url (item image))]) by reflexivity.
    destruct (http_get env (tick s)).
    2: { exists []. cbn. split; [exact H1 | split; [constructor | lia]]. }
    unfold bind at 1, ret at 1. unfold bind at 1, extract_exif_user_comment, bind at 1,
      call at 1.
    set (s2 := record_call EvOpenImage s1).
    assert (H2 : trace s2 = trace s ++ EvDownload (api_url (item image)) :: [EvOpenImage])
      by (cbn; rewrite <- app_assoc; reflexivity).
    assert (Hshort : exists l,
               trace s2 = trace s ++ EvDownload (api_url (item image)) :: l /\
               Forall quiet l /\ (renderings l <= Config.MAX_RETRIES)%nat).
    { exists [EvOpenImage]. split; [exact H2 | split; [repeat constructor | cbn; lia]]. }
    destruct (exif env (tick s1)) as [| | items]; try exact Hshort.
    unfold ret at 1. cbn beta iota.
    destruct (find_user_comment items) as [[| c0 c] |]; try exact Hshort.
    unfold bind at 1, extract_image_details.
    destruct (extract_image_details_from_trace Config.MAX_RETRIES image s2)
      as (l3 & H3 & Q3 & R3).
    assert (Hlong : exists l,
               trace (snd (extract_image_details_from env Config.MAX_RETRIES image s2)) =
                 trace s ++ EvDownload (api_url (item image)) :: l /\
               Forall quiet l /\ (renderings l <= Config.MAX_RETRIES)%nat).
    { exists (EvOpenImage :: l3). rewrite H3, H2, <- app_assoc.
      split; [reflexivity | split; [constructor; [reflexivity | exact Q3] | exact R3]]. }
    destruct (extract_image_details_from env Config.MAX_RETRIES image s2)
      as [[extracted | e] s3]; cbn [snd] in Hlong; [| exact Hlong].
    destruct (nonempty extracted); [| exact Hlong].
    unfold bind at 1.
    pose proof (format_image_data_silent image extracted (c0 :: c) s3) as Hf.
    destruct (format_image_data rt image extracted (c0 :: c) s3) as [[fd | e] s4];
      cbn [snd] in Hf; unfold ret, any_exception; cbn beta iota; cbn [snd];
      rewrite Hf; exact Hlong. }
  destruct (process_image rt env image s) as [r s']. cbn [fst snd] in *. subst r.
  destruct Htr as (l & H1 & H2 & H3).
  exists o, s', l. auto.
Qed.

End Boundary.

(** ** Bounds along a run *)

Section Bounds.

Variable rt : runtime.
Variable env : oracle.

Import Config.

(** The pass that ends the run leaves the streak at exactly 10 and the other
    counters within their bounds. *)
Lemma terminating_pass image s :
  loop_inv s ->
  fst (process_item rt env image s) = Ok Terminate ->
  let s' := snd (process_item rt env image s) in
  (processed_count s' < PROCESS_THRESHOLD)%Z /\
  (0 <= skipped_count s')%Z /\
  consecutive_duplicate_count s' = 10%Z /\
  (List.length (previous_images s') <= IMAGES_TO_PROCESS)%nat.
Proof.
  intros (Hp & Hs & Hc & Hl). cbv zeta.
  destruct (process_item_effect rt env image s) as (t & m & Hm & Hrun).
  rewrite Hrun, quota_and_streak_eq.
  destruct (classify rt env image s) as [| | | d | d | d stored];
    cbn in Hm; unfold session in Hm; injection Hm as Epc Esk Epi _ _ _ Ecdc;
    cbn [is_prefilter_skip];
    try discriminate;
    destruct (Z.leb_spec PROCESS_THRESHOLD (processed_count m)); try discriminate;
    destruct (Z.leb_spec 10 (consecutive_duplicate_count m)); try discriminate;
    intros _; cbn [snd]; rewrite ?Epc, ?Esk, ?Ecdc, ?Epi in *;
    rewrite ?trim_within by exact Hl;
    repeat split; try lia; try exact Hl; apply trim_append; exact Hl.
Qed.

Lemma for_each_image_bounds images s sg s' :
  loop_inv s ->
  for_each_image rt env images s = (Ok sg, s') ->
  (sg <> Terminate -> loop_inv s') /\
  (sg = Terminate ->
   (processed_count s' < PROCESS_THRESHOLD)%Z /\ (0 <= skipped_count s')%Z /\
   consecutive_duplicate_count s' = 10%Z /\
   (List.length (previous_images s') <= IMAGES_TO_PROCESS)%nat).
Proof.
  revert s. induction images as [| image images IH]; intros s Hinv Hrun.
  - injection Hrun as <- <-. split; [intros _; exact Hinv | discriminate].
  - cbn [for_each_image] in Hrun. unfold bind in Hrun.
    pose proof (process_item_inv rt env image s Hinv) as Hnext.
    pose proof (terminating_pass image s Hinv) as Hterm.
    destruct (process_item rt env image s) as [[sg0 | e] s1]; [| discriminate].
    cbn [fst snd] in *.
    destruct sg0.
    + apply (IH s1); [apply Hnext; discriminate | exact Hrun].
    + injection Hrun as <- <-. split; [intros _; apply Hnext; discriminate | discriminate].
    + injection Hrun as <- <-. split; [intro H; contradiction | intros _; apply Hterm; reflexivity].
Qed.

Lemma loop_inv_call e s : loop_inv s -> loop_inv (record_call e s).
Proof. intro H. exact H. Qed.

Lemma process_images_from_bounds fuel page s out s' :
  loop_inv s ->
  process_images_from rt env fuel page s = (Ok out, s') ->
  (processed_count s' < PROCESS_THRESHOLD)%Z /\ (0 <= skipped_count s')%Z /\
  (0 <= consecutive_duplicate_count s' <= 10)%Z /\
  (List.length (previous_images s') <= IMAGES_TO_PROCESS)%nat /\
  (out = Returned <-> consecutive_duplicate_count s' = 10%Z).
Proof.
  revert page s. induction fuel as [| fuel IH]; intros page s Hinv Hrun.
  - injection Hrun as <- <-. destruct Hinv as (Hp & Hs & Hc & Hl).
    repeat split; try lia; try assumption; try discriminate.
  - cbn [process_images_from] in Hrun.
    unfold bind at 1, now at 1, call at 1 in Hrun.
    unfold bind at 1, fetch_images at 1, bind at 1, call at 1 in Hrun.
    set (s1 := record_call (EvFetchPage page) (record_call EvNow s)) in *.
    assert (H1 : loop_inv s1) by exact Hinv.
    destruct (listing env (tick (record_call EvNow s))) as [[| a data] |];
      unfold ret at 1 in Hrun; cbn [map] in Hrun.
    1, 3: unfold bind at 1, sleep at 1, call at 1 in Hrun;
      apply (IH _ _ (loop_inv_call _ _ H1) Hrun).
    unfold bind at 1 in Hrun.
    destruct (for_each_image rt env _ s1) as [[sg | e] s2] eqn:Hfor; [| discriminate].
    destruct (for_each_image_bounds _ _ _ _ H1 Hfor) as [Hgo Hstop].
    destruct sg.
    1, 2: unfold bind at 1, now at 1, call at 1 in Hrun;
      unfold bind at 1, sleep at 1, call at 1 in Hrun;
      refine (IH _ _ _ Hrun); apply loop_inv_call, loop_inv_call, Hgo; discriminate.
    injection Hrun as <- <-.
    destruct (Hstop eq_refl) as (Hp & Hs & Hc & Hl).
    repeat split; try lia; try assumption; reflexivity.
Qed.

(** X9. From startup on, whatever the world does and however long the loop runs:
    the processed counter stays below [PROCESS_THRESHOLD], the skipped counter
    and the streak are never negative, the streak never exceeds 10, the
    history buffer never exceeds [IMAGES_TO_PROCESS], and [process_images] has
    returned exactly when the streak stands at 10. *)
Theorem counters_stay_in_bounds (fuel : nat) (s0 s' : ImageProcessor) (out : outcome) :
  enter env init = (Ok tt, s0) ->
  process_images rt env fuel s0 = (Ok out, s') ->
  (processed_count s' < PROCESS_THRESHOLD)%Z /\ (0 <= skipped_count s')%Z /\
  (0 <= consecutive_duplicate_count s' <= 10)%Z /\
  (List.length (previous_images s') <= IMAGES_TO_PROCESS)%nat /\
  (out = Returned <-> consecutive_duplicate_count s' = 10%Z).
Proof.
  intros Henter Hrun.
  apply (process_images_from_bounds fuel 1%Z s0 out s'); [| exact Hrun].
  exact (enter_inv env s0 Henter).
Qed.

(** *** Pages *)


End Bounds.

(** ** The contract of the Tag Extractor *)

Section ExtractorContract.

Variable env : oracle.

Lemma recover_raises e s e' :
  fst (recover env e s) = Raise e' -> e' = WebDriverException \/ e' = AttributeError.
Proof.
  unfold recover. unfold bind at 1.
  destruct (is_WebDriverException e).
  - unfold bind at 1, get at 1.
    destruct (driver s) as [session |]; [| cbn; intro H; injection H as <-; auto].
    unfold bind at 1, call at 1. unfold bind at 1, initialize_driver.
    destruct (initialize_driver_from_outcome env Config.MAX_DRIVER_RETRIES
                (record_call (EvQuit session) s))
      as [(k & _ & _ & _ & Hok & _) | (_ & Hraise & _)].
    + destruct (initialize_driver_from env _ _) as [[d | e0] s1]; cbn in Hok;
        [| discriminate]. cbn. discriminate.
    + destruct (initialize_driver_from env _ _) as [[d | e0] s1]; cbn in Hraise;
        [discriminate |]. injection Hraise as ->. cbn. intro H; injection H as <-; auto.
  - cbn. discriminate.
Qed.

Lemma attempt_cases image s :
  (exists t, t <> [] /\ fst (attempt env image s) = Ok t) \/
  (fst (attempt env image s) = Raise AttributeError /\
   trace (snd (attempt env image s)) = trace s) \/
  (fst (attempt env image s) = Raise ValueError) \/
  (exists e session, retryable e = true /\ fst (attempt env image s) = Raise e /\
     trace (snd (attempt env image s)) =
       trace s ++ [EvRender (Some session) (item_web_url image)]).
Proof.
  assert (Heq : attempt env image s =
                match driver s with
                | None => (Raise AttributeError, s)
                | Some session =>
                    let s1 := record_call (EvRender (Some session) (item_web_url image)) s in
                    match render env (tick s) with
                    | RenderTimeout => (Raise TimeoutException, s1)
                    | RenderSessionFault => (Raise WebDriverException, s1)
                    | RenderTexts texts =>
                        if nonempty (kept_texts texts)
                        then (Ok (kept_texts texts), s1)
                        else (Raise ValueError, s1)
                    end
                end).
  { unfold attempt, bind, get, call.
    destruct (driver s); [| reflexivity].
    destruct (render env (tick s)); try reflexivity.
    destruct (nonempty _); reflexivity. }
  rewrite Heq. clear Heq.
  destruct (driver s) as [session |]; [| right; left; split; reflexivity].
  cbv zeta.
  destruct (render env (tick s)) as [| | texts].
  - right; right; right. exists TimeoutException, session. repeat split.
  - right; right; right. exists WebDriverException, session. repeat split.
  - destruct (kept_texts texts) as [| x l] eqn:E; cbn [nonempty].
    + right; right; left. reflexivity.
    + left. eexists. split; [| reflexivity]. discriminate.
Qed.

Lemma extract_image_details_from_contract n image s :
  exists l,
    trace (snd (extract_image_details_from env n image s)) = trace s ++ l /\
    Forall quiet l /\
    (renderings l <= n)%nat /\
    (fst (extract_image_details_from env n image s) = Ok [] -> renderings l = n) /\
    (forall e, fst (extract_image_details_from env n image s) = Raise e ->
               e = ValueError \/ e = WebDriverException \/ e = AttributeError).
Proof.
  revert s. induction n as [| n IH]; intro s.
  - exists []. cbn. rewrite app_nil_r. repeat split; try constructor; try discriminate.
  - assert (Heq : extract_image_details_from env (S n) image s =
                  match attempt env image s with
                  | (Ok t, s1) => (Ok t, s1)
                  | (Raise e, s1) =>
                      if retryable e then
                        match recover env e s1 with
                        | (Ok _, s2) => extract_image_details_from env n image s2
                        | (Raise e2, s2) => (Raise e2, s2)
                        end
                      else (Raise e, s1)
                  end).
    { cbn [extract_image_details_from]. unfold bind at 1, try_except. unfold bind at 1.
      destruct (attempt env image s) as [[t | e] s1]; [reflexivity |].
      destruct (retryable e); [| reflexivity].
      unfold bind at 1. destruct (recover env e s1) as [[[] | e2] s2]; reflexivity. }
    rewrite Heq. clear Heq.
    destruct (attempt_trace env image s) as (l1 & H1 & Q1 & R1).
    destruct (attempt_cases image s)
      as [(t & Ht & Hok) | [(Hattr & Htr) | [Hval | (e & session & Hre & Hraise & Htr)]]];
      destruct (attempt env image s) as [[t' | e'] s1]; cbn [fst snd] in *;
      try discriminate.
    + injection Hok as ->. exists l1. repeat split; try assumption; try lia;
        try discriminate. intro H. injection H as H. contradiction.
    + injection Hattr as ->. exists l1. cbn. repeat split; try assumption; try lia;
        try discriminate. intros e H. injection H as <-. auto.
    + injection Hval as ->. exists l1. cbn. repeat split; try assumption; try lia;
        try discriminate. intros e H. injection H as <-. auto.
    + injection Hraise as ->. rewrite Hre.
      destruct (emits_recover env e s1) as (l2 & H2 & F2).
      pose proof (recover_raises e s1) as Hrr.
      destruct (recover env e s1) as [[[] | e2] s2]; cbn [fst snd] in *.
      * destruct (IH s2) as (l3 & H3 & Q3 & R3 & Hempty & Hexn).
        exists ([EvRender (Some session) (item_web_url image)] ++ l2 ++ l3).
        split; [rewrite H3, H2, Htr, <- !app_assoc; reflexivity |].
        split; [apply Forall_app; split; [repeat constructor |];
                apply Forall_app; split; auto using off_screen_is_quiet |].
        rewrite !renderings_app, (renderings_off_screen l2 F2).
        change (renderings [EvRender (Some session) (item_web_url image)]) with 1%nat.
        split; [lia |]. split; [intro H; rewrite (Hempty H); lia | exact Hexn].
      * exists ([EvRender (Some session) (item_web_url image)] ++ l2).
        split; [rewrite H2, Htr, <- !app_assoc; reflexivity |].
        split; [apply Forall_app; split; [repeat constructor |];
                auto using off_screen_is_quiet |].
        rewrite !renderings_app, (renderings_off_screen l2 F2).
        change (renderings [EvRender (Some session) (item_web_url image)]) with 1%nat.
        split; [lia |]. split; [discriminate |].
        intros e0 H. injection H as <-. destruct (Hrr e2 eq_refl) as [-> | ->]; auto.
Qed.

Lemma kept_texts_steady texts :
  steady_texts texts -> Forall (fun t => t <> []) (kept_texts texts).
Proof.
  unfold steady_texts, kept_texts.
  induction 1 as [| [a b] texts Hab _ IH]; cbn [filter map]; [constructor |].
  cbn [fst snd] in *. subst b.
  destruct (strip a) as [| c r] eqn:E; cbn [nonempty map]; [exact IH |].
  constructor; [cbn [snd]; rewrite E; discriminate | exact IH].
Qed.

Lemma extract_image_details_from_steady n image :
  (forall k texts, render env k = RenderTexts texts -> steady_texts texts) ->
  returns (Forall (fun t => t <> [])) (extract_image_details_from env n image).
Proof.
  intro Hs. induction n as [| n IH]; cbn [extract_image_details_from].
  - apply returns_ret. constructor.
  - apply returns_bind
      with (Q1 := fun r => forall t, r = Some t -> Forall (fun t => t <> []) t).
    + apply returns_try.
      * apply returns_bind with (Q1 := Forall (fun t => t <> [])).
        -- intros s t. unfold attempt, bind, get, call.
           destruct (driver s) as [session |]; [| discriminate].
           destruct (render env (tick s)) as [| | texts] eqn:Hr; try discriminate.
           pose proof (kept_texts_steady texts (Hs _ _ Hr)) as Hk.
           destruct (kept_texts texts) as [| x l0]; cbn [nonempty]; [discriminate |].
           intro E. injection E as <-. exact Hk.
        -- intros t Ht. apply returns_ret. intros t' E. injection E as <-. exact Ht.
      * intro e. apply returns_bind with (Q1 := fun _ => True); [apply returns_any |].
        intros _ _. apply returns_ret. intros t E. discriminate E.
    + intros [t |] Hr; [apply returns_ret; apply Hr; reflexivity | exact IH].
Qed.

(** X12. [extract_image_details] renders the page at most [MAX_RETRIES] times and
    talks to nobody but the browser.  The tags it returns are texts without
    blanks around them, and none of them is empty when the link texts read
    the same both times; it returns no tags only after [MAX_RETRIES]
    renderings; a timeout never leaves it: what can leave it is the
    [ValueError] of a page without tags, the [WebDriverException] of a session
    that cannot be started again, or the error of a missing session. *)
Theorem extractor_contract (image : listing_item) (s : ImageProcessor) :
  exists l,
    trace (snd (extract_image_details env image s)) = trace s ++ l /\
    Forall quiet l /\
    (renderings l <= Config.MAX_RETRIES)%nat /\
    (fst (extract_image_details env image s) = Ok [] ->
     renderings l = Config.MAX_RETRIES) /\
    (forall t, fst (extract_image_details env image s) = Ok t -> Forall stripped_tag t) /\
    ((forall k texts, render env k = RenderTexts texts -> steady_texts texts) ->
     forall t, fst (extract_image_details env image s) = Ok t ->
               Forall (fun x => x <> []) t) /\
    (forall e, fst (extract_image_details env image s) = Raise e ->
               e = ValueError \/ e = WebDriverException \/ e = AttributeError) /\
    session (snd (extract_image_details env image s)) = session s.
Proof.
  unfold extract_image_details.
  destruct (extract_image_details_from_contract Config.MAX_RETRIES image s)
    as (l & H1 & H2 & H3 & H4 & H5).
  exists l.
  split; [exact H1 |]. split; [exact H2 |]. split; [exact H3 |]. split; [exact H4 |].
  split; [| split; [| split; [exact H5 | apply keeps_extract_image_details_from]]].
  - intros t Ht.
    exact (extract_image_details_from_returns env Config.MAX_RETRIES image s t Ht).
  - intros Hs t Ht.
    exact (extract_image_details_from_steady Config.MAX_RETRIES image Hs s t Ht).
Qed.

End ExtractorContract.

(** ** Startup *)

Section Startup.

Variable env : oracle.

Lemma set_mem_set_add_old {A} (eqb : A -> A -> bool) (k k' : A) (l : list A) :
  set_mem eqb k l = true -> set_mem eqb k (set_add eqb k' l) = true.
Proof.
  intro H. unfold set_add. destruct (set_mem eqb k' l); [exact H |].
  unfold set_mem in *. rewrite existsb_app, H. reflexivity.
Qed.

Lemma fold_set_add_mem (rows acc : list (list pystr * pyval)) k :
  key_eqb k k = true ->
  In k rows \/ set_mem key_eqb k acc = true ->
  set_mem key_eqb k (fold_left (fun a x => set_add key_eqb x a) rows acc) = true.
Proof.
  intro Hk. revert acc. induction rows as [| r rows IH]; intros acc H; cbn [fold_left].
  - destruct H as [[] | H]. exact H.
  - apply IH. destruct H as [[-> | Hin] | Hacc].
    + right. unfold set_add. destruct (set_mem key_eqb k acc) eqn:E; [exact E |].
      unfold set_mem. rewrite existsb_app. cbn [existsb]. rewrite Hk.
      rewrite orb_true_r. reflexivity.
    + left. exact Hin.
    + right. apply set_mem_set_add_old. exact Hacc.
Qed.

Lemma fold_set_add_In (rows acc : list (list pystr * pyval)) k :
  In k (fold_left (fun a x => set_add key_eqb x a) rows acc) -> In k rows \/ In k acc.
Proof.
  revert acc. induction rows as [| r rows IH]; intros acc H; cbn [fold_left] in H.
  - right. exact H.
  - destruct (IH _ H) as [Hin | Hin]; [left; right; exact Hin |].
    unfold set_add in Hin. destruct (set_mem key_eqb r acc); [right; exact Hin |].
    apply in_app_or in Hin. destruct Hin as [Hin | [-> | []]]; [right; exact Hin |].
    left. left. reflexivity.
Qed.

(** X16. When [__enter__] succeeds, a session is in place, the counters are as
    [__init__] left them, and [existing_entries_set] holds the pairs of tags
    and comment the store returned and nothing else: every such pair (that
    equals itself) is found by the in-memory duplicate test. *)
Theorem startup_loads_the_stored_pairs (s0 s1 : ImageProcessor) :
  enter env s0 = (Ok tt, s1) ->
  exists n rows,
    stored_entries env n = Some rows /\
    (forall k, In k rows -> key_eqb k k = true ->
               set_mem key_eqb k (existing_entries_set s1) = true) /\
    (forall k, In k (existing_entries_set s1) -> In k rows) /\
    driver s1 <> None /\
    (processed_count s1, skipped_count s1, consecutive_duplicate_count s1,
     previous_images s1, processed_ids s1, recent_users s1) =
    (processed_count s0, skipped_count s0, consecutive_duplicate_count s0,
     previous_images s0, processed_ids s0, recent_users s0).
Proof.
  unfold enter, initialize_driver. unfold bind at 1.
  pose proof (keeps_initialize_driver_from env Config.MAX_DRIVER_RETRIES s0) as Hk.
  destruct (initialize_driver_from env Config.MAX_DRIVER_RETRIES s0) as [[d | e] sa];
    [| discriminate].
  cbn [snd] in Hk. unfold session in Hk. injection Hk as E1 E2 E3 _ E5 E6 E7.
  unfold bind, modify, call. cbn [tick set_driver].
  destruct (stored_entries env (tick sa)) as [rows |] eqn:Erows; [| discriminate].
  intro H. injection H as <-.
  exists (tick sa), rows. split; [exact Erows |].
  cbn [existing_entries_set set_existing_entries_set record_call set_driver driver
       processed_count skipped_count consecutive_duplicate_count previous_images
       processed_ids recent_users].
  split; [intros k Hin Hkk; apply fold_set_add_mem; auto |].
  split; [intros k Hin; destruct (fold_set_add_In rows [] k Hin) as [H | []]; exact H |].
  split; [discriminate |].
  rewrite E1, E2, E3, E5, E6, E7. reflexivity.
Qed.

End Startup.

(** ** Items that are dropped before rendering *)

Section CheapDrops.

Variable rt : runtime.
Variable env : oracle.

(** X15. When the download fails, or the file has no usable comment (no EXIF
    block, no UserComment tag, or a UserComment that decodes to the empty
    text), the item is dropped without the page being rendered: the only
    external calls are the download and, if it succeeded, the opening of the
    file. *)
Theorem unusable_items_are_not_rendered (image : listing_item) (s : ImageProcessor) :
  http_get env (tick s) = false \/ no_usable_comment (exif env (S (tick s))) ->
  exists l,
    process_image rt env image s =
      (Ok None,
       fold_left (fun st e => record_call e st) l s) /\
    (l = [EvDownload (api_url (item image))] \/
     l = [EvDownload (api_url (item image)); EvOpenImage]).
Proof.
  intro H. unfold process_image, try_except. unfold bind at 1, call at 1.
  destruct (http_get env (tick s)) eqn:Eget.
  - destruct H as [H | H]; [discriminate |].
    exists [EvDownload (api_url (item image)); EvOpenImage].
    split; [| right; reflexivity].
    unfold bind at 1, ret at 1. unfold bind at 1, extract_exif_user_comment, bind at 1,
      call at 1.
    change (tick (record_call (EvDownload (api_url (item image))) s)) with (S (tick s)).
    unfold no_usable_comment in H.
    destruct (exif env (S (tick s))) as [| | items]; try reflexivity.
    unfold ret at 1. cbn beta iota.
    destruct (find_user_comment items) as [[| c0 c] |]; [reflexivity | contradiction | reflexivity].
  - exists [EvDownload (api_url (item image))]. split; [reflexivity | left; reflexivity].
Qed.

(** X17. Applying the numeric conversion to its own result changes nothing. *)
Theorem convert_numeric_is_idempotent (v v' : pyval) :
  converts rt v v' -> converts rt v' v'.
Proof.
  intro H. specialize (H init). unfold converts, convert_numeric in *.
  destruct v as [| n | x | str]; try (injection H as <-; reflexivity).
  destruct (str_isdigit rt str) eqn:Ed.
  - destruct (int_of_str rt str); [| discriminate]. injection H as <-. reflexivity.
  - destruct (float_of_str rt str) eqn:Ef; injection H as <-; [reflexivity |].
    intro s. rewrite Ed, Ef. reflexivity.
Qed.

End CheapDrops.

(** ** More on the comment codec *)

(** X18. The third encoding of the list can never be the one that decides: bytes
    that are not UTF-8 are not ASCII either.  The decoder behaves as if the
    list held UTF-16-BE and UTF-8 only. *)
Theorem ascii_attempt_never_decides (value : exif_value) :
  decode_user_comment value =
  match value with
  | EBytes raw =>
      let payload := if startswith raw UNICODE then skipn 8 raw else raw in
      match try_encodings [Utf16BE; Utf8] payload with
      | Some s => s
      | None => py_str (EBytes payload)
      end
  | _ => py_str value
  end.
Proof.
  destruct value as [raw | s | n]; try reflexivity.
  unfold decode_user_comment. cbv zeta. cbn [try_encodings decode].
  destruct (decode_utf16_be _); [reflexivity |].
  destruct (decode_utf8 _) eqn:E8; [reflexivity |].
  destruct (decode_ascii _) eqn:Ea; [| reflexivity].
  rewrite (ascii_decodes_as_utf8 _ _ Ea) in E8. discriminate E8.
Qed.

Lemma lor_lt_pow2 (a b n : N) :
  (a < 2 ^ n)%N -> (b < 2 ^ n)%N -> (N.lor a b < 2 ^ n)%N.
Proof.
  intros Ha Hb.
  assert (Hlog : forall x, (x < 2 ^ n)%N -> (0 < n)%N -> (N.log2 x < n)%N).
  { intros x Hx Hn. destruct (N.eq_dec x 0) as [-> | Hx0]; [exact Hn |].
    apply N.log2_lt_pow2; [lia | exact Hx]. }
  destruct (N.eq_dec n 0) as [-> | Hn].
  - assert (a = 0%N) by (cbn in Ha; lia). assert (b = 0%N) by (cbn in Hb; lia).
    subst. exact Ha.
  - destruct (N.eq_dec (N.lor a b) 0) as [-> | Hne]; [lia |].
    apply N.log2_lt_pow2; [lia |]. rewrite N.log2_lor.
    apply N.max_lub_lt; apply Hlog; lia.
Qed.

Lemma ascii_unit_is_no_surrogate (hi lo : byte) :
  (code_of_byte hi < 0x80)%N ->
  let w := N.lor (N.shiftl (code_of_byte hi) 8) (code_of_byte lo) in
  is_high_surrogate w = false /\ is_low_surrogate w = false.
Proof.
  intros Hhi w.
  assert (Hw : (w < 2 ^ 15)%N).
  { apply lor_lt_pow2.
    - rewrite N.shiftl_mul_pow2. change (2 ^ 15)%N with (128 * 2 ^ 8)%N.
      apply N.mul_lt_mono_pos_r; [reflexivity | exact Hhi].
    - pose proof (Byte.to_N_bounded lo). unfold code_of_byte.
      change (2 ^ 15)%N with 32768%N. lia. }
  change (2 ^ 15)%N with 32768%N in Hw.
  unfold is_high_surrogate, is_low_surrogate.
  destruct (N.leb_spec 0xD800 w); [lia |].
  destruct (N.leb_spec 0xDC00 w); [lia |]. split; reflexivity.
Qed.

Lemma even_ascii_units (n : nat) :
  forall b, List.length b = (2 * n)%nat ->
    Forall (fun x => (code_of_byte x < 0x80)%N) b ->
    exists us, utf16_units b = Some us /\ List.length us = n /\
               utf16_combine us = Some us.
Proof.
  induction n as [| n IH]; intros b Hlen Hascii.
  - destruct b; [| discriminate]. exists []. repeat split.
  - destruct b as [| hi [| lo rest]]; try (cbn in Hlen; lia).
    inversion Hascii as [| ? ? Hhi Hrest']; subst.
    inversion Hrest' as [| ? ? _ Hrest]; subst.
    destruct (IH rest ltac:(cbn in Hlen; lia) Hrest) as (us & Hu & Hl & Hc).
    exists (N.lor (N.shiftl (code_of_byte hi) 8) (code_of_byte lo) :: us).
    cbn [utf16_units]. rewrite Hu. split; [reflexivity |].
    split; [cbn; lia |].
    destruct (ascii_unit_is_no_surrogate hi lo Hhi) as [H1 H2].
    cbn [utf16_combine]. cbv zeta in H1, H2. rewrite H1, H2, Hc. reflexivity.
Qed.

(** X19. A comment of plain ASCII bytes, even in number and without the marker, is
    not read as its text: UTF-16-BE comes first in the list and accepts it,
    two bytes to a character, so the result has at most half as many
    characters as the comment has bytes. *)
Theorem even_ascii_comment_is_read_as_utf16 (b : list byte) (n : nat) :
  Forall (fun x => (code_of_byte x < 0x80)%N) b ->
  List.length b = (2 * n)%nat ->
  startswith b UNICODE = false ->
  exists us,
    utf16_units b = Some us /\
    List.length us = n /\
    decode_user_comment (EBytes b) = remove_nul us /\
    (List.length (decode_user_comment (EBytes b)) <= n)%nat /\
    (b <> [] -> decode_user_comment (EBytes b) <> ascii_text b).
Proof.
  intros Hascii Hlen Hmark.
  destruct (even_ascii_units n b Hlen Hascii) as (us & Hu & Hl & Hc).
  exists us. split; [exact Hu |]. split; [exact Hl |].
  assert (Hd : decode_user_comment (EBytes b) = remove_nul us).
  { unfold decode_user_comment. rewrite Hmark. cbn [try_encodings decode].
    unfold decode_utf16_be. rewrite Hu, Hc. reflexivity. }
  assert (Hle : (List.length (remove_nul us) <= n)%nat).
  { rewrite <- Hl. unfold remove_nul. apply filter_length_le. }
  rewrite Hd. split; [reflexivity |]. split; [exact Hle |].
  intros Hne Heq.
  assert (Hlt : List.length (ascii_text b) = (2 * n)%nat)
    by (unfold ascii_text; rewrite length_map; exact Hlen).
  rewrite <- Heq in Hlt.
  destruct b; [contradiction | cbn in Hlen; lia].
Qed.

(** ** The further properties at work *)

Lemma known_pair_is_rejected_witness :
  candidate_of (classify Demo.rt Demo.restarted Demo.item1
                  (snd (enter Demo.restarted init))) = Some Demo.record1 /\
  is_duplicate_verdict (classify Demo.rt Demo.restarted Demo.item1
                          (snd (enter Demo.restarted init))) = true.
Proof.
  assert (Hc : candidate_of (classify Demo.rt Demo.restarted Demo.item1
                               (snd (enter Demo.restarted init))) = Some Demo.record1)
    by (vm_compute; reflexivity).
  split; [exact Hc |].
  apply (known_pair_is_rejected Demo.rt Demo.restarted Demo.item1 _ Demo.record1 Hc).
  vm_compute. reflexivity.
Defined.

Lemma stored_pair_is_not_accepted_again_witness :
  classify Demo.rt Demo.two_comments Demo.item1 Demo.ready = Accepted Demo.record1 true /\
  classify Demo.rt Demo.two_comments Demo.item2
    (snd (process_item Demo.rt Demo.two_comments Demo.item1 Demo.ready))
  = Accepted Demo.record2 true /\
  (tags Demo.record2, user_comment Demo.record2) <>
  (tags Demo.record1, user_comment Demo.record1).
Proof.
  assert (H1 : classify Demo.rt Demo.two_comments Demo.item1 Demo.ready
               = Accepted Demo.record1 true) by (vm_compute; reflexivity).
  assert (H2 : classify Demo.rt Demo.two_comments Demo.item2
                 (snd (process_item Demo.rt Demo.two_comments Demo.item1 Demo.ready))
               = Accepted Demo.record2 true) by (vm_compute; reflexivity).
  split; [exact H1 | split; [exact H2 |]].
  exact (proj1 (proj2 (stored_pair_is_not_accepted_again Demo.rt Demo.two_comments
                         Demo.item1 Demo.item2 Demo.ready _ Demo.record1 Demo.record2
                         true H1 (follows_here _ _ _) H2))
           eq_refl).
Defined.

Lemma accepted_id_is_skipped_later_witness :
  classify Demo.rt Demo.calm Demo.item1 Demo.ready = Accepted Demo.record1 true /\
  is_prefilter_skip
    (classify Demo.rt Demo.calm Demo.item1
       (snd (process_item Demo.rt Demo.calm Demo.item1 Demo.ready))) = true.
Proof.
  assert (H1 : classify Demo.rt Demo.calm Demo.item1 Demo.ready
               = Accepted Demo.record1 true) by (vm_compute; reflexivity).
  split; [exact H1 |].
  apply (accepted_id_is_skipped_later Demo.rt Demo.calm Demo.item1 Demo.item1
           Demo.ready _ Demo.record1 true H1 eq_refl (follows_here _ _ _) eq_refl).
Defined.

Lemma accepted_user_is_suppressed_next_witness :
  classify Demo.rt Demo.fast_clock Demo.item1 Demo.ready = Accepted Demo.record1 true /\
  classify Demo.rt Demo.fast_clock Demo.item2
    (snd (process_item Demo.rt Demo.fast_clock Demo.item1 Demo.ready)) = RecentUser.
Proof.
  assert (H1 : classify Demo.rt Demo.fast_clock Demo.item1 Demo.ready
               = Accepted Demo.record1 true) by (vm_compute; reflexivity).
  split; [exact H1 |].
  destruct (accepted_user_is_suppressed_next Demo.rt Demo.fast_clock Demo.item1
              Demo.ready Demo.record1 true H1 eq_refl eq_refl) as (t & Hget & Hnext).
  assert (Ht : t = 5000%Z).
  { vm_compute in Hget. injection Hget as <-. reflexivity. }
  subst t. apply (Hnext Demo.item2 eq_refl). vm_compute. reflexivity.
Defined.

Lemma digit_user_is_not_remembered_witness :
  classify Demo.rt Demo.calm Demo.item_of_12345 Demo.ready
  = Accepted Demo.record_of_12345 true /\
  dict_get (PStr (lit "12345"))
    (recent_users (snd (process_item Demo.rt Demo.calm Demo.item_of_12345 Demo.ready)))
  = None.
Proof.
  assert (H1 : classify Demo.rt Demo.calm Demo.item_of_12345 Demo.ready
               = Accepted Demo.record_of_12345 true) by (vm_compute; reflexivity).
  split; [exact H1 |].
  destruct (digit_user_is_not_remembered Demo.rt Demo.calm Demo.item_of_12345 Demo.ready
              Demo.record_of_12345 true (lit "12345") H1 eq_refl eq_refl) as [_ H].
  rewrite H. reflexivity.
Defined.

Lemma counters_stay_in_bounds_witness :
  enter Demo.calm init = (Ok tt, snd (enter Demo.calm init)) /\
  process_images Demo.rt Demo.calm 2 (snd (enter Demo.calm init)) =
    (Ok (StillRunning 1),
     snd (process_images Demo.rt Demo.calm 2 (snd (enter Demo.calm init)))) /\
  (processed_count
     (snd (process_images Demo.rt Demo.calm 2 (snd (enter Demo.calm init))))
   < Config.PROCESS_THRESHOLD)%Z.
Proof.
  assert (H0 : enter Demo.calm init = (Ok tt, snd (enter Demo.calm init)))
    by (vm_compute; reflexivity).
  assert (H1 : process_images Demo.rt Demo.calm 2 (snd (enter Demo.calm init)) =
               (Ok (StillRunning 1),
                snd (process_images Demo.rt Demo.calm 2 (snd (enter Demo.calm init)))))
    by (vm_compute; reflexivity).
  split; [exact H0 | split; [exact H1 |]].
  exact (proj1 (counters_stay_in_bounds Demo.rt Demo.calm 2 _ _ _ H0 H1)).
Defined.

Lemma startup_loads_the_stored_pairs_witness :
  enter Demo.restarted init = (Ok tt, snd (enter Demo.restarted init)) /\
  driver (snd (enter Demo.restarted init)) <> None.
Proof.
  assert (H0 : enter Demo.restarted init = (Ok tt, snd (enter Demo.restarted init)))
    by (vm_compute; reflexivity).
  split; [exact H0 |].
  destruct (startup_loads_the_stored_pairs Demo.restarted init _ H0)
    as (n & rows & _ & _ & _ & Hd & _).
  exact Hd.
Defined.

Lemma unusable_items_are_not_rendered_witness :
  no_usable_comment (exif Demo.blank_comment (S (tick Demo.ready))) /\
  exists l,
    process_image Demo.rt Demo.blank_comment Demo.item1 Demo.ready =
      (Ok None, fold_left (fun st e => record_call e st) l Demo.ready) /\
    (l = [EvDownload (api_url (item Demo.item1))] \/
     l = [EvDownload (api_url (item Demo.item1)); EvOpenImage]).
Proof.
  assert (H : no_usable_comment (exif Demo.blank_comment (S (tick Demo.ready))))
    by (vm_compute; exact I).
  split; [exact H |].
  exact (unusable_items_are_not_rendered Demo.rt Demo.blank_comment Demo.item1 Demo.ready
           (or_intror H)).
Defined.

Lemma convert_numeric_is_idempotent_witness :
  converts Demo.rt (PStr (lit "123")) (PInt 123) /\
  converts Demo.rt (PInt 123) (PInt 123).
Proof.
  assert (H : converts Demo.rt (PStr (lit "123")) (PInt 123))
    by (intro s; reflexivity).
  split; [exact H |].
  exact (convert_numeric_is_idempotent Demo.rt _ _ H).
Defined.

Lemma even_ascii_comment_is_read_as_utf16_witness :
  decode_user_comment (EBytes (bytes_of_string "hell")) <> lit "hell".
Proof.
  destruct (even_ascii_comment_is_read_as_utf16 (bytes_of_string "hell") 2)
    as (us & _ & _ & _ & _ & Hne).
  - repeat constructor.
  - reflexivity.
  - reflexivity.
  - apply Hne. discriminate.
Defined.

(** ** The time an extraction can take in sleeps *)

Section Sleeps.

Variable env : oracle.

Import Config.

Lemma slept_app l1 l2 : slept (l1 ++ l2) = (slept l1 + slept l2)%Z.
Proof.
  induction l1 as [| e l1 IH]; [reflexivity |].
  destruct e; cbn [app slept]; rewrite IH; lia.
Qed.

Lemma slept_failed_launches k :
  slept (failed_launches k) = (Z.of_nat k * micros RETRY_DELAY)%Z.
Proof.
  induction k as [| k IH]; [reflexivity |].
  cbn [failed_launches slept]. rewrite IH. lia.
Qed.

Lemma initialize_driver_sleeps s :
  exists l,
    trace (snd (initialize_driver env s)) = trace s ++ l /\
    (0 <= slept l <= Z.of_nat MAX_DRIVER_RETRIES * micros RETRY_DELAY)%Z.
Proof.
  unfold initialize_driver.
  destruct (initialize_driver_from_outcome env MAX_DRIVER_RETRIES s)
    as [(k & Hk & _ & _ & _ & Htr) | (_ & _ & Htr)].
  - exists (failed_launches k ++ [EvFirefox]). split; [exact Htr |].
    rewrite slept_app, slept_failed_launches. cbn [slept].
    unfold micros, RETRY_DELAY, MAX_DRIVER_RETRIES in *. lia.
  - exists (failed_launches MAX_DRIVER_RETRIES). split; [exact Htr |].
    rewrite slept_failed_launches. unfold micros, RETRY_DELAY, MAX_DRIVER_RETRIES. lia.
Qed.

Lemma recover_sleeps e s :
  exists l,
    trace (snd (recover env e s)) = trace s ++ l /\
    (0 <= slept l <= (Z.of_nat MAX_DRIVER_RETRIES + 1) * micros RETRY_DELAY)%Z.
Proof.
  assert (Heq : recover env e s =
                if is_WebDriverException e then
                  match driver s with
                  | None => (Raise AttributeError, s)
                  | Some session =>
                      match initialize_driver env (record_call (EvQuit session) s) with
                      | (Ok d', s1) =>
                          (Ok tt, record_call (EvSleep (micros RETRY_DELAY))
                                    (set_driver (Some d') s1))
                      | (Raise e1, s1) => (Raise e1, s1)
                      end
                  end
                else (Ok tt, record_call (EvSleep (micros RETRY_DELAY)) s)).
  { unfold recover. unfold bind at 1.
    destruct (is_WebDriverException e); [| reflexivity].
    unfold bind at 1, get at 1. destruct (driver s) as [session |]; [| reflexivity].
    unfold bind at 1, call at 1. unfold bind at 1.
    destruct (initialize_driver env (record_call (EvQuit session) s)) as [[d' | e1] s1];
      reflexivity. }
  rewrite Heq. clear Heq.
  assert (Hb : (0 <= micros RETRY_DELAY)%Z) by (unfold micros, RETRY_DELAY; lia).
  destruct (is_WebDriverException e).
  - destruct (driver s) as [session |].
    + destruct (initialize_driver_sleeps (record_call (EvQuit session) s))
        as (l & Hl & Hs).
      destruct (initialize_driver env (record_call (EvQuit session) s))
        as [[d' | e1] s1]; cbn [snd] in *.
      * exists (EvQuit session :: l ++ [EvSleep (micros RETRY_DELAY)]).
        cbn [trace record_call set_driver] in *. rewrite Hl, <- !app_assoc.
        split; [reflexivity |].
        cbn [slept]. rewrite slept_app. cbn [slept]. lia.
      * exists (EvQuit session :: l).
        cbn [trace record_call] in *. rewrite Hl, <- !app_assoc.
        split; [reflexivity |]. cbn [slept]. lia.
    + exists []. split; [symmetry; apply app_nil_r |]. cbn [slept]. lia.
  - exists [EvSleep (micros RETRY_DELAY)]. split; [reflexivity |].
    cbn [slept]. unfold MAX_DRIVER_RETRIES. lia.
Qed.

Lemma extract_image_details_from_sleeps n image s :
  exists l,
    trace (snd (extract_image_details_from env n image s)) = trace s ++ l /\
    (0 <= slept l
     <= Z.of_nat n * ((Z.of_nat MAX_DRIVER_RETRIES + 1) * micros RETRY_DELAY))%Z.
Proof.
  revert s. induction n as [| n IH]; intro s.
  - exists []. cbn. rewrite app_nil_r. split; [reflexivity | lia].
  - assert (Heq : extract_image_details_from env (S n) image s =
                  match attempt env image s with
                  | (Ok t, s1) => (Ok t, s1)
                  | (Raise e, s1) =>
                      if retryable e then
                        match recover env e s1 with
                        | (Ok _, s2) => extract_image_details_from env n image s2
                        | (Raise e2, s2) => (Raise e2, s2)
                        end
                      else (Raise e, s1)
                  end).
    { cbn [extract_image_details_from]. unfold bind at 1, try_except. unfold bind at 1.
      destruct (attempt env image s) as [[t | e] s1]; [reflexivity |].
      destruct (retryable e); [| reflexivity].
      unfold bind at 1. destruct (recover env e s1) as [[[] | e2] s2]; reflexivity. }
    rewrite Heq. clear Heq.
    assert (Hb : (0 <= (Z.of_nat MAX_DRIVER_RETRIES + 1) * micros RETRY_DELAY)%Z)
      by (unfold micros, RETRY_DELAY, MAX_DRIVER_RETRIES; lia).
    set (X := ((Z.of_nat MAX_DRIVER_RETRIES + 1) * micros RETRY_DELAY)%Z) in *.
    assert (Hn : (0 <= Z.of_nat n * X)%Z) by (apply Z.mul_nonneg_nonneg; lia).
    replace (Z.of_nat (S n) * X)%Z with (Z.of_nat n * X + X)%Z by lia.
    destruct (attempt_trace env image s) as (l1 & H1 & _ & _).
    assert (Hs1 : slept l1 = 0%Z).
    { destruct (emits_attempt env image s) as (l1' & H1' & _).
      assert (l1' = l1) by (rewrite H1 in H1'; apply app_inv_head in H1'; congruence).
      subst l1'.
      unfold attempt, bind, get, call in H1.
      destruct (driver s);
        [destruct (render env (tick s)); [| | destruct (nonempty _)] |];
        cbn in H1;
        try (apply (app_inv_head (trace s) [_] l1) in H1; subst l1; reflexivity);
        rewrite <- (app_nil_r (trace s)) in H1 at 1;
        apply app_inv_head in H1; subst l1; reflexivity. }
    destruct (attempt env image s) as [[t | e] s1]; cbn [snd] in H1.
    + exists l1. split; [exact H1 | lia].
    + destruct (retryable e); [| exists l1; split; [exact H1 | lia]].
      destruct (recover_sleeps e s1) as (l2 & H2 & S2).
      destruct (recover env e s1) as [[[] | e2] s2]; cbn [snd] in H2.
      * destruct (IH s2) as (l3 & H3 & S3).
        exists (l1 ++ l2 ++ l3).
        split; [rewrite H3, H2, H1, <- !app_assoc; reflexivity |].
        rewrite !slept_app. lia.
      * exists (l1 ++ l2).
        split; [cbn [snd]; rewrite H2, H1, <- !app_assoc; reflexivity |].
        rewrite !slept_app. lia.
Qed.

(** X13. Whatever the browser does, one call of [extract_image_details] spends at
    most [MAX_RETRIES * (MAX_DRIVER_RETRIES + 1) * RETRY_DELAY] seconds in
    sleeps: 60 seconds with the configuration of the source. *)
Theorem extractor_sleeps_at_most (image : listing_item) (s : ImageProcessor) :
  exists l,
    trace (snd (extract_image_details env image s)) = trace s ++ l /\
    (0 <= slept l <= micros 60)%Z.
Proof.
  destruct (extract_image_details_from_sleeps MAX_RETRIES image s) as (l & Hl & Hs).
  exists l. split; [exact Hl |].
  unfold micros, MAX_RETRIES, MAX_DRIVER_RETRIES, RETRY_DELAY in *. lia.
Qed.

End Sleeps.

(** ** Nothing is forgotten within a run *)

Lemma dict_set_keeps_keys (k k' : pyval) (t : Z) (d : list (pyval * Z)) :
  dict_get k d <> None -> dict_get k (dict_set k' t d) <> None.
Proof.
  induction d as [| [k0 v0] d IH]; cbn [dict_get dict_set]; [intro H; contradiction |].
  destruct (py_eqb k0 k') eqn:E'; cbn [dict_get].
  - destruct (py_eqb k0 k); [intros _; discriminate | exact (fun H => H)].
  - destruct (py_eqb k0 k); [intros _; discriminate | exact IH].
Qed.

Section Growth.

Variable rt : runtime.
Variable env : oracle.

(** X8. The lookup structures of the session only grow: along a run no id leaves
    [processed_ids], no pair leaves [existing_entries_set], and no user leaves
    [recent_users]. *)
Theorem session_memory_only_grows (s s2 : ImageProcessor) :
  follows rt env s s2 ->
  incl (processed_ids s) (processed_ids s2) /\
  incl (existing_entries_set s) (existing_entries_set s2) /\
  (forall k, dict_get k (recent_users s) <> None ->
             dict_get k (recent_users s2) <> None).
Proof.
  intro Hf. split; [| split].
  - intros k Hk. exact (follows_processed_ids rt env k s s2 Hf Hk).
  - intros k Hk. exact (follows_existing rt env k s s2 Hf Hk).
  - induction Hf as [| s' image _ IH | s' e _ IH]; intros k Hk; [exact Hk | | exact (IH k Hk)].
    destruct (process_item_sets rt env image s') as (_ & _ & t & Hru). rewrite Hru.
    destruct (classify rt env image s'); try exact (IH k Hk).
    apply dict_set_keeps_keys. exact (IH k Hk).
Qed.

End Growth.

Lemma session_memory_only_grows_witness :
  incl (processed_ids Demo.seen1)
       (processed_ids (snd (process_item Demo.rt Demo.calm Demo.item2 Demo.seen1))).
Proof.
  exact (proj1 (session_memory_only_grows Demo.rt Demo.calm Demo.seen1 _
                  (follows_item _ _ _ _ Demo.item2 (follows_here _ _ _)))).
Defined.

(** ** From startup to shutdown *)









Lemma nr_ret A (a : A) : never_raises (ret a).
Proof. intro s; exists a; reflexivity. Qed.

Lemma nr_get A (f : ImageProcessor -> A) : never_raises (get f).
Proof. intro s; exists (f s); reflexivity. Qed.

Lemma nr_call A (e : event) (answer : nat -> A) : never_raises (call e answer).
Proof. intro s; exists (answer (tick s)); reflexivity. Qed.

Lemma nr_bind A B (c : M A) (k : A -> M B) :
  never_raises c -> (forall a, never_raises (k a)) -> never_raises (bind c k).
Proof.
  intros Hc Hk s. unfold bind. destruct (Hc s) as [a Ha].
  destruct (c s) as [[a' | e] s1]; simpl in Ha; [| discriminate].
  apply Hk.
Qed.

Ltac nr :=
  repeat first
    [ solve [auto]
    | apply nr_ret | apply nr_get | apply nr_call
    | apply nr_bind; [ | intros ]
    | match goal with
      | |- never_raises (if ?b then _ else _) => destruct b
      | |- never_raises (match ?x with _ => _ end) => destruct x
      end ].

Section Shutdown.

Variable rt : runtime.
Variable env : oracle.







(** With the answers the oracle can give, no exception leaves the loop. *)
Lemma nr_process_item image : never_raises (process_item rt env image).
Proof. intro s. apply process_item_returns. Qed.

Lemma nr_for_each_image images : never_raises (for_each_image rt env images).
Proof.
  pose proof nr_process_item.
  induction images as [| image images IH]; cbn [for_each_image]; nr.
Qed.

Lemma nr_process_images_from fuel page :
  never_raises (process_images_from rt env fuel page).
Proof.
  pose proof nr_for_each_image.
  revert page. induction fuel as [| fuel IH]; intro page;
    cbn [process_images_from]; unfold now, fetch_images, sleep; nr.
Qed.


Lemma initialize_driver_from_driver n s :
  driver (snd (initialize_driver_from env n s)) = driver s.
Proof.
  revert s. induction n as [| n IH]; intro s; [reflexivity |].
  cbn [initialize_driver_from]. unfold bind at 1, get at 1. unfold bind at 1, call at 1.
  destruct (firefox env (tick s)); [reflexivity |].
  unfold bind at 1, sleep at 1, call at 1. rewrite IH. reflexivity.
Qed.

(** X21. When [__enter__] raises, [__exit__] does not run: the error leaves
    [main] and nothing is quit.  The error is that of Firefox not starting
    after [MAX_DRIVER_RETRIES] launches, with the store untouched, or that of
    the store, and then the session launched for the run is still held. *)
Theorem failed_startup_quits_nothing (fuel : nat) (s s0 : ImageProcessor) (e : exn) :
  enter env s = (Raise e, s0) ->
  main rt env fuel s = (Raise e, s0) /\
  session s0 = session s /\
  ((e = WebDriverException /\
    trace s0 = trace s ++ failed_launches Config.MAX_DRIVER_RETRIES /\
    driver s0 = driver s) \/
   (e = DatabaseError /\
    exists k, (k < Config.MAX_DRIVER_RETRIES)%nat /\
      trace s0 = trace s ++ failed_launches k ++ [EvFirefox; EvSelectAll] /\
      driver s0 = Some (tick s + 2 * k)%nat)).
Proof.
  intro Henter.
  split; [unfold main; unfold bind at 1; rewrite Henter; reflexivity |].
  revert Henter. unfold enter, initialize_driver. unfold bind at 1.
  pose proof (initialize_driver_from_outcome env Config.MAX_DRIVER_RETRIES s) as Hout.
  pose proof (keeps_initialize_driver_from env Config.MAX_DRIVER_RETRIES s) as Hk.
  pose proof (initialize_driver_from_driver Config.MAX_DRIVER_RETRIES s) as Hd.
  destruct (initialize_driver_from env Config.MAX_DRIVER_RETRIES s) as [[d | e0] sa];
    simpl in Hout, Hk, Hd.
  - destruct Hout as [(k & Hk1 & _ & _ & Hr & Ht) | (_ & Hr & _)]; [| discriminate].
    injection Hr as ->.
    unfold bind at 1, modify at 1. unfold bind at 1, call at 1.
    destruct (stored_entries env _).
    + unfold modify; discriminate.
    + unfold raise. intro E. injection E as <- <-.
      split; [exact Hk |]. right. split; [reflexivity |].
      exists k. split; [exact Hk1 |]. split; [| reflexivity].
      cbn. rewrite Ht, <- !app_assoc. reflexivity.
  - intro E; injection E as <- <-.
    destruct Hout as [(k & _ & _ & _ & Hr & _) | (_ & Hr & Ht)]; [discriminate |].
    injection Hr as ->. split; [exact Hk |]. left. auto.
Qed.

End Shutdown.


Lemma failed_startup_quits_nothing_witness :
  enter Demo.store_unreadable init =
    (Raise DatabaseError, snd (enter Demo.store_unreadable init)) /\
  main Demo.rt Demo.store_unreadable 3 init =
    (Raise DatabaseError, snd (enter Demo.store_unreadable init)).
Proof.
  assert (H0 : enter Demo.store_unreadable init =
               (Raise DatabaseError, snd (enter Demo.store_unreadable init)))
    by (vm_compute; reflexivity).
  split; [exact H0 |].
  exact (proj1 (failed_startup_quits_nothing Demo.rt Demo.store_unreadable 3 init _ _ H0)).
Defined.

(** ** Items the record assembly cannot digest *)

Section Unformattable.

Variable rt : runtime.
Variable env : oracle.

Lemma convert_numeric_odd_digits v :
  odd_digits rt v -> returns (fun _ => False) (convert_numeric rt v).
Proof.
  intros (u & -> & Hd & Hi) s a. unfold convert_numeric. rewrite Hd, Hi.
  discriminate.
Qed.

Lemma standardize_date_no_string v :
  truthy v = true -> (forall t, v <> PStr t) ->
  returns (fun _ => False) (standardize_date rt v).
Proof.
  intros Ht Hs s a. unfold standardize_date. rewrite Ht.
  destruct v as [| n | x | t]; try discriminate. destruct (Hs t eq_refl).
Qed.

Lemma format_image_data_unformattable image extracted c :
  unformattable rt image ->
  returns (fun _ => False) (format_image_data rt image extracted c).
Proof.
  unfold format_image_data.
  intros [[Ht Hs] | [H | [H | [H | [H | H]]]]].
  1: apply returns_bind with (Q1 := fun _ => False);
       [apply standardize_date_no_string; assumption | intros ? []].
  all: repeat first
         [ apply returns_bind with (Q1 := fun _ => False);
           [apply convert_numeric_odd_digits; exact H | intros ? []]
         | apply returns_bind with (Q1 := fun _ => True);
           [apply returns_any | intros ? _] ].
Qed.

Lemma process_image_unformattable image :
  unformattable rt image ->
  returns (fun o => o = None) (process_image rt env image).
Proof.
  intro Hu. unfold process_image.
  apply returns_try; [| intro e; apply returns_ret; reflexivity].
  apply returns_bind with (Q1 := fun _ => True); [apply returns_any | intros ok _].
  apply returns_bind with (Q1 := fun _ => True); [apply returns_any | intros _ _].
  apply returns_bind with (Q1 := fun _ => True); [apply returns_any | intros comment _].
  destruct comment as [[| c0 c] |]; try (apply returns_ret; reflexivity).
  apply returns_bind with (Q1 := fun _ => True); [apply returns_any | intros extracted _].
  destruct (nonempty extracted); [| apply returns_ret; reflexivity].
  apply returns_bind with (Q1 := fun _ => False);
    [apply format_image_data_unformattable; exact Hu | intros ? []].
Qed.

(** X22. An item the record assembly cannot digest never becomes a candidate:
    when [createdAt] is truthy and no string, or a field is a text that
    [isdigit] accepts and [int] refuses, the error raised while the record is
    put together ends in the catch-all of [process_image], which returns
    [None]; the loop body then neither queries nor writes the store. *)
Theorem unformattable_item_is_never_a_candidate
    (image : listing_item) (s : ImageProcessor) :
  unformattable rt image ->
  fst (process_image rt env image s) = Ok None /\
  candidate_of (classify rt env image s) = None /\
  exists l,
    trace (snd (process_item rt env image s)) = trace s ++ l /\
    filter touches_store l = [].
Proof.
  intro Hu.
  assert (Hnone : forall s1, fst (process_image rt env image s1) = Ok None).
  { intro s1. destruct (process_image_returns rt env image s1) as [o Ho].
    rewrite Ho. f_equal. apply (process_image_unformattable image Hu s1 o Ho). }
  assert (Hc : candidate_of (classify rt env image s) = None).
  { unfold classify.
    destruct (recently_processed env image s) as [[[|] | e] s1]; [reflexivity | |].
    all: destruct (set_mem py_eqb (api_id (item image)) (processed_ids s1));
      [reflexivity |].
    all: specialize (Hnone s1);
      destruct (process_image rt env image s1) as [[[d |] | e'] s2];
      try reflexivity; discriminate Hnone. }
  split; [apply Hnone |]. split; [exact Hc |].
  destruct (process_item_trace rt env image s) as (pre & post & Ht & Fpre & Fpost).
  exists (pre ++ verdict_events (classify rt env image s) ++ post).
  split; [exact Ht |].
  rewrite !filter_app, (filter_quiet pre Fpre),
    (filter_quiet post (off_screen_is_quiet post Fpost)), app_nil_r.
  destruct (classify rt env image s); try reflexivity; discriminate Hc.
Qed.

End Unformattable.

Lemma unformattable_item_is_never_a_candidate_witness :
  unformattable Demo.rt Demo.item_dated_5 /\
  fst (process_image Demo.rt Demo.calm Demo.item_dated_5 Demo.ready) = Ok None.
Proof.
  assert (H : unformattable Demo.rt Demo.item_dated_5).
  { left. split; [reflexivity | intros t E; discriminate E]. }
  split; [exact H |].
  exact (proj1 (unformattable_item_is_never_a_candidate
                  Demo.rt Demo.calm Demo.item_dated_5 Demo.ready H)).
Defined.
